(** * Cloudflare KV to DynamoDB synchronisation: a shallow embedding

    The development follows the Python sources module by module:
    - [Py]                  the Python values the code inspects at run time;
    - [Config]              src/config.py (the records the other modules read);
    - [Env]                 the world outside: HTTP, the table, clocks, random;
    - [CloudflareClient]    src/cloudflare_client.py (circuit breaker, retry loop);
    - [DataTransformer]     src/data_transformer.py;
    - [DynamoDBClient]      src/dynamodb_client.py;
    - [LambdaOptimizations] src/lambda_optimizations.py;
    - [ErrorHandler]        src/error_handler.py;
    - [LambdaFunction]      lambda_function.py.

    Python [float]s are read as rationals ([Q]); Python [int]s as [Z].
    The retry delay of the Cloudflare client is computed as Python computes
    it, each operation rounded to the nearest double ([round64]).
    A [str] is the sequence of bytes of its UTF-8 encoding.  Log lines and
    the audit log are left out; messages of exceptions are kept where they
    are constants. *)

From Stdlib Require Import ZArith QArith Qpower Qminmax Qround Qabs Lqa Lia.
From Stdlib Require Import List String Ascii Bool DecimalString.
Import ListNotations.

Set Implicit Arguments.

(* ================================================================== *)
(** * Python values *)
(* ================================================================== *)

Module Py.

Local Open Scope Z_scope.

(** The values that reach [isinstance] tests.  Dictionaries keep their
    insertion order, keys are strings (every dictionary in this program is
    built from string literals or parsed from JSON).  [PyObject] is any other
    object, known by its type name and by what [str] returns for it. *)
#[warnings="-register-all"]
Inductive PyValue : Type :=
| PyNone
| PyBool (b : bool)
| PyInt (z : Z)
| PyFloat (q : Q)
| PyStr (s : string)
| PyList (l : list PyValue)
| PyDict (d : list (string * PyValue))
| PyObject (type_name : string) (str_ : string).

Definition Dict := list (string * PyValue).

(** [d.get(k)] *)
Fixpoint dict_get (d : Dict) (k : string) : option PyValue :=
  match d with
  | [] => None
  | (k', v) :: d' => if String.eqb k' k then Some v else dict_get d' k
  end.

(** [d[k] = v]: an existing key keeps its position. *)
Fixpoint dict_set (d : Dict) (k : string) (v : PyValue) : Dict :=
  match d with
  | [] => [(k, v)]
  | (k', v') :: d' =>
      if String.eqb k' k then (k', v) :: d' else (k', v') :: dict_set d' k v
  end.

(** [d.update(e)] *)
Definition dict_update (d e : Dict) : Dict :=
  fold_left (fun acc kv => dict_set acc (fst kv) (snd kv)) e d.

(** Truth value of an object, as [if x:] reads it. *)
Definition truthy (v : PyValue) : bool :=
  match v with
  | PyNone => false
  | PyBool b => b
  | PyInt z => negb (z =? 0)
  | PyFloat q => negb (Qeq_bool q 0)
  | PyStr s => negb (String.eqb s "")
  | PyList l => match l with [] => false | _ => true end
  | PyDict d => match d with [] => false | _ => true end
  | PyObject _ _ => true
  end.

(** [type(v).__name__] *)
Definition type_name (v : PyValue) : string :=
  match v with
  | PyNone => "NoneType"
  | PyBool _ => "bool"
  | PyInt _ => "int"
  | PyFloat _ => "float"
  | PyStr _ => "str"
  | PyList _ => "list"
  | PyDict _ => "dict"
  | PyObject n _ => n
  end.

(** [len(s.encode('utf-8'))] *)
Definition utf8_len (s : string) : Z := Z.of_nat (String.length s).

(** [len(s)]: code points, that is the bytes that are not continuation
    bytes [10xxxxxx]. *)
Fixpoint str_len (s : string) : Z :=
  match s with
  | EmptyString => 0
  | String c s' =>
      (if (128 <=? Z.of_nat (nat_of_ascii c)) && (Z.of_nat (nat_of_ascii c) <? 192)
       then 0 else 1) + str_len s'
  end.

(** Python's [min(a, b)] and [max(a, b)] on numbers. *)
Definition py_min (a b : Q) : Q := if Qle_bool a b then a else b.
Definition py_max (a b : Q) : Q := if Qle_bool b a then a else b.

(** ** Arithmetic on [float]: IEEE 754 binary64, round to nearest, ties
    to even.  A double is a rational [m * 2^e] with [|m| < 2^53] and
    [-1074 <= e]; the result of an operation is the double nearest to the
    exact result.  A result of magnitude [2^1024] or more has no double:
    there Python gives [inf], or raises [OverflowError] when it converts an
    [int]; [round64] stands for Python's value below that only. *)

(** [floor(log2 x)] for a positive [x]. *)
Definition ilog2 (x : Q) : Z :=
  let k := (Z.log2 (Qnum x) - Z.log2 (Zpos (Qden x)))%Z in
  if Qle_bool (2 ^ k) x then k else (k - 1)%Z.

(** The integer nearest to [q], the even one of two at the same distance. *)
Definition rne (q : Q) : Z :=
  let f := Qfloor q in
  match Qcompare (q - inject_Z f) (1 # 2) with
  | Lt => f
  | Gt => (f + 1)%Z
  | Eq => if Z.even f then f else (f + 1)%Z
  end.

(** The exponent of the last bit of the double nearest to a positive [x]:
    53 bits from the leading one, and never below [2^-1074]. *)
Definition scale (x : Q) : Z := Z.max (ilog2 x - 52) (-1074).

(** The double nearest to a positive [x]. *)
Definition round_pos (x : Q) : Q :=
  inject_Z (rne (x / 2 ^ scale x)) * 2 ^ scale x.

(** The double nearest to [x]. *)
Definition round64 (x : Q) : Q :=
  match Qcompare x 0 with
  | Eq => 0
  | Gt => Qred (round_pos x)
  | Lt => Qred (- round_pos (- x))
  end.

(** The largest double. *)
Definition max_double : Q := inject_Z (2 ^ 53 - 1) * 2 ^ 971.

(** [x] is the value of a [float] other than [inf] and [nan]. *)
Definition is_double (x : Q) : bool :=
  Qeq_bool (round64 x) x && Qle_bool (Qabs x) max_double.

(** [x * y] and [x + y] on floats. *)
Definition float_mul (x y : Q) : Q := round64 (x * y).
Definition float_add (x y : Q) : Q := round64 (x + y).

Section Str.
(** [str] of a float, a list or a dictionary is the interpreter's
    business; it is a parameter of the development. *)
Variable repr : PyValue -> string.

Definition str_of_Z (z : Z) : string :=
  DecimalString.NilZero.string_of_int (Z.to_int z).

(** [str(v)] *)
Definition py_str (v : PyValue) : string :=
  match v with
  | PyNone => "None"
  | PyBool true => "True"
  | PyBool false => "False"
  | PyInt z => str_of_Z z
  | PyStr s => s
  | PyObject _ s => s
  | _ => repr v
  end.
End Str.

End Py.

(* ================================================================== *)
(** * src/config.py *)
(* ================================================================== *)

Module Config.

(** [@dataclass CloudflareCredentials] *)
Record CloudflareCredentials := {
  api_token : string;
  account_id : string;
  kv_namespace_id : string;
  kv_namespace : string
}.

(** The dictionary that [ConfigurationManager.load_config] returns. *)
Record Config := {
  secrets_manager_secret_name : string;
  dynamodb_table_name : string;
  retry_max_attempts : Z;
  api_timeout_seconds : Z;
  cloudflare_credentials : CloudflareCredentials
}.

End Config.

(* ================================================================== *)
(** * The world outside the program *)
(* ================================================================== *)

Module Env.
Import Py.

(** What the code reads of a [requests.Response]. *)
Record Response := {
  status : Z;                              (* response.status_code *)
  header_retry_after : option (option Z);  (* headers['Retry-After']: absent,
                                              or what int() makes of it *)
  json_content_type : bool;                (* 'application/json' in Content-Type *)
  json : option PyValue;                   (* response.json(); None: ValueError *)
  text : string                            (* response.text *)
}.

(** [response.ok], as [requests] defines it. *)
Definition ok (r : Response) : bool :=
  negb ((400 <=? status r)%Z && (status r <? 600)%Z).

(** What [session.get] does. *)
Inductive Transport :=
| Replies (r : Response)
| Timeout                                  (* requests.exceptions.Timeout *)
| RequestException (msg : string).

(** What [batch_write_item] does: it returns a response, of which the code
    reads [UnprocessedItems][table_name], or raises. *)
Inductive StoreReply :=
| Unprocessed (items : list PyValue)
| ClientError (code : string) (message : string)
| StoreException (msg : string).

(** The state of the world.  The oracles [http], [store], [random_draws] and
    [remaining_time] give the answer of the outside to the n-th call; the
    other fields record what the program did. *)
Record World := {
  clock : Q;                               (* time.time() *)
  slept : list Q;                          (* arguments of time.sleep *)
  http : nat -> Transport;
  http_calls : nat;
  store : nat -> list PyValue -> StoreReply;
  store_requests : list (list PyValue);    (* batch_write_item requests *)
  random_draws : nat -> Q;
  random_calls : nat;
  remaining_time : nat -> Z;               (* get_remaining_time_in_millis *)
  remaining_calls : nat
}.

(** [time.sleep(d)] *)
Definition sleep (d : Q) (w : World) : World :=
  {| clock := clock w + d; slept := slept w ++ [d];
     http := http w; http_calls := http_calls w;
     store := store w; store_requests := store_requests w;
     random_draws := random_draws w; random_calls := random_calls w;
     remaining_time := remaining_time w; remaining_calls := remaining_calls w |}.

(** [random.random()] *)
Definition random (w : World) : Q * World :=
  (random_draws w (random_calls w),
   {| clock := clock w; slept := slept w;
      http := http w; http_calls := http_calls w;
      store := store w; store_requests := store_requests w;
      random_draws := random_draws w; random_calls := S (random_calls w);
      remaining_time := remaining_time w; remaining_calls := remaining_calls w |}).

(** [session.get(url, timeout=...)] *)
Definition session_get (w : World) : Transport * World :=
  (http w (http_calls w),
   {| clock := clock w; slept := slept w;
      http := http w; http_calls := S (http_calls w);
      store := store w; store_requests := store_requests w;
      random_draws := random_draws w; random_calls := random_calls w;
      remaining_time := remaining_time w; remaining_calls := remaining_calls w |}).

(** [dynamodb_resource.batch_write_item(RequestItems={table: [PutRequest...]})] *)
Definition batch_write_item (items : list PyValue) (w : World) : StoreReply * World :=
  (store w (List.length (store_requests w)) items,
   {| clock := clock w; slept := slept w;
      http := http w; http_calls := http_calls w;
      store := store w; store_requests := store_requests w ++ [items];
      random_draws := random_draws w; random_calls := random_calls w;
      remaining_time := remaining_time w; remaining_calls := remaining_calls w |}).

(** [context.get_remaining_time_in_millis()] *)
Definition remaining_time_in_millis (w : World) : Z * World :=
  (remaining_time w (remaining_calls w),
   {| clock := clock w; slept := slept w;
      http := http w; http_calls := http_calls w;
      store := store w; store_requests := store_requests w;
      random_draws := random_draws w; random_calls := random_calls w;
      remaining_time := remaining_time w; remaining_calls := S (remaining_calls w) |}).

End Env.

(* ================================================================== *)
(** * src/cloudflare_client.py *)
(* ================================================================== *)

Module CloudflareClient.
Import Py.

Local Open Scope Q_scope.

(** ** class RetryConfig *)
Record RetryConfig := {
  max_attempts : Z;
  base_delay : Q;
  max_delay : Q;
  jitter : bool
}.

(** [RetryConfig()] *)
Definition default_retry_config : RetryConfig :=
  {| max_attempts := 3; base_delay := 1; max_delay := 60; jitter := true |}.

(** The value of [delay] after the cap and before the jitter:
    [min(base_delay * (2 ** attempt), max_delay)].  [2 ** attempt] is an
    [int] for [attempt >= 0], converted to the [float] of the same value
    when it is multiplied (Python raises [OverflowError] there from
    [attempt = 1024] on), and a [float] for a negative [attempt]. *)
Definition capped_delay (rc : RetryConfig) (attempt : Z) : Q :=
  py_min (float_mul (base_delay rc) (round64 (2 ^ attempt))) (max_delay rc).

(** The jitter term [delay * 0.25 * random.random()]; [rnd] is what
    [random.random()] returned, a number of [[0, 1)]. *)
Definition jitter_term (rc : RetryConfig) (attempt : Z) (rnd : Q) : Q :=
  float_mul (float_mul (capped_delay rc attempt) (25 # 100)) rnd.

(** [CloudflareClient._calculate_retry_delay] *)
Definition _calculate_retry_delay (rc : RetryConfig) (attempt : Z) (rnd : Q) : Q :=
  let delay := float_mul (base_delay rc) (round64 (2 ^ attempt)) in
  let delay := py_min delay (max_delay rc) in
  if jitter rc then
    let jitter := float_mul (float_mul delay (25 # 100)) rnd in
    float_add delay jitter
  else delay.

(** ** Exceptions
    [CloudflareAuthenticationError] and [CloudflareRateLimitError] derive from
    [CloudflareAPIError]; an [except] chain that lists them first sees them
    as different cases.  [OtherException] is any exception outside this
    hierarchy ([ValueError], [TypeError], ...). *)
Inductive Exn : Type :=
| CloudflareAuthenticationError (msg : string) (status_code : option Z)
| CloudflareRateLimitError (msg : string) (retry_after : option Z)
| CloudflareAPIError (msg : string) (status_code : option Z)
| OtherException (type_name : string) (msg : string).

(** ** class CircuitBreaker *)
Inductive CircuitBreakerState := CLOSED | OPEN | HALF_OPEN.

Record CircuitBreaker := {
  failure_threshold : Z;
  recovery_timeout : Q;
  failure_count : Z;
  last_failure_time : option Q;
  state : CircuitBreakerState;
  success_count : Z
}.

(** [CircuitBreaker.__init__] *)
Definition new_circuit_breaker (failure_threshold : Z) (recovery_timeout : Q)
  : CircuitBreaker :=
  {| failure_threshold := failure_threshold;
     recovery_timeout := recovery_timeout;
     failure_count := 0;
     last_failure_time := None;
     state := CLOSED;
     success_count := 0 |}.

Definition set_state (cb : CircuitBreaker) (s : CircuitBreakerState) :=
  {| failure_threshold := failure_threshold cb;
     recovery_timeout := recovery_timeout cb;
     failure_count := failure_count cb;
     last_failure_time := last_failure_time cb;
     state := s;
     success_count := success_count cb |}.

(** [CircuitBreaker._should_attempt_reset]; [now] is [time.time()]. *)
Definition _should_attempt_reset (cb : CircuitBreaker) (now : Q) : bool :=
  match last_failure_time cb with
  | None => true
  | Some t => Qle_bool (recovery_timeout cb) (now - t)
  end.

(** [CircuitBreaker._on_success] *)
Definition _on_success (cb : CircuitBreaker) : CircuitBreaker :=
  match state cb with
  | HALF_OPEN =>
      let success_count' := (success_count cb + 1)%Z in
      if (3 <=? success_count')%Z then
        {| failure_threshold := failure_threshold cb;
           recovery_timeout := recovery_timeout cb;
           failure_count := 0;
           last_failure_time := last_failure_time cb;
           state := CLOSED;
           success_count := 0 |}
      else
        {| failure_threshold := failure_threshold cb;
           recovery_timeout := recovery_timeout cb;
           failure_count := failure_count cb;
           last_failure_time := last_failure_time cb;
           state := state cb;
           success_count := success_count' |}
  | _ =>
      {| failure_threshold := failure_threshold cb;
         recovery_timeout := recovery_timeout cb;
         failure_count := 0;
         last_failure_time := last_failure_time cb;
         state := state cb;
         success_count := success_count cb |}
  end.

(** [CircuitBreaker._on_failure]; [now] is [time.time()]. *)
Definition _on_failure (cb : CircuitBreaker) (now : Q) : CircuitBreaker :=
  let failure_count' := (failure_count cb + 1)%Z in
  {| failure_threshold := failure_threshold cb;
     recovery_timeout := recovery_timeout cb;
     failure_count := failure_count';
     last_failure_time := Some now;
     state := if (failure_threshold cb <=? failure_count')%Z then OPEN
              else state cb;
     success_count := 0 |}.

Definition circuit_open_error : Exn :=
  CloudflareAPIError "Circuit breaker is OPEN - too many recent failures" None.

(** The first statement of [CircuitBreaker.call]: [None] when the call is
    refused, otherwise the breaker with which the function is run. *)
Definition gate (cb : CircuitBreaker) (now : Q) : option CircuitBreaker :=
  match state cb with
  | OPEN => if _should_attempt_reset cb now then Some (set_state cb HALF_OPEN)
            else None
  | _ => Some cb
  end.

Section Call.
(** [W] is the state of everything outside the breaker: the wrapped
    function reads and changes it, [time.time()] reads it. *)
Variables W A : Type.
Variable time : W -> Q.

(** [CircuitBreaker.call] *)
Definition call (cb : CircuitBreaker) (func : W -> (A + Exn) * W) (w : W)
  : (A + Exn) * CircuitBreaker * W :=
  match gate cb (time w) with
  | None => (inr circuit_open_error, cb, w)
  | Some cb1 =>
      let '(r, w1) := func w in
      match r with
      | inl result => (inl result, _on_success cb1, w1)
      | inr e => (inr e, _on_failure cb1 (time w1), w1)
      end
  end.
End Call.

(** What one [call] does to the breaker, given the clock before the call,
    the clock when the wrapped function returned and whether it raised. *)
Inductive Outcome := Succeeds | Fails.

Definition step (cb : CircuitBreaker) (before after : Q) (o : Outcome)
  : CircuitBreaker :=
  match gate cb before with
  | None => cb
  | Some cb1 =>
      match o with
      | Succeeds => _on_success cb1
      | Fails => _on_failure cb1 after
      end
  end.

(** A sequence of calls, each with its two clock readings. *)
Fixpoint run (cb : CircuitBreaker) (calls : list (Q * Q * Outcome))
  : CircuitBreaker :=
  match calls with
  | [] => cb
  | (before, after, o) :: calls' => run (step cb before after o) calls'
  end.

(** The breakers a program can hold: a new one, and what [call] leaves. *)
Inductive reachable (threshold : Z) (timeout : Q) : CircuitBreaker -> Prop :=
| reachable_new : reachable threshold timeout (new_circuit_breaker threshold timeout)
| reachable_step cb before after o :
    reachable threshold timeout cb ->
    reachable threshold timeout (step cb before after o).

(** ** The retry loop of [_execute_with_retry_and_circuit_breaker] *)
Section Retry.
Variables W A : Type.
Variable sleep : Q -> W -> W.        (* time.sleep *)
Variable random : W -> Q * W.        (* random.random() *)

(** [self._calculate_retry_delay(attempt)] with its call of
    [random.random()], made only when jitter is on. *)
Definition calculate_retry_delay_io (rc : RetryConfig) (attempt : Z) (w : W)
  : Q * W :=
  if jitter rc then
    let '(rnd, w1) := random w in (_calculate_retry_delay rc attempt rnd, w1)
  else (_calculate_retry_delay rc attempt 0, w).

(** [e.status_code and 400 <= e.status_code < 500 and e.status_code != 429] *)
Definition is_client_error (status_code : option Z) : bool :=
  match status_code with
  | None => false
  | Some c => negb (c =? 0)%Z && ((400 <=? c)%Z && (c <? 500)%Z) && negb (c =? 429)%Z
  end.

(** [time.sleep(d)]: a negative [d] raises [ValueError]. *)
Definition time_sleep (d : Q) (w : W) : W + Exn :=
  if Qle_bool 0 d then inl (sleep d w)
  else inr (OtherException "ValueError" "sleep length must be non-negative").

(** [e.retry_after or 60] *)
Definition retry_after_or_60 (retry_after : option Z) : Z :=
  match retry_after with
  | None => 60
  | Some r => if (r =? 0)%Z then 60 else r
  end.

(** The [for attempt in range(max_attempts)] loop of [_execute_with_retries]:
    [remaining] iterations are left, the next one has number [attempt].
    An exception raised inside an [except] clause, as [time.sleep] may,
    leaves the loop. *)
Fixpoint retry_loop (rc : RetryConfig) (func : W -> (A + Exn) * W)
    (remaining : nat) (attempt : Z) (last_exception : option Exn) (w : W)
  : (A + Exn) * W :=
  match remaining with
  | O =>
      (* All retries exhausted *)
      match last_exception with
      | Some e => (inr e, w)
      | None => (inr (CloudflareAPIError "All retry attempts exhausted" None), w)
      end
  | S remaining' =>
      let '(r, w1) := func w in
      match r with
      | inl result => (inl result, w1)
      | inr (CloudflareAuthenticationError _ _ as e) => (inr e, w1)
      | inr (CloudflareRateLimitError _ retry_after as e) =>
          if (attempt <? max_attempts rc - 1)%Z then
            let retry_delay := retry_after_or_60 retry_after in
            match time_sleep (inject_Z retry_delay) w1 with
            | inl w2 =>
                retry_loop rc func remaining' (attempt + 1)%Z last_exception w2
            | inr raised => (inr raised, w1)
            end
          else (inr e, w1)
      | inr (CloudflareAPIError _ status_code as e) =>
          if is_client_error status_code then (inr e, w1)
          else if (attempt <? max_attempts rc - 1)%Z then
            let '(delay, w2) := calculate_retry_delay_io rc attempt w1 in
            match time_sleep delay w2 with
            | inl w3 => retry_loop rc func remaining' (attempt + 1)%Z (Some e) w3
            | inr raised => (inr raised, w2)
            end
          else (inr e, w1)
      | inr (OtherException _ _ as e) => (inr e, w1)
      end
  end.

(** [_execute_with_retries] *)
Definition _execute_with_retries (rc : RetryConfig)
    (func : W -> (A + Exn) * W) (w : W) : (A + Exn) * W :=
  retry_loop rc func (Z.to_nat (max_attempts rc)) 0%Z None w.

Variable time : W -> Q.

(** [_execute_with_retry_and_circuit_breaker] *)
Definition _execute_with_retry_and_circuit_breaker (rc : RetryConfig)
    (cb : CircuitBreaker) (func : W -> (A + Exn) * W) (w : W)
  : (A + Exn) * CircuitBreaker * W :=
  call time cb (_execute_with_retries rc func) w.
End Retry.

(** ** Responses *)

(** [@dataclass CloudflareError] *)
Record CloudflareError := { code : PyValue; message : PyValue }.

(** [@dataclass CloudflareValueResponse] *)
Record CloudflareValueResponse := {
  success : PyValue;
  result : PyValue;
  errors : list CloudflareError
}.

(** [@dataclass CloudflareKey] *)
Record CloudflareKey := {
  name : string;
  expiration : option Z;
  metadata : option Dict
}.

Definition get_default (d : Dict) (k : string) (default : PyValue) : PyValue :=
  match dict_get d k with Some v => v | None => default end.

(** [[CloudflareError(code=err.get('code', 0), message=err.get('message', ''))
      for err in errs]]: an element that is not a dictionary has no [get],
    a value that is not iterable cannot be looped over. *)
Fixpoint error_list (l : list PyValue) : list CloudflareError + Exn :=
  match l with
  | [] => inl []
  | PyDict err :: l' =>
      match error_list l' with
      | inl es => inl ({| code := get_default err "code" (PyInt 0);
                          message := get_default err "message" (PyStr "") |} :: es)
      | inr e => inr e
      end
  | _ :: _ => inr (OtherException "AttributeError" "object has no attribute 'get'")
  end.

Definition parse_errors (errs : PyValue) : list CloudflareError + Exn :=
  match errs with
  | PyList l => error_list l
  | PyDict [] | PyStr EmptyString => inl []
  | PyDict _ | PyStr _ =>
      inr (OtherException "AttributeError" "'str' object has no attribute 'get'")
  | _ => inr (OtherException "TypeError" "object is not iterable")
  end.

(** [CloudflareClient._parse_value_response] *)
Definition _parse_value_response (data : PyValue) : CloudflareValueResponse + Exn :=
  match data with
  | PyDict d =>
      match dict_get d "success" with
      | Some _ =>
          match parse_errors (get_default d "errors" (PyList [])) with
          | inl errors =>
              inl {| success := get_default d "success" (PyBool false);
                     result := get_default d "result" PyNone;
                     errors := errors |}
          | inr e => inr e
          end
      | None => inl {| success := PyBool true; result := data; errors := [] |}
      end
  | _ => inl {| success := PyBool true; result := data; errors := [] |}
  end.

Section HandleResponse.
(** The texts of the error messages are built from the body with
    f-strings; they are a parameter. *)
Variable error_msg : Env.Response -> string.

(** The [if not response.ok] block of [_handle_response]: the exception
    that leaves it.  A body that is not JSON, or [errors] being an empty
    dictionary ([KeyError]), ends in the [except (ValueError, KeyError)]
    branch; both branches raise [CloudflareAPIError] with the status. *)
Definition http_error (r : Env.Response) : Exn :=
  match Env.json r with
  | None => CloudflareAPIError (error_msg r) (Some (Env.status r))
  | Some (PyDict error_data) =>
      match parse_errors (get_default error_data "errors" (PyList [])) with
      | inr e => e
      | inl _ =>
          match get_default error_data "errors" (PyList [PyDict []]) with
          | PyList [] | PyStr _ =>
              OtherException "IndexError" "index out of range"
          | _ => CloudflareAPIError (error_msg r) (Some (Env.status r))
          end
      end
  | Some _ => OtherException "AttributeError" "object has no attribute 'get'"
  end.

(** [CloudflareClient._handle_response] with
    [parser_func = self._parse_value_response] *)
Definition _handle_response (r : Env.Response) : CloudflareValueResponse + Exn :=
  if ((Env.status r =? 401) || (Env.status r =? 403))%Z then
    inr (CloudflareAuthenticationError (error_msg r) (Some (Env.status r)))
  else if (Env.status r =? 429)%Z then
    match Env.header_retry_after r with
    | None => inr (CloudflareRateLimitError (error_msg r) (Some 60%Z))
    | Some (Some retry_after) =>
        inr (CloudflareRateLimitError (error_msg r) (Some retry_after))
    | Some None => inr (OtherException "ValueError" "invalid literal for int()")
    end
  else if negb (Env.ok r) then inr (http_error r)
  else if negb (Env.json_content_type r) then
    inl {| success := PyBool true; result := PyStr (Env.text r); errors := [] |}
  else
    match Env.json r with
    | None =>
        inl {| success := PyBool true; result := PyStr (Env.text r); errors := [] |}
    | Some json_data => _parse_value_response json_data
    end.

(** The [try] statement of [_make_request]: what it makes of the
    outcome of [session.get]. *)
Definition request_result (t : Env.Transport) : CloudflareValueResponse + Exn :=
  match t with
  | Env.Replies response => _handle_response response
  | Env.Timeout => inr (CloudflareAPIError "Request timeout" None)
  | Env.RequestException msg =>
      inr (CloudflareAPIError (String.append "Network error during get_value: " msg)
             None)
  end.

(** [_make_request] of [get_value] *)
Definition _make_request (w : Env.World) : (CloudflareValueResponse + Exn) * Env.World :=
  let '(t, w1) := Env.session_get w in
  (request_result t, w1).

(** ** class CloudflareClient
    [oid] stands for the identity of the object. *)
Record Client := {
  oid : nat;
  credentials : Config.CloudflareCredentials;
  timeout : Z;
  retry_config : RetryConfig;
  circuit_breaker : CircuitBreaker
}.

(** [CloudflareClient.__init__]; the breaker is [CircuitBreaker(logger=...)]. *)
Definition new_client (oid : nat) (credentials : Config.CloudflareCredentials)
    (timeout : Z) (retry_config : RetryConfig) : Client :=
  {| oid := oid; credentials := credentials; timeout := timeout;
     retry_config := retry_config;
     circuit_breaker := new_circuit_breaker 5 60 |}.

(** [CloudflareClient.get_value] *)
Definition get_value (c : Client) (w : Env.World)
  : (CloudflareValueResponse + Exn) * Client * Env.World :=
  let '(r, cb, w1) :=
    _execute_with_retry_and_circuit_breaker Env.sleep Env.random Env.clock
      (retry_config c) (circuit_breaker c) _make_request w in
  (r, {| oid := oid c; credentials := credentials c; timeout := timeout c;
         retry_config := retry_config c; circuit_breaker := cb |}, w1).
End HandleResponse.

End CloudflareClient.

(* ================================================================== *)
(** * src/data_transformer.py *)
(* ================================================================== *)

Module DataTransformer.
Import Py.

Local Open Scope Z_scope.

(** [@dataclass DynamoDBRecord].  A dataclass does not check the types it
    declares, so every field holds a Python value. *)
Record DynamoDBRecord := {
  pk : PyValue;
  sk : PyValue;
  key_name : PyValue;
  value : PyValue;
  metadata : PyValue;
  retrieved_at : PyValue;
  ttl : PyValue;
  source : PyValue;
  namespace_id : PyValue;
  data_version : PyValue
}.

(** [raise DataValidationError(msg)] *)
Inductive Raises (A : Type) :=
| Returns (a : A)
| DataValidationError (msg : string).
Arguments Returns {A} a.
Arguments DataValidationError {A} msg.

Definition DATA_VERSION : string := "1.0".
Definition SOURCE : string := "cloudflare_kv".
Definition MAX_DYNAMODB_ITEM_SIZE : Z := 400 * 1024.

Section Transformer.
(** [str] of compound values, and [json.dumps(value, default=str)], which
    gives [None] when it raises [TypeError] or [ValueError]. *)
Variable repr : PyValue -> string.
Variable json_dumps : PyValue -> option string.

(** [self.namespace_id] *)
Variable self_namespace_id : string.

(** The conversion of the value to a string in [transform_kv_record]. *)
Definition value_str (value : PyValue) : string :=
  match value with
  | PyNone => ""
  | PyStr s => s
  | _ =>
      match json_dumps value with
      | Some s => s
      | None => py_str repr value
      end
  end.

(** [DataTransformer.transform_kv_record]; [iso_timestamp] is
    [datetime.now(timezone.utc).isoformat()].  No statement of the body
    raises on these arguments, the record is returned. *)
Definition transform_kv_record (iso_timestamp : string) (key : PyValue)
    (value : PyValue)
    (cloudflare_key_metadata : option CloudflareClient.CloudflareKey)
  : DynamoDBRecord :=
  let pk := String.append "cf_kv#" (py_str repr key) in
  let sk := iso_timestamp in
  let value_str := value_str value in
  let metadata : Dict := [] in
  let ttl := PyNone in
  let '(metadata, ttl) :=
    match cloudflare_key_metadata with
    | Some km =>
        let metadata :=
          match CloudflareClient.metadata km with
          | Some ((_ :: _) as md) => dict_update metadata md
          | _ => metadata
          end in
        match CloudflareClient.expiration km with
        | Some e =>
            if negb (e =? 0)
            then (dict_set metadata "cloudflare_expiration" (PyInt e), PyInt e)
            else (metadata, ttl)
        | None => (metadata, ttl)
        end
    | None => (metadata, ttl)
    end in
  let metadata :=
    dict_update metadata
      [("transformed_at"%string, PyStr iso_timestamp);
       ("original_type"%string, PyStr (type_name value));
       ("value_length"%string, PyInt (str_len value_str))] in
  {| pk := PyStr pk;
     sk := PyStr sk;
     key_name := key;
     value := PyStr value_str;
     metadata := PyDict metadata;
     retrieved_at := PyStr iso_timestamp;
     ttl := ttl;
     source := PyStr SOURCE;
     namespace_id := PyStr self_namespace_id;
     data_version := PyStr DATA_VERSION |}.

(** The size of one element of a list value. *)
Definition list_item_size (item : PyValue) : Z :=
  match item with
  | PyStr s => utf8_len s
  | _ => utf8_len (py_str repr item)
  end.

(** The size that [_estimate_dict_size] adds for one value; [bool] is a
    subclass of [int], so the [(int, float)] test takes booleans too. *)
Fixpoint value_size (v : PyValue) : Z :=
  match v with
  | PyStr s => utf8_len s
  | PyInt _ | PyFloat _ | PyBool _ => 8
  | PyDict d =>
      (fix dict_size (d : list (string * PyValue)) : Z :=
         match d with
         | [] => 0
         | (k, v) :: d' => utf8_len k + value_size v + dict_size d'
         end) d
  | PyList l => fold_right (fun item acc => list_item_size item + acc) 0 l
  | _ => utf8_len (py_str repr v)
  end.

(** [DataTransformer._estimate_dict_size] *)
Fixpoint _estimate_dict_size (data : Dict) : Z :=
  match data with
  | [] => 0
  | (k, v) :: data' => utf8_len k + value_size v + _estimate_dict_size data'
  end.

(** One string attribute in [_estimate_item_size]. *)
Definition attr_size (attr : string) (value : PyValue) : Z :=
  if truthy value then utf8_len attr + utf8_len (py_str repr value) else 0.

(** [record.metadata] where a dictionary is expected; [validate_record]
    has checked that it is one before the size is estimated. *)
Definition metadata_dict (record : DynamoDBRecord) : Dict :=
  match metadata record with
  | PyDict md => md
  | _ => []
  end.

(** [DataTransformer._estimate_item_size] *)
Definition _estimate_item_size (record : DynamoDBRecord) : Z :=
  attr_size "pk" (pk record) + attr_size "sk" (sk record)
  + attr_size "key_name" (key_name record) + attr_size "value" (value record)
  + attr_size "retrieved_at" (retrieved_at record)
  + attr_size "source" (source record)
  + attr_size "namespace_id" (namespace_id record)
  + attr_size "data_version" (data_version record)
  + (match ttl record with PyNone => 0 | _ => utf8_len "ttl" + 8 end)
  + utf8_len "metadata"
  + _estimate_dict_size (metadata_dict record).

(** [validate_value] of [_validate_metadata_for_dynamodb]: it raises only
    on a dictionary key that is not a string, and the keys here are
    strings; unsupported types get a warning in the log. *)
Definition _validate_metadata_for_dynamodb (md : Dict) : Raises unit :=
  Returns tt.

(** [DataTransformer._validate_dynamodb_constraints], for a record whose
    [pk] and [sk] are the strings [pk_s], [sk_s] and whose metadata is [md]. *)
Definition _validate_dynamodb_constraints (record : DynamoDBRecord)
    (pk_s sk_s : string) (md : Dict) : Raises unit :=
  let item_size := _estimate_item_size record in
  if MAX_DYNAMODB_ITEM_SIZE <? item_size then
    DataValidationError "Record size exceeds DynamoDB limit"
  else if 2048 <? utf8_len pk_s then
    DataValidationError "Primary key exceeds DynamoDB 2KB limit"
  else if 1024 <? utf8_len sk_s then
    DataValidationError "Sort key exceeds DynamoDB 1KB limit"
  else _validate_metadata_for_dynamodb md.

Definition is_none (v : PyValue) : bool :=
  match v with PyNone => true | _ => false end.

(** [isinstance(v, str) and v], with the string when it holds. *)
Definition non_empty_str (v : PyValue) : option string :=
  match v with
  | PyStr s => if String.eqb s "" then None else Some s
  | _ => None
  end.

Definition bind {A B} (x : Raises A) (k : A -> Raises B) : Raises B :=
  match x with
  | Returns a => k a
  | DataValidationError msg => DataValidationError msg
  end.

(** [if not cond: raise DataValidationError(msg)] *)
Definition require (cond : bool) (msg : string) : Raises unit :=
  if cond then Returns tt else DataValidationError msg.

(** [isinstance(v, str) and v] or raise. *)
Definition require_non_empty_str (v : PyValue) (msg : string) : Raises string :=
  match non_empty_str v with
  | Some s => Returns s
  | None => DataValidationError msg
  end.

(** The first required field that is [None]. *)
Definition missing_required_field (record : DynamoDBRecord) : option string :=
  option_map fst
    (find (fun f => is_none (snd f))
       [("pk"%string, pk record); ("sk"%string, sk record);
        ("key_name"%string, key_name record); ("value"%string, value record);
        ("retrieved_at"%string, retrieved_at record);
        ("source"%string, source record);
        ("namespace_id"%string, namespace_id record);
        ("data_version"%string, data_version record)]).

Local Notation "x <- e ;; k" := (bind e (fun x => k))
  (at level 61, e at next level, right associativity).

(** [DataTransformer.validate_record] *)
Definition validate_record (record : DynamoDBRecord) : Raises bool :=
  match missing_required_field record with
  | Some field =>
      DataValidationError (String.append "Missing required field: " field)
  | None =>
      pk_s <- require_non_empty_str (pk record)
                "Primary key (pk) must be a non-empty string" ;;
      sk_s <- require_non_empty_str (sk record)
                "Sort key (sk) must be a non-empty string" ;;
      _ <- require_non_empty_str (key_name record)
                "Key name must be a non-empty string" ;;
      _ <- require (match value record with PyStr _ => true | _ => false end)
                "Value must be a string" ;;
      match metadata record with
      | PyDict md =>
          _ <- require (match source record with
                        | PyStr s => String.eqb s SOURCE
                        | _ => false
                        end)
                 "Source must be 'cloudflare_kv'" ;;
          _ <- require_non_empty_str (namespace_id record)
                 "Namespace ID must be a non-empty string" ;;
          _ <- require_non_empty_str (data_version record)
                 "Data version must be a non-empty string" ;;
          _ <- require (match ttl record with
                        | PyNone | PyInt _ | PyBool _ => true
                        | _ => false
                        end)
                 "TTL must be an integer or None" ;;
          _ <- _validate_dynamodb_constraints record pk_s sk_s md ;;
          Returns true
      | _ => DataValidationError "Metadata must be a dictionary"
      end
  end.

(** What [handle_missing_or_null_values] keeps under a key for [value]:
    a dictionary is rebuilt by the method itself, a list element by element
    (the dictionaries in it rebuilt by the method), anything else is kept. *)
Fixpoint processed_value (value : PyValue) : PyValue :=
  match value with
  | PyNone => PyNone
  | PyDict d =>
      PyDict (fold_left
                (fun processed_data kv =>
                   dict_set processed_data (fst kv) (processed_value (snd kv)))
                d [])
  | PyList l =>
      PyList (map (fun item => match item with
                               | PyDict _ => processed_value item
                               | _ => item
                               end) l)
  | _ => value
  end.

(** [DataTransformer.handle_missing_or_null_values]: the loop
    [for key, value in data.items(): processed_data[key] = ...]. *)
Definition handle_missing_or_null_values (data : Dict) : Dict :=
  fold_left
    (fun processed_data kv =>
       dict_set processed_data (fst kv) (processed_value (snd kv)))
    data [].

(** [DataTransformer.validate_api_response_fields] *)
Definition validate_api_response_fields (response_data : Dict)
    (required_fields : list string) : Raises bool :=
  let missing_fields :=
    filter (fun field => match dict_get response_data field with
                         | None => true
                         | Some _ => false
                         end) required_fields in
  match missing_fields with
  | [] => Returns true
  | _ =>
      DataValidationError
        (String.append "Missing required fields in API response: "
           (String.concat ", " missing_fields))
  end.

(** The loop [for i, record in enumerate(records)] of
    [validate_and_process_batch], from the record of index [i] on. *)
Fixpoint validate_from (skip_invalid : bool) (records : list DynamoDBRecord)
    (i : Z) (valid_records : list DynamoDBRecord)
  : Raises (list DynamoDBRecord) :=
  match records with
  | [] => Returns valid_records
  | record :: records' =>
      match validate_record record with
      | Returns true =>
          validate_from skip_invalid records' (i + 1) (valid_records ++ [record])
      | Returns false => validate_from skip_invalid records' (i + 1) valid_records
      | DataValidationError e =>
          if skip_invalid
          then validate_from skip_invalid records' (i + 1) valid_records
          else
            DataValidationError
              (String.append "Record "
                 (String.append (str_of_Z i)
                    (String.append " validation failed: " e)))
      end
  end.

(** [DataTransformer.validate_and_process_batch] *)
Definition validate_and_process_batch (records : list DynamoDBRecord)
    (skip_invalid : bool) : Raises (list DynamoDBRecord) :=
  validate_from skip_invalid records 0 [].

(** [float(value)] of a [Decimal], known by its text. *)
Variable float_of_decimal : string -> Q.

(** [DataTransformer.sanitize_for_dynamodb]; the dictionary comprehension
    sets the keys one after the other. *)
Fixpoint sanitize_for_dynamodb (value : PyValue) : PyValue :=
  match value with
  | PyNone => PyNone
  | PyStr _ | PyInt _ | PyFloat _ | PyBool _ => value
  | PyDict d =>
      PyDict (fold_left
                (fun acc kv =>
                   dict_set acc (fst kv) (sanitize_for_dynamodb (snd kv)))
                d [])
  | PyList l => PyList (map sanitize_for_dynamodb l)
  | PyObject t s =>
      if String.eqb t "Decimal" then PyFloat (float_of_decimal s) else PyStr s
  end.

End Transformer.

End DataTransformer.

(* ================================================================== *)
(** * src/dynamodb_client.py *)
(* ================================================================== *)

Module DynamoDBClient.
Import Py.
Import DataTransformer(DynamoDBRecord).

(** [@dataclass BatchWriteResult] *)
Record BatchWriteResult := {
  successful_records : Z;
  failed_records : Z;
  unprocessed_items : list PyValue;
  errors : list string;
  total_attempts : Z;
  execution_time_ms : Z
}.

Definition MAX_BATCH_SIZE : Z := 25.
Definition MAX_ITEM_SIZE : Z := 400 * 1024.
Definition DEFAULT_MAX_RETRIES : Z := 3.
Definition BASE_DELAY : Q := 1 # 10.
Definition MAX_DELAY : Q := 60.
Definition JITTER_RANGE : Q := 1 # 10.

Definition RETRYABLE_ERRORS : list string :=
  ["ProvisionedThroughputExceededException"; "ThrottlingException";
   "InternalServerError"; "ServiceUnavailable"; "RequestLimitExceeded"]%string.

(** ** class DynamoDBClient: the fields that the methods read and write;
    [oid] stands for the identity of the object. *)
Record Client := {
  oid : nat;
  table_name : string;
  max_retries : Z;
  total_records_attempted : Z;
  total_records_successful : Z;
  total_records_failed : Z;
  total_write_operations : Z;
  total_retry_attempts : Z
}.

(** [DynamoDBClient.__init__]: [max_retries or self.DEFAULT_MAX_RETRIES],
    then [reset_statistics()]. *)
Definition new_client (oid : nat) (table_name : string) (max_retries : option Z)
  : Client :=
  {| oid := oid;
     table_name := table_name;
     max_retries := match max_retries with
                    | None => DEFAULT_MAX_RETRIES
                    | Some n => if (n =? 0)%Z then DEFAULT_MAX_RETRIES else n
                    end;
     total_records_attempted := 0;
     total_records_successful := 0;
     total_records_failed := 0;
     total_write_operations := 0;
     total_retry_attempts := 0 |}.

(** The assignments to the counters. *)
Definition add_attempted (self : Client) (n : Z) : Client :=
  {| oid := oid self; table_name := table_name self; max_retries := max_retries self;
     total_records_attempted := total_records_attempted self + n;
     total_records_successful := total_records_successful self;
     total_records_failed := total_records_failed self;
     total_write_operations := total_write_operations self;
     total_retry_attempts := total_retry_attempts self |}.

Definition add_failed (self : Client) (n : Z) : Client :=
  {| oid := oid self; table_name := table_name self; max_retries := max_retries self;
     total_records_attempted := total_records_attempted self;
     total_records_successful := total_records_successful self;
     total_records_failed := total_records_failed self + n;
     total_write_operations := total_write_operations self;
     total_retry_attempts := total_retry_attempts self |}.

Definition add_retry_attempts (self : Client) (n : Z) : Client :=
  {| oid := oid self; table_name := table_name self; max_retries := max_retries self;
     total_records_attempted := total_records_attempted self;
     total_records_successful := total_records_successful self;
     total_records_failed := total_records_failed self;
     total_write_operations := total_write_operations self;
     total_retry_attempts := total_retry_attempts self + n |}.

(** The three updates at the end of [batch_write_records]. *)
Definition add_results (self : Client) (successful failed operations : Z) : Client :=
  {| oid := oid self; table_name := table_name self; max_retries := max_retries self;
     total_records_attempted := total_records_attempted self;
     total_records_successful := total_records_successful self + successful;
     total_records_failed := total_records_failed self + failed;
     total_write_operations := total_write_operations self + operations;
     total_retry_attempts := total_retry_attempts self |}.

(** [DynamoDBClient._calculate_retry_delay]; [rnd] is the value of
    [random.random()]. *)
Definition _calculate_retry_delay (attempt : Z) (rnd : Q) : Q :=
  (let delay := BASE_DELAY * Qpower 2 (attempt - 1) in
   let delay := py_min delay MAX_DELAY in
   let jitter := delay * JITTER_RANGE * (2 * rnd - 1) in
   let delay := delay + jitter in
   py_max delay (1 # 100))%Q.

(** [len(l)] *)
Definition len {A} (l : list A) : Z := Z.of_nat (List.length l).

(** [int(x)] of a float: towards zero. *)
Definition py_int (x : Q) : Z :=
  if Qle_bool 0 x then Qfloor x else Qceiling x.

Section Client.
Variable repr : PyValue -> string.

Local Open Scope Z_scope.

(** The size of one element of a list value. *)
Definition list_item_size (item : PyValue) : Z :=
  match item with
  | PyStr s => utf8_len s
  | _ => utf8_len (py_str repr item)
  end.

(** The size that [_estimate_item_size] and [_estimate_dict_size] add for
    one value. *)
Fixpoint value_size (v : PyValue) : Z :=
  match v with
  | PyStr s => utf8_len s
  | PyInt _ | PyFloat _ | PyBool _ => 8
  | PyDict d =>
      (fix dict_size (d : list (string * PyValue)) : Z :=
         match d with
         | [] => 0
         | (k, v) :: d' => utf8_len k + value_size v + dict_size d'
         end) d
  | PyList l => fold_right (fun item acc => list_item_size item + acc) 0 l
  | PyNone => 1
  | PyObject _ _ => utf8_len (py_str repr v)
  end.

(** [DynamoDBClient._estimate_item_size] *)
Fixpoint _estimate_item_size (item : Dict) : Z :=
  match item with
  | [] => 0
  | (key, v) :: item' => utf8_len key + value_size v + _estimate_item_size item'
  end.

(** The message of the [DynamoDBError] that [_record_to_dynamodb_item]
    raises for an item of [item_size] estimated bytes. *)
Definition item_too_large (item_size : Z) : string :=
  String.append "Failed to convert record to DynamoDB item: Item size ("
    (String.append (str_of_Z item_size)
       (String.append " bytes) exceeds DynamoDB limit ("
          (String.append (str_of_Z MAX_ITEM_SIZE) " bytes)"))).

(** [DynamoDBClient._record_to_dynamodb_item]; the error is the message
    of the [DynamoDBError]. *)
Definition _record_to_dynamodb_item (record : DynamoDBRecord) : Dict + string :=
  let item : Dict :=
    [("pk"%string, DataTransformer.pk record);
     ("sk"%string, DataTransformer.sk record);
     ("key_name"%string, DataTransformer.key_name record);
     ("value"%string, DataTransformer.value record);
     ("metadata"%string, DataTransformer.metadata record);
     ("retrieved_at"%string, DataTransformer.retrieved_at record);
     ("source"%string, DataTransformer.source record);
     ("namespace_id"%string, DataTransformer.namespace_id record);
     ("data_version"%string, DataTransformer.data_version record)] in
  let item :=
    match DataTransformer.ttl record with
    | PyNone => item
    | t => dict_set item "ttl" t
    end in
  let item_size := _estimate_item_size item in
  if MAX_ITEM_SIZE <? item_size then
    inr (item_too_large item_size)
  else inl item.

(** [item['PutRequest']['Item']]; [None] when it raises. *)
Definition put_request_item (item : PyValue) : option PyValue :=
  match item with
  | PyDict d =>
      match dict_get d "PutRequest" with
      | Some (PyDict put_request) => dict_get put_request "Item"
      | _ => None
      end
  | _ => None
  end.

(** [[item['PutRequest']['Item'] for item in unprocessed_items]] *)
Fixpoint put_request_items (l : list PyValue) : option (list PyValue) :=
  match l with
  | [] => Some []
  | item :: l' =>
      match put_request_item item, put_request_items l' with
      | Some i, Some is_ => Some (i :: is_)
      | _, _ => None
      end
  end.

(** [self._calculate_retry_delay(attempt)] with its [random.random()],
    then [time.sleep(delay)]. *)
Definition backoff (attempt : Z) (w : Env.World) : Env.World :=
  let '(rnd, w1) := Env.random w in
  Env.sleep (_calculate_retry_delay attempt rnd) w1.

(** The [BatchWriteResult] built after the loop of
    [_write_batch_with_retry]. *)
Definition batch_result (unprocessed_items : list PyValue)
    (successful_records : Z) (errors : list string) (attempt : Z)
  : BatchWriteResult :=
  {| successful_records := successful_records;
     failed_records := len unprocessed_items;
     unprocessed_items := unprocessed_items;
     errors := errors;
     total_attempts := attempt;
     execution_time_ms := 0 |}.

(** The [while unprocessed_items and attempt <= self.max_retries] loop.
    [attempt] grows by one at every turn, so [max_retries + 1 - attempt]
    turns are enough; [fuel] counts them. *)
Fixpoint write_loop (fuel : nat) (self : Client)
    (unprocessed_items : list PyValue) (successful_records : Z)
    (errors : list string) (attempt : Z) (w : Env.World)
  : (BatchWriteResult + string) * Client * Env.World :=
  match fuel with
  | O => (inl (batch_result unprocessed_items successful_records errors attempt),
          self, w)
  | S fuel' =>
      if negb (match unprocessed_items with [] => false | _ => true end
               && (attempt <=? max_retries self))
      then (inl (batch_result unprocessed_items successful_records errors attempt),
            self, w)
      else
        let attempt := attempt + 1 in
        let self := add_retry_attempts self (if 1 <? attempt then 1 else 0) in
        let '(response, w) := Env.batch_write_item unprocessed_items w in
        match response with
        | Env.Unprocessed response_items =>
            let items_in_this_attempt := len unprocessed_items in
            let unprocessed_items := response_items in
            let unprocessed_count := len unprocessed_items in
            let successful_in_attempt := items_in_this_attempt - unprocessed_count in
            let successful_records := successful_records + successful_in_attempt in
            match unprocessed_items with
            | [] =>
                (inl (batch_result unprocessed_items successful_records errors attempt),
                 self, w)
            | _ =>
                if attempt <=? max_retries self then
                  let w := backoff attempt w in
                  match put_request_items unprocessed_items with
                  | Some unprocessed_items =>
                      write_loop fuel' self unprocessed_items successful_records
                                 errors attempt w
                  | None =>
                      (inr "Unexpected error during batch write"%string, self, w)
                  end
                else
                  (inl (batch_result unprocessed_items successful_records
                          (errors ++ ["Max retries exceeded with unprocessed items"%string])
                          attempt),
                   self, w)
            end
        | Env.ClientError error_code error_message =>
            if existsb (String.eqb error_code) RETRYABLE_ERRORS
               && (attempt <=? max_retries self)
            then
              let w := backoff attempt w in
              write_loop fuel' self unprocessed_items successful_records
                         errors attempt w
            else
              (inr (String.append "Non-retryable error or max retries exceeded: "
                      (String.append error_code (String.append " - " error_message))),
               self, w)
        | Env.StoreException msg =>
            (inr (String.append "Unexpected error during batch write: " msg), self, w)
        end
  end.

(** [DynamoDBClient._write_batch_with_retry] *)
Definition _write_batch_with_retry (self : Client) (items : list PyValue)
    (w : Env.World) : (BatchWriteResult + string) * Client * Env.World :=
  if MAX_BATCH_SIZE <? len items then
    (inr "Batch size exceeds maximum"%string, self, w)
  else
    write_loop (Z.to_nat (max_retries self + 1)) self items 0 [] 0 w.

(** The conversion loop of [batch_write_records]: the items and the
    conversion errors. *)
Fixpoint convert_records (records : list DynamoDBRecord)
  : list PyValue * list string :=
  match records with
  | [] => ([], [])
  | record :: records' =>
      let '(items, conversion_errors) := convert_records records' in
      match _record_to_dynamodb_item record with
      | inl item => (PyDict item :: items, conversion_errors)
      | inr e =>
          (items, String.append "Failed to convert record: " e :: conversion_errors)
      end
  end.

(** [[items[i:i + size] for i in range(0, len(items), size)]] *)
Fixpoint slices (fuel : nat) (size : nat) (items : list PyValue)
  : list (list PyValue) :=
  match fuel, items with
  | S fuel', _ :: _ => firstn size items :: slices fuel' size (skipn size items)
  | _, _ => []
  end.

Definition batches_of (items : list PyValue) : list (list PyValue) :=
  slices (List.length items) (Z.to_nat MAX_BATCH_SIZE) items.

(** The running totals of the loop over the batches. *)
Record Totals := {
  t_successful_records : Z;
  t_failed_records : Z;
  t_all_errors : list string;
  t_total_attempts : Z
}.

(** One turn of [for batch_num, batch_items in enumerate(batches)]. *)
Definition process_batch (st : Totals * Client * Env.World)
    (batch_items : list PyValue) : Totals * Client * Env.World :=
  let '(t, self, w) := st in
  match _write_batch_with_retry self batch_items w with
  | (inl batch_result, self, w) =>
      let successful_records :=
        t_successful_records t + successful_records batch_result in
      let failed_records := t_failed_records t + failed_records batch_result in
      let all_errors := t_all_errors t ++ errors batch_result in
      let total_attempts := t_total_attempts t + total_attempts batch_result in
      let failed_records :=
        match unprocessed_items batch_result with
        | [] => failed_records
        | _ => (* These will be counted as failed records *)
            failed_records + len (unprocessed_items batch_result)
        end in
      ({| t_successful_records := successful_records;
          t_failed_records := failed_records;
          t_all_errors := all_errors;
          t_total_attempts := total_attempts |}, self, w)
  | (inr e, self, w) =>
      ({| t_successful_records := t_successful_records t;
          t_failed_records := t_failed_records t + len batch_items;
          t_all_errors := t_all_errors t ++ [String.append "Batch failed completely: " e];
          t_total_attempts := t_total_attempts t |}, self, w)
  end.

(** [DynamoDBClient.batch_write_records] *)
Definition batch_write_records (self : Client) (records : list DynamoDBRecord)
    (w : Env.World) : BatchWriteResult * Client * Env.World :=
  let start_time := Env.clock w in
  match records with
  | [] =>
      ({| successful_records := 0; failed_records := 0; unprocessed_items := [];
          errors := []; total_attempts := 0; execution_time_ms := 0 |}, self, w)
  | _ =>
      let self := add_attempted self (len records) in
      let '(items, conversion_errors) := convert_records records in
      match items with
      | [] =>
          let self := add_failed self (len records) in
          ({| successful_records := 0;
              failed_records := len records;
              unprocessed_items := [];
              errors := conversion_errors;
              total_attempts := 0;
              execution_time_ms := py_int ((Env.clock w - start_time) * 1000) |},
           self, w)
      | _ =>
          let t0 := {| t_successful_records := 0;
                       t_failed_records := len records - len items;
                       t_all_errors := conversion_errors;
                       t_total_attempts := 0 |} in
          let batches := batches_of items in
          let '(t, self, w) := fold_left process_batch batches (t0, self, w) in
          let self := add_results self (t_successful_records t)
                                  (t_failed_records t) (len batches) in
          let total_processed := t_successful_records t + t_failed_records t in
          let all_errors :=
            if negb (total_processed =? len records)
            then t_all_errors t ++ ["Storage accuracy error"%string]
            else t_all_errors t in
          ({| successful_records := t_successful_records t;
              failed_records := t_failed_records t;
              unprocessed_items := [];
              errors := all_errors;
              total_attempts := t_total_attempts t;
              execution_time_ms := py_int ((Env.clock w - start_time) * 1000) |},
           self, w)
      end
  end.

(** [DynamoDBClient.reset_statistics] *)
Definition reset_statistics (self : Client) : Client :=
  {| oid := oid self; table_name := table_name self; max_retries := max_retries self;
     total_records_attempted := 0;
     total_records_successful := 0;
     total_records_failed := 0;
     total_write_operations := 0;
     total_retry_attempts := 0 |}.

(** [DynamoDBClient.clear_statistics] *)
Definition clear_statistics (self : Client) : Client := reset_statistics self.


(** The loop of [handle_write_errors] over the items: an element that is
    a dictionary with a ['PutRequest'] key gives [item['PutRequest']['Item']],
    any other element is taken as it is; [None] when the subscript raises. *)
Fixpoint extract_items (unprocessed_items : list PyValue)
  : option (list PyValue) :=
  match unprocessed_items with
  | [] => Some []
  | item :: rest =>
      let extracted :=
        match item with
        | PyDict d =>
            match dict_get d "PutRequest" with
            | Some _ => put_request_item item
            | None => Some item
            end
        | _ => Some item
        end in
      match extracted, extract_items rest with
      | Some i, Some is_ => Some (i :: is_)
      | _, _ => None
      end
  end.

(** [DynamoDBClient.handle_write_errors]: it returns [None] or raises a
    [DynamoDBError], whose message is the error; when a subscript of the
    extraction raises, the text of that exception is left out of the
    message. *)
Definition handle_write_errors (self : Client) (unprocessed_items : list PyValue)
    (w : Env.World) : (unit + string) * Client * Env.World :=
  match unprocessed_items with
  | [] => (inl tt, self, w)
  | _ =>
      match extract_items unprocessed_items with
      | None => (inr "Failed to handle unprocessed items"%string, self, w)
      | Some items =>
          match _write_batch_with_retry self items w with
          | (inl result, self, w) =>
              if 0 <? failed_records result then
                (inr (String.append "Failed to handle unprocessed items: "
                        (String.append "Failed to process "
                           (String.append (str_of_Z (failed_records result))
                              " unprocessed items after retry"))),
                 self, w)
              else (inl tt, self, w)
          | (inr e, self, w) =>
              (inr (String.append "Failed to handle unprocessed items: " e), self, w)
          end
      end
  end.
End Client.

End DynamoDBClient.

(* ================================================================== *)
(** * src/lambda_optimizations.py *)
(* ================================================================== *)

Module LambdaOptimizations.
Import Py.

(** [LambdaContext.get_remaining_time_seconds]:
    [self.remaining_time_in_millis() / 1000.0] *)
Definition get_remaining_time_seconds (w : Env.World) : Q * Env.World :=
  let '(ms, w1) := Env.remaining_time_in_millis w in
  ((inject_Z ms / 1000)%Q, w1).

(** ** class TimeoutManager *)
Record TimeoutManager := {
  buffer_seconds : Q;
  start_time : Q;
  timeout_warned : bool;
  timeout_threshold : Q
}.

(** [TimeoutManager.__init__] *)
Definition new_timeout_manager (buffer_seconds : Q) (w : Env.World)
  : TimeoutManager * Env.World :=
  let '(initial_remaining, w1) := get_remaining_time_seconds w in
  ({| buffer_seconds := buffer_seconds;
      start_time := Env.clock w;
      timeout_warned := false;
      timeout_threshold := (initial_remaining - buffer_seconds)%Q |}, w1).

(** [TimeoutManager.check_timeout] *)
Definition check_timeout (self : TimeoutManager) (w : Env.World)
  : bool * TimeoutManager * Env.World :=
  let '(remaining, w1) := get_remaining_time_seconds w in
  if Qle_bool remaining (buffer_seconds self) then
    (true,
     {| buffer_seconds := buffer_seconds self;
        start_time := start_time self;
        timeout_warned := true;
        timeout_threshold := timeout_threshold self |}, w1)
  else (false, self, w1).

(** [TimeoutManager.get_remaining_time] *)
Definition get_remaining_time (self : TimeoutManager) (w : Env.World)
  : Q * Env.World :=
  get_remaining_time_seconds w.

(** Entering [with self.timeout_context(name) as should_continue]: the value
    bound to [should_continue].  When the stage may run, the debug line reads
    the remaining time once more. *)
Definition timeout_context_enter (self : TimeoutManager) (w : Env.World)
  : bool * TimeoutManager * Env.World :=
  let '(stop, self, w1) := check_timeout self w in
  if stop then (false, self, w1)
  else (true, self, snd (get_remaining_time self w1)).

(** Leaving the [with] block after [yield True]: the [finally] clause reads
    the remaining time for its debug line. *)
Definition timeout_context_exit (self : TimeoutManager) (w : Env.World)
  : Env.World :=
  snd (get_remaining_time self w).

(** ** class ConnectionPool *)

(** [ConfigurationManager]: its cache is all that the pool's users see. *)
Record ConfigurationManager := {
  cm_oid : nat;
  _config_cache : option Config.Config
}.

(** [DataTransformer] objects, as the pool keeps them. *)
Record Transformer := {
  dt_oid : nat;
  dt_namespace_id : string
}.

(** [allocated] is the number of objects built so far; the next object
    takes it as its identity. *)
Record ConnectionPool := {
  _config_manager : option ConfigurationManager;
  _cloudflare_client : option CloudflareClient.Client;
  _dynamodb_client : option DynamoDBClient.Client;
  _data_transformer : option Transformer;
  _last_used : Q;
  _usage_count : Z;
  allocated : nat
}.

(** [ConnectionPool.__init__] *)
Definition new_connection_pool (w : Env.World) : ConnectionPool :=
  {| _config_manager := None;
     _cloudflare_client := None;
     _dynamodb_client := None;
     _data_transformer := None;
     _last_used := Env.clock w;
     _usage_count := 0;
     allocated := 0 |}.

(** [ConnectionPool._update_usage_stats], with the slots as given. *)
Definition _update_usage_stats (w : Env.World)
    (cm : option ConfigurationManager) (cf : option CloudflareClient.Client)
    (db : option DynamoDBClient.Client) (dt : option Transformer)
    (usage_count : Z) (allocated : nat) : ConnectionPool :=
  {| _config_manager := cm;
     _cloudflare_client := cf;
     _dynamodb_client := db;
     _data_transformer := dt;
     _last_used := Env.clock w;
     _usage_count := usage_count + 1;
     allocated := allocated |}.

(** [ConnectionPool.get_config_manager] *)
Definition get_config_manager (self : ConnectionPool) (w : Env.World)
  : ConfigurationManager * ConnectionPool :=
  match _config_manager self with
  | Some cm =>
      (cm, _update_usage_stats w (Some cm) (_cloudflare_client self)
             (_dynamodb_client self) (_data_transformer self)
             (_usage_count self) (allocated self))
  | None =>
      let cm := {| cm_oid := allocated self; _config_cache := None |} in
      (cm, _update_usage_stats w (Some cm) (_cloudflare_client self)
             (_dynamodb_client self) (_data_transformer self)
             (_usage_count self) (S (allocated self)))
  end.

(** [ConnectionPool._should_recreate_cloudflare_client] *)
Definition _should_recreate_cloudflare_client (self : ConnectionPool)
    (config : Config.Config) : bool :=
  match _cloudflare_client self with
  | None => true
  | Some client =>
      let current_creds := Config.cloudflare_credentials config in
      let client_creds := CloudflareClient.credentials client in
      negb (String.eqb (Config.api_token current_creds) (Config.api_token client_creds))
      || negb (String.eqb (Config.account_id current_creds) (Config.account_id client_creds))
      || negb (String.eqb (Config.kv_namespace_id current_creds)
                          (Config.kv_namespace_id client_creds))
      || negb (CloudflareClient.timeout client =? Config.api_timeout_seconds config)%Z
  end.

(** [ConnectionPool._should_recreate_dynamodb_client] *)
Definition _should_recreate_dynamodb_client (self : ConnectionPool)
    (config : Config.Config) : bool :=
  match _dynamodb_client self with
  | None => true
  | Some client =>
      negb (String.eqb (DynamoDBClient.table_name client)
                       (Config.dynamodb_table_name config))
      || negb (DynamoDBClient.max_retries client =? Config.retry_max_attempts config)%Z
  end.

(** The construction in [get_cloudflare_client]. *)
Definition build_cloudflare_client (oid : nat) (config : Config.Config)
  : CloudflareClient.Client :=
  let retry_config :=
    {| CloudflareClient.max_attempts := Config.retry_max_attempts config;
       CloudflareClient.base_delay := 1;
       CloudflareClient.max_delay := 60;
       CloudflareClient.jitter := true |} in
  CloudflareClient.new_client oid (Config.cloudflare_credentials config)
    (Config.api_timeout_seconds config) retry_config.

(** [ConnectionPool.get_cloudflare_client] *)
Definition get_cloudflare_client (self : ConnectionPool) (config : Config.Config)
    (w : Env.World) : CloudflareClient.Client * ConnectionPool :=
  let '(client, allocated') :=
    match _cloudflare_client self with
    | Some cached =>
        if _should_recreate_cloudflare_client self config
        then (build_cloudflare_client (allocated self) config, S (allocated self))
        else (cached, allocated self)
    | None => (build_cloudflare_client (allocated self) config, S (allocated self))
    end in
  (client, _update_usage_stats w (_config_manager self) (Some client)
             (_dynamodb_client self) (_data_transformer self)
             (_usage_count self) allocated').

(** The construction in [get_dynamodb_client]. *)
Definition build_dynamodb_client (oid : nat) (config : Config.Config)
  : DynamoDBClient.Client :=
  DynamoDBClient.new_client oid (Config.dynamodb_table_name config)
    (Some (Config.retry_max_attempts config)).

(** [ConnectionPool.get_dynamodb_client] *)
Definition get_dynamodb_client (self : ConnectionPool) (config : Config.Config)
    (w : Env.World) : DynamoDBClient.Client * ConnectionPool :=
  let '(client, allocated') :=
    match _dynamodb_client self with
    | Some cached =>
        if _should_recreate_dynamodb_client self config
        then (build_dynamodb_client (allocated self) config, S (allocated self))
        else (cached, allocated self)
    | None => (build_dynamodb_client (allocated self) config, S (allocated self))
    end in
  (client, _update_usage_stats w (_config_manager self) (_cloudflare_client self)
             (Some client) (_data_transformer self)
             (_usage_count self) allocated').

(** [ConnectionPool.get_data_transformer] *)
Definition get_data_transformer (self : ConnectionPool) (namespace_id : string)
    (w : Env.World) : Transformer * ConnectionPool :=
  let '(dt, allocated') :=
    match _data_transformer self with
    | Some cached =>
        if negb (String.eqb (dt_namespace_id cached) namespace_id)
        then ({| dt_oid := allocated self; dt_namespace_id := namespace_id |},
              S (allocated self))
        else (cached, allocated self)
    | None => ({| dt_oid := allocated self; dt_namespace_id := namespace_id |},
               S (allocated self))
    end in
  (dt, _update_usage_stats w (_config_manager self) (_cloudflare_client self)
         (_dynamodb_client self) (Some dt)
         (_usage_count self) allocated').

(** [ConnectionPool.cleanup] *)
Definition cleanup (self : ConnectionPool) : ConnectionPool :=
  {| _config_manager := None;
     _cloudflare_client := None;
     _dynamodb_client := None;
     _data_transformer := None;
     _last_used := _last_used self;
     _usage_count := _usage_count self;
     allocated := allocated self |}.

(** [get_connection_pool]: the module-level [_connection_pool]. *)
Definition get_connection_pool (global : option ConnectionPool) (w : Env.World)
  : ConnectionPool :=
  match global with
  | Some pool => pool
  | None => new_connection_pool w
  end.

(** [cleanup_lambda_resources]: the module-level pool that it leaves. *)
Definition cleanup_lambda_resources (global : option ConnectionPool)
    (w : Env.World) : ConnectionPool :=
  cleanup (get_connection_pool global w).

(** [LambdaContext.is_timeout_approaching] *)
Definition is_timeout_approaching (buffer_seconds : Q) (w : Env.World)
  : bool * Env.World :=
  let '(remaining, w1) := get_remaining_time_seconds w in
  (Qle_bool remaining buffer_seconds, w1).

(** [TimeoutManager.get_elapsed_time] *)
Definition get_elapsed_time (self : TimeoutManager) (w : Env.World) : Q :=
  (Env.clock w - start_time self)%Q.

(** The dictionary that [ConnectionPool.get_stats] returns. *)
Record PoolStats := {
  initialization_time : Q;
  last_used : Q;
  usage_count : Z;
  age_seconds : Q;
  idle_seconds : Q;
  active_connections : list (string * bool)
}.

(** [x is not None] *)
Definition is_not_none {A} (x : option A) : bool :=
  match x with Some _ => true | None => false end.

(** [ConnectionPool.get_stats].  Only this method reads
    [self._initialization_time]; it is given beside the pool. *)
Definition get_stats (self : ConnectionPool) (_initialization_time : Q)
    (w : Env.World) : PoolStats :=
  let current_time := Env.clock w in
  {| initialization_time := _initialization_time;
     last_used := _last_used self;
     usage_count := _usage_count self;
     age_seconds := (current_time - _initialization_time)%Q;
     idle_seconds := (current_time - _last_used self)%Q;
     active_connections :=
       [("config_manager"%string, is_not_none (_config_manager self));
        ("cloudflare_client"%string, is_not_none (_cloudflare_client self));
        ("dynamodb_client"%string, is_not_none (_dynamodb_client self));
        ("data_transformer"%string, is_not_none (_data_transformer self))] |}.

(** [ColdStartOptimizer.detect_cold_start]: the value returned and the
    [cold_start_detected] flag that it leaves.  [global] is the module-level
    pool with the time of its creation; when there is none,
    [get_connection_pool] creates it now. *)
Definition detect_cold_start (cold_start_detected : bool)
    (global : option (ConnectionPool * Q)) (w : Env.World) : bool * bool :=
  let pool := get_connection_pool (option_map fst global) w in
  let _initialization_time :=
    match global with
    | Some (_, t) => t
    | None => Env.clock w
    end in
  let stats := get_stats pool _initialization_time w in
  let is_cold_start :=
    negb (existsb snd (active_connections stats))
    || negb (Qle_bool 1 (age_seconds stats))
    || (usage_count stats <? 2)%Z in
  (is_cold_start,
   if is_cold_start && negb cold_start_detected then true else cold_start_detected).

End LambdaOptimizations.

(* ================================================================== *)
(** * src/error_handler.py *)
(* ================================================================== *)

Module ErrorHandler.
Import Py.

Local Open Scope string_scope.
Local Open Scope Z_scope.

(** [class ErrorCategory(Enum)] and its [value]. *)
Inductive ErrorCategory :=
| CONFIGURATION | AUTHENTICATION | API | STORAGE
| DATA_VALIDATION | NETWORK | UNKNOWN.

Definition category_value (c : ErrorCategory) : string :=
  match c with
  | CONFIGURATION => "configuration"
  | AUTHENTICATION => "authentication"
  | API => "api"
  | STORAGE => "storage"
  | DATA_VALIDATION => "data_validation"
  | NETWORK => "network"
  | UNKNOWN => "unknown"
  end.

(** [@dataclass ExecutionStatistics] *)
Record ExecutionStatistics := {
  start_time : Q;
  end_time : option Q;
  execution_time_ms : option Z;
  cloudflare_api_calls : Z;
  dynamodb_writes : Z;
  records_processed : Z;
  records_stored : Z;
  records_failed : Z;
  configuration_errors : Z;
  authentication_errors : Z;
  api_errors : Z;
  storage_errors : Z;
  data_validation_errors : Z;
  network_errors : Z;
  unknown_errors : Z;
  total_retries : Z;
  successful_retries : Z;
  failed_retries : Z
}.

(** [ExecutionStatistics()] at time [now]. *)
Definition new_statistics (now : Q) : ExecutionStatistics :=
  {| start_time := now; end_time := None; execution_time_ms := None;
     cloudflare_api_calls := 0; dynamodb_writes := 0; records_processed := 0;
     records_stored := 0; records_failed := 0;
     configuration_errors := 0; authentication_errors := 0; api_errors := 0;
     storage_errors := 0; data_validation_errors := 0; network_errors := 0;
     unknown_errors := 0;
     total_retries := 0; successful_retries := 0; failed_retries := 0 |}.

(** The operation counters, the only fields that [update_statistics] is
    called with; the other fields are carried over. *)
Definition with_counters (s : ExecutionStatistics)
    (api_calls writes processed stored failed : Z) : ExecutionStatistics :=
  {| start_time := start_time s; end_time := end_time s;
     execution_time_ms := execution_time_ms s;
     cloudflare_api_calls := api_calls; dynamodb_writes := writes;
     records_processed := processed; records_stored := stored;
     records_failed := failed;
     configuration_errors := configuration_errors s;
     authentication_errors := authentication_errors s;
     api_errors := api_errors s; storage_errors := storage_errors s;
     data_validation_errors := data_validation_errors s;
     network_errors := network_errors s; unknown_errors := unknown_errors s;
     total_retries := total_retries s;
     successful_retries := successful_retries s;
     failed_retries := failed_retries s |}.

Definition with_errors (s : ExecutionStatistics)
    (conf auth api sto val net unk : Z) : ExecutionStatistics :=
  {| start_time := start_time s; end_time := end_time s;
     execution_time_ms := execution_time_ms s;
     cloudflare_api_calls := cloudflare_api_calls s;
     dynamodb_writes := dynamodb_writes s;
     records_processed := records_processed s;
     records_stored := records_stored s;
     records_failed := records_failed s;
     configuration_errors := conf; authentication_errors := auth;
     api_errors := api; storage_errors := sto;
     data_validation_errors := val; network_errors := net;
     unknown_errors := unk;
     total_retries := total_retries s;
     successful_retries := successful_retries s;
     failed_retries := failed_retries s |}.

(** [ExecutionStatistics.finish_execution] *)
Definition finish_execution (s : ExecutionStatistics) (now : Q)
  : ExecutionStatistics :=
  {| start_time := start_time s; end_time := Some now;
     execution_time_ms :=
       Some (DynamoDBClient.py_int ((now - start_time s) * 1000)%Q);
     cloudflare_api_calls := cloudflare_api_calls s;
     dynamodb_writes := dynamodb_writes s;
     records_processed := records_processed s;
     records_stored := records_stored s;
     records_failed := records_failed s;
     configuration_errors := configuration_errors s;
     authentication_errors := authentication_errors s;
     api_errors := api_errors s; storage_errors := storage_errors s;
     data_validation_errors := data_validation_errors s;
     network_errors := network_errors s; unknown_errors := unknown_errors s;
     total_retries := total_retries s;
     successful_retries := successful_retries s;
     failed_retries := failed_retries s |}.

(** [if self.statistics.end_time is None: self.statistics.finish_execution()] *)
Definition ensure_finished (s : ExecutionStatistics) (now : Q)
  : ExecutionStatistics :=
  match end_time s with
  | None => finish_execution s now
  | Some _ => s
  end.

(** [ExecutionStatistics.increment_error_count] *)
Definition increment_error_count (s : ExecutionStatistics) (category : ErrorCategory)
  : ExecutionStatistics :=
  let c := configuration_errors s in
  let a := authentication_errors s in
  let p := api_errors s in
  let t := storage_errors s in
  let v := data_validation_errors s in
  let n := network_errors s in
  let u := unknown_errors s in
  match category with
  | CONFIGURATION => with_errors s (c + 1) a p t v n u
  | AUTHENTICATION => with_errors s c (a + 1) p t v n u
  | API => with_errors s c a (p + 1) t v n u
  | STORAGE => with_errors s c a p (t + 1) v n u
  | DATA_VALIDATION => with_errors s c a p t (v + 1) n u
  | NETWORK => with_errors s c a p t v (n + 1) u
  | UNKNOWN => with_errors s c a p t v n (u + 1)
  end.

(** [ExecutionStatistics.get_total_errors] *)
Definition get_total_errors (s : ExecutionStatistics) : Z :=
  configuration_errors s + authentication_errors s + api_errors s
  + storage_errors s + data_validation_errors s + network_errors s
  + unknown_errors s.

(** [ExecutionStatistics.get_success_rate] *)
Definition get_success_rate (s : ExecutionStatistics) : Q :=
  if records_processed s =? 0 then 0%Q
  else (inject_Z (records_stored s) / inject_Z (records_processed s))%Q.

(** [round(x)]: to the nearest integer, a tie to the even one. *)
Definition round_half_even (x : Q) : Z :=
  let f := Qfloor x in
  let d := (x - inject_Z f)%Q in
  match (d ?= 1 # 2)%Q with
  | Lt => f
  | Gt => f + 1
  | Eq => if Z.even f then f else f + 1
  end.

(** [round(x, 4)] *)
Definition round4 (x : Q) : Q :=
  (inject_Z (round_half_even (x * 10000)) / 10000)%Q.

Definition py_opt_int (o : option Z) : PyValue :=
  match o with Some z => PyInt z | None => PyNone end.

(** [ExecutionStatistics.to_dict] *)
Definition to_dict (s : ExecutionStatistics) : Dict :=
  [("execution_time_ms", py_opt_int (execution_time_ms s));
   ("cloudflare_api_calls", PyInt (cloudflare_api_calls s));
   ("dynamodb_writes", PyInt (dynamodb_writes s));
   ("records_processed", PyInt (records_processed s));
   ("records_stored", PyInt (records_stored s));
   ("records_failed", PyInt (records_failed s));
   ("success_rate", PyFloat (round4 (get_success_rate s)));
   ("total_errors", PyInt (get_total_errors s));
   ("error_breakdown",
     PyDict [("configuration_errors", PyInt (configuration_errors s));
             ("authentication_errors", PyInt (authentication_errors s));
             ("api_errors", PyInt (api_errors s));
             ("storage_errors", PyInt (storage_errors s));
             ("data_validation_errors", PyInt (data_validation_errors s));
             ("network_errors", PyInt (network_errors s));
             ("unknown_errors", PyInt (unknown_errors s))]);
   ("retry_statistics",
     PyDict [("total_retries", PyInt (total_retries s));
             ("successful_retries", PyInt (successful_retries s));
             ("failed_retries", PyInt (failed_retries s));
             ("retry_success_rate",
               PyFloat (if 0 <? total_retries s
                        then (inject_Z (successful_retries s)
                              / inject_Z (total_retries s))%Q
                        else 0%Q))])].

(** One turn of the loop of [update_statistics]: [setattr(statistics, key,
    getattr(statistics, key) + value)] for the counters the handler names;
    an unknown key only logs a warning. *)
Definition add_statistic (s : ExecutionStatistics) (kv : string * Z)
  : ExecutionStatistics :=
  let '(key, value) := kv in
  let a := cloudflare_api_calls s in
  let w := dynamodb_writes s in
  let p := records_processed s in
  let r := records_stored s in
  let f := records_failed s in
  if String.eqb key "cloudflare_api_calls" then with_counters s (a + value) w p r f
  else if String.eqb key "dynamodb_writes" then with_counters s a (w + value) p r f
  else if String.eqb key "records_processed" then with_counters s a w (p + value) r f
  else if String.eqb key "records_stored" then with_counters s a w p (r + value) f
  else if String.eqb key "records_failed" then with_counters s a w p r (f + value)
  else s.

(** [ErrorHandler.update_statistics], called with keyword arguments. *)
Definition update_statistics (s : ExecutionStatistics) (kwargs : list (string * Z))
  : ExecutionStatistics :=
  fold_left add_statistic kwargs s.

(** The entries of [error_info] that the response is built from. *)
Record ErrorInfo := {
  category : string;
  message : string;
  is_retryable : bool
}.

(** [ErrorHandler._handle_categorized_error]: the statistics and the
    [error_info] it returns. *)
Definition _handle_categorized_error (s : ExecutionStatistics) (msg : string)
    (category : ErrorCategory) (is_retryable : bool)
  : ErrorInfo * ExecutionStatistics :=
  let s := increment_error_count s category in
  ({| category := category_value category;
      message := msg;
      is_retryable := is_retryable |}, s).

Definition handle_configuration_error s msg :=
  _handle_categorized_error s msg CONFIGURATION false.
Definition handle_authentication_error s msg :=
  _handle_categorized_error s msg AUTHENTICATION false.
Definition handle_api_error s msg (is_retryable : bool) :=
  _handle_categorized_error s msg API is_retryable.
Definition handle_storage_error s msg (is_retryable : bool) :=
  _handle_categorized_error s msg STORAGE is_retryable.

(** [str.upper] on ASCII letters. *)
Definition upper_ascii (c : ascii) : ascii :=
  let n := nat_of_ascii c in
  if (97 <=? n)%nat && (n <=? 122)%nat then ascii_of_nat (n - 32) else c.

Fixpoint upper (s : string) : string :=
  match s with
  | EmptyString => EmptyString
  | String c s' => String (upper_ascii c) (upper s')
  end.

(** The ["error"] entry of an error response. *)
Record ErrorBody := {
  error_type : string;         (* "type" *)
  details : string;
  error_is_retryable : bool    (* "is_retryable" *)
}.

(** What the handler returns: [success], and ["error"], ["data"],
    ["statistics"] where the response has them. *)
Record Response := {
  success : bool;
  error : option ErrorBody;
  data : option Dict;
  statistics : Dict
}.

(** [ErrorHandler.create_error_response] *)
Definition create_error_response (s : ExecutionStatistics) (error_info : ErrorInfo)
  : Response :=
  {| success := false;
     error := Some {| error_type := String.append (upper (category error_info)) "_ERROR";
                      details := message error_info;
                      error_is_retryable := is_retryable error_info |};
     data := None;
     statistics := to_dict s |}.

(** [ErrorHandler.create_success_response] at time [now]. *)
Definition create_success_response (s : ExecutionStatistics) (now : Q)
    (data : Dict) : Response * ExecutionStatistics :=
  let s := ensure_finished s now in
  ({| success := true; error := None; data := Some data;
      statistics := to_dict s |}, s).

(** [ErrorHandler.handle_data_validation_error], [handle_network_error] *)
Definition handle_data_validation_error s msg :=
  _handle_categorized_error s msg DATA_VALIDATION false.
Definition handle_network_error s msg :=
  _handle_categorized_error s msg NETWORK true.

(** [class ErrorSeverity(Enum)] and its [value]. *)
Inductive ErrorSeverity := LOW | MEDIUM | HIGH | CRITICAL.

Definition severity_value (s : ErrorSeverity) : string :=
  match s with
  | LOW => "low"
  | MEDIUM => "medium"
  | HIGH => "high"
  | CRITICAL => "critical"
  end.

(** [sub in s] on strings. *)
Fixpoint contains (sub s : string) : bool :=
  String.prefix sub s
  || match s with
     | EmptyString => false
     | String _ s' => contains sub s'
     end.

(** [v == text] for a string literal [text]. *)
Definition is_str (v : PyValue) (text : string) : bool :=
  match v with
  | PyStr s => String.eqb s text
  | _ => false
  end.

(** [error_info.get(key, default)] *)
Definition get (error_info : Dict) (key : string) (default : PyValue) : PyValue :=
  match dict_get error_info key with
  | Some v => v
  | None => default
  end.

Section Responses.
(** [str] of compound values and [str.lower]. *)
Variable repr : PyValue -> string.
Variable lower : string -> string.

(** [v.lower()]: [None] when [v] is not a string and has no such method. *)
Definition lowered (v : PyValue) : option string :=
  match v with
  | PyStr s => Some (lower s)
  | _ => None
  end.

(** [ErrorHandler._map_error_to_http_status]; [None] when
    [error_type.lower()] raises [AttributeError]. *)
Definition _map_error_to_http_status (error_info : Dict) : option Z :=
  let category := get error_info "category" (PyStr "unknown") in
  let error_type := get error_info "type" (PyStr "") in
  let severity := get error_info "severity" (PyStr "medium") in
  if is_str category (category_value CONFIGURATION) then Some 500
  else if is_str category (category_value AUTHENTICATION) then
    match lowered error_type with
    | Some t =>
        if contains "unauthorized" t || contains "auth" t then Some 401
        else Some 403
    | None => None
    end
  else if is_str category (category_value API) then
    match lowered error_type with
    | Some t =>
        if contains "timeout" t || contains "network" t then Some 504
        else if contains "rate" t || contains "limit" t then Some 429
        else if contains "not found" t then Some 404
        else if contains "bad request" t || contains "invalid" t then Some 400
        else Some 502
    | None => None
    end
  else if is_str category (category_value STORAGE) then
    match lowered error_type with
    | Some t =>
        if contains "capacity" t || contains "throttl" t then Some 503
        else if contains "not found" t then Some 404
        else Some 500
    | None => None
    end
  else if is_str category (category_value DATA_VALIDATION) then Some 422
  else if is_str category (category_value NETWORK) then Some 503
  else if is_str severity (severity_value CRITICAL) then Some 500
  else if is_str severity (severity_value HIGH) then Some 500
  else if is_str severity (severity_value MEDIUM) then Some 503
  else Some 400.

(** [ErrorHandler._create_actionable_error_message]; [None] when
    [original_message.lower()] raises [AttributeError].  In the f-strings
    [{original_message}] is [str] of the value. *)
Definition _create_actionable_error_message (error_info : Dict) : option string :=
  let category := get error_info "category" (PyStr "unknown") in
  let original_message := get error_info "message" (PyStr "Unknown error occurred") in
  let f (before after : string) : option string :=
    Some (String.append before
            (String.append (py_str repr original_message) after)) in
  if is_str category (category_value CONFIGURATION) then
    match lowered original_message with
    | Some m =>
        if contains "environment" m then
          f "Configuration error: "
            ". Please check your environment variables and ensure all required values are set."
        else if contains "secret" m then
          f "Configuration error: "
            ". Please verify your AWS Secrets Manager configuration and permissions."
        else
          f "Configuration error: "
            ". Please check your Lambda function configuration."
    | None => None
    end
  else if is_str category (category_value AUTHENTICATION) then
    f "Authentication failed: "
      ". Please verify your Cloudflare API credentials in AWS Secrets Manager."
  else if is_str category (category_value API) then
    match lowered original_message with
    | Some m =>
        if contains "rate" m || contains "limit" m then
          f "API rate limit exceeded: "
            ". The operation will be retried automatically with exponential backoff."
        else if contains "timeout" m then
          f "API request timeout: "
            ". Please check network connectivity and Cloudflare API status."
        else if contains "network" m then
          f "Network error: "
            ". Please check network connectivity and try again."
        else
          f "Cloudflare API error: "
            ". Please check the Cloudflare API status and your request parameters."
    | None => None
    end
  else if is_str category (category_value STORAGE) then
    match lowered original_message with
    | Some m =>
        if contains "capacity" m || contains "throttl" m then
          f "DynamoDB capacity error: "
            ". The operation will be retried automatically."
        else if contains "table" m then
          f "DynamoDB table error: "
            ". Please verify your DynamoDB table configuration and permissions."
        else
          f "Storage error: "
            ". Please check your DynamoDB configuration and AWS permissions."
    | None => None
    end
  else if is_str category (category_value DATA_VALIDATION) then
    f "Data validation error: "
      ". The invalid data will be skipped and processing will continue."
  else if is_str category (category_value NETWORK) then
    f "Network connectivity error: "
      ". Please check network connectivity and try again."
  else
    f "" ". Please check the logs for more details and contact support if the issue persists.".

(** [ErrorHandler._get_retry_guidance]; [None] when
    [error_info.get('message', '').lower()] raises [AttributeError]. *)
Definition _get_retry_guidance (error_info : Dict) : option Dict :=
  let category := get error_info "category" (PyStr "unknown") in
  let guidance : Dict :=
    [("recommended_action", PyStr "retry");
     ("retry_delay_seconds", PyInt 1);
     ("max_retries", PyInt 3);
     ("backoff_strategy", PyStr "exponential")] in
  if is_str category (category_value API) then
    match lowered (get error_info "message" (PyStr "")) with
    | Some m =>
        if contains "rate" m then
          Some (dict_update guidance
                  [("retry_delay_seconds", PyInt 60);
                   ("max_retries", PyInt 5);
                   ("backoff_strategy", PyStr "exponential_with_jitter");
                   ("notes",
                     PyStr "Rate limit errors require longer delays between retries")])
        else
          Some (dict_update guidance
                  [("retry_delay_seconds", PyInt 2);
                   ("max_retries", PyInt 3);
                   ("notes",
                     PyStr "API errors are typically transient and resolve quickly")])
    | None => None
    end
  else if is_str category (category_value STORAGE) then
    Some (dict_update guidance
            [("retry_delay_seconds", PyInt 1);
             ("max_retries", PyInt 5);
             ("backoff_strategy", PyStr "exponential_with_jitter");
             ("notes",
               PyStr "Storage capacity errors usually resolve within a few seconds")])
  else if is_str category (category_value NETWORK) then
    Some (dict_update guidance
            [("retry_delay_seconds", PyInt 5);
             ("max_retries", PyInt 3);
             ("notes",
               PyStr "Network errors may require longer delays to allow connectivity to restore")])
  else Some guidance.

End Responses.

End ErrorHandler.

(* ================================================================== *)
(** * lambda_function.py *)
(* ================================================================== *)

Module LambdaFunction.
Import Py.
Import ErrorHandler(ExecutionStatistics, Response, ErrorInfo).
Import LambdaOptimizations(ConnectionPool, TimeoutManager).

Local Open Scope string_scope.
Local Open Scope Z_scope.

(** The objects that [lambda_handler] holds while it runs. *)
Record State := {
  world : Env.World;
  pool : ConnectionPool;                 (* connection_pool *)
  stats : ExecutionStatistics;           (* error_handler.statistics *)
  timeout_manager : TimeoutManager
}.

Definition set_world (st : State) (w : Env.World) : State :=
  {| world := w; pool := pool st; stats := stats st;
     timeout_manager := timeout_manager st |}.

Definition set_pool (st : State) (p : ConnectionPool) : State :=
  {| world := world st; pool := p; stats := stats st;
     timeout_manager := timeout_manager st |}.

Definition set_stats (st : State) (s : ExecutionStatistics) : State :=
  {| world := world st; pool := pool st; stats := s;
     timeout_manager := timeout_manager st |}.

(** How a piece of the body of [lambda_handler] ends: it goes on with a
    value, it executes [return response], or it raises an exception that no
    inner [except] clause takes. *)
Inductive Step (A : Type) :=
| Continue (a : A)
| Return (response : Response)
| Raise (type_name : string) (msg : string).
Arguments Continue {A} a.
Arguments Return {A} response.
Arguments Raise {A} type_name msg.

Definition M (A : Type) := State -> Step A * State.

Definition ret {A} (a : A) : M A := fun st => (Continue a, st).

Definition bind {A B} (m : M A) (k : A -> M B) : M B :=
  fun st =>
    match m st with
    | (Continue a, st1) => k a st1
    | (Return r, st1) => (Return r, st1)
    | (Raise t msg, st1) => (Raise t msg, st1)
    end.

Local Notation "x <- m ;; k" := (bind m (fun x => k))
  (at level 61, m at next level, right associativity).

(** [return error_handler.create_error_response(error_info)] *)
Definition return_error {A} (error_info : ErrorInfo) : M A :=
  fun st => (Return (ErrorHandler.create_error_response (stats st) error_info), st).

(** [with timeout_manager.timeout_context(name) as should_continue:], with
    what the block does when [should_continue] is false, and the rest of
    the block.  The [finally] clause of the context manager runs however the
    block is left. *)
Definition with_timeout_context {A} (skipped : M A) (body : M A) : M A :=
  fun st =>
    let '(should_continue, tm, w) :=
      LambdaOptimizations.timeout_context_enter (timeout_manager st) (world st) in
    let st := {| world := w; pool := pool st; stats := stats st;
                 timeout_manager := tm |} in
    if negb should_continue then skipped st
    else
      let '(r, st) := body st in
      (r, set_world st (LambdaOptimizations.timeout_context_exit
                          (timeout_manager st) (world st))).

Definition timeout_error (msg : string) : ErrorInfo :=
  {| ErrorHandler.category := "timeout";
     ErrorHandler.message := msg;
     ErrorHandler.is_retryable := true |}.

Section Handler.
Variable repr : PyValue -> string.
Variable json_dumps : PyValue -> option string.
Variable error_msg : Env.Response -> string.

(** What the environment variables and the secrets manager give to
    [ConfigurationManager.load_config]: the configuration, or the message
    of the [ConfigurationError]. *)
Variable environment : Config.Config + string.

(** [datetime.now(timezone.utc).isoformat()] in [transform_kv_record]. *)
Variable iso_timestamp : string.

(** [config_manager.load_config()]: the cache of the manager, then the
    environment; the manager is the one in the pool. *)
Definition load_config (cm : LambdaOptimizations.ConfigurationManager)
  : M Config.Config :=
  fun st =>
    match LambdaOptimizations._config_cache cm with
    | Some config => (Continue config, st)
    | None =>
        match environment with
        | inl config =>
            let cm := {| LambdaOptimizations.cm_oid := LambdaOptimizations.cm_oid cm;
                         LambdaOptimizations._config_cache := Some config |} in
            let p := pool st in
            (Continue config,
             set_pool st
               {| LambdaOptimizations._config_manager := Some cm;
                  LambdaOptimizations._cloudflare_client :=
                    LambdaOptimizations._cloudflare_client p;
                  LambdaOptimizations._dynamodb_client :=
                    LambdaOptimizations._dynamodb_client p;
                  LambdaOptimizations._data_transformer :=
                    LambdaOptimizations._data_transformer p;
                  LambdaOptimizations._last_used := LambdaOptimizations._last_used p;
                  LambdaOptimizations._usage_count := LambdaOptimizations._usage_count p;
                  LambdaOptimizations.allocated := LambdaOptimizations.allocated p |})
        | inr e =>
            let '(error_info, s) :=
              ErrorHandler.handle_configuration_error (stats st)
                (String.append "Configuration loading failed: " e) in
            let st := set_stats st s in
            (Return (ErrorHandler.create_error_response (stats st) error_info), st)
        end
    end.

(** The client in the pool is the object that the handler calls: what a
    method does to it shows in the pool. *)
Definition store_cloudflare_client (st : State) (c : CloudflareClient.Client)
  : State :=
  let p := pool st in
  set_pool st
    {| LambdaOptimizations._config_manager := LambdaOptimizations._config_manager p;
       LambdaOptimizations._cloudflare_client := Some c;
       LambdaOptimizations._dynamodb_client := LambdaOptimizations._dynamodb_client p;
       LambdaOptimizations._data_transformer := LambdaOptimizations._data_transformer p;
       LambdaOptimizations._last_used := LambdaOptimizations._last_used p;
       LambdaOptimizations._usage_count := LambdaOptimizations._usage_count p;
       LambdaOptimizations.allocated := LambdaOptimizations.allocated p |}.

Definition store_dynamodb_client (st : State) (c : DynamoDBClient.Client)
  : State :=
  let p := pool st in
  set_pool st
    {| LambdaOptimizations._config_manager := LambdaOptimizations._config_manager p;
       LambdaOptimizations._cloudflare_client :=
         LambdaOptimizations._cloudflare_client p;
       LambdaOptimizations._dynamodb_client := Some c;
       LambdaOptimizations._data_transformer := LambdaOptimizations._data_transformer p;
       LambdaOptimizations._last_used := LambdaOptimizations._last_used p;
       LambdaOptimizations._usage_count := LambdaOptimizations._usage_count p;
       LambdaOptimizations.allocated := LambdaOptimizations.allocated p |}.

(** Step 1: load the configuration. *)
Definition step_load_configuration : M Config.Config :=
  with_timeout_context
    (return_error
       (timeout_error "Lambda timeout approached during configuration loading"))
    (fun st =>
       let '(config_manager, p) :=
         LambdaOptimizations.get_config_manager (pool st) (world st) in
       load_config config_manager (set_pool st p)).

(** Step 2: the Cloudflare client.  The constructors have no failing
    statement here, the [except Exception] clause of this step is not
    entered. *)
Definition step_initialize_cloudflare_client (config : Config.Config)
  : M CloudflareClient.Client :=
  with_timeout_context
    (return_error
       (timeout_error
          "Lambda timeout approaching during Cloudflare client initialization"))
    (fun st =>
       let '(cloudflare_client, p) :=
         LambdaOptimizations.get_cloudflare_client (pool st) config (world st) in
       (Continue cloudflare_client, set_pool st p)).

(** Step 3: the data transformer. *)
Definition step_initialize_data_transformer (config : Config.Config)
  : M LambdaOptimizations.Transformer :=
  fun st =>
    let '(data_transformer, p) :=
      LambdaOptimizations.get_data_transformer (pool st)
        (Config.kv_namespace_id (Config.cloudflare_credentials config))
        (world st) in
    (Continue data_transformer, set_pool st p).

(** Step 4: the DynamoDB client. *)
Definition step_initialize_dynamodb_client (config : Config.Config)
  : M DynamoDBClient.Client :=
  with_timeout_context
    (return_error
       (timeout_error
          "Lambda timeout approaching during DynamoDB client initialization"))
    (fun st =>
       let '(dynamodb_client, p) :=
         LambdaOptimizations.get_dynamodb_client (pool st) config (world st) in
       (Continue dynamodb_client, set_pool st p)).

(** The [except] clauses of step 5. *)
Definition fetch_failed {A} (e : CloudflareClient.Exn) : M A :=
  fun st =>
    match e with
    | CloudflareClient.CloudflareAuthenticationError msg _ =>
        let '(error_info, s) :=
          ErrorHandler.handle_authentication_error (stats st) msg in
        (Return (ErrorHandler.create_error_response s error_info), set_stats st s)
    | CloudflareClient.CloudflareRateLimitError msg _ =>
        let '(error_info, s) := ErrorHandler.handle_api_error (stats st) msg true in
        (Return (ErrorHandler.create_error_response s error_info), set_stats st s)
    | CloudflareClient.CloudflareAPIError msg status_code =>
        (* hasattr(e, 'status_code') and e.status_code >= 500 *)
        match status_code with
        | Some c =>
            let '(error_info, s) :=
              ErrorHandler.handle_api_error (stats st) msg (500 <=? c) in
            (Return (ErrorHandler.create_error_response s error_info), set_stats st s)
        | None =>
            (Raise "TypeError"
               "'>=' not supported between instances of 'NoneType' and 'int'", st)
        end
    | CloudflareClient.OtherException t msg => (Raise t msg, st)
    end.

(** Step 5: fetch the value. *)
Definition step_fetch_cloudflare_value (cloudflare_client : CloudflareClient.Client)
    (key_name : PyValue) : M CloudflareClient.CloudflareValueResponse :=
  with_timeout_context
    (return_error (timeout_error "Lambda timeout approaching during value fetching"))
    (fun st =>
       let '(r, client, w) :=
         CloudflareClient.get_value error_msg cloudflare_client (world st) in
       let st := store_cloudflare_client (set_world st w) client in
       match r with
       | inl value_response =>
           let st :=
             set_stats st
               (ErrorHandler.update_statistics (stats st)
                  [("cloudflare_api_calls", 1)]) in
           if negb (truthy (CloudflareClient.success value_response))
              || match CloudflareClient.errors value_response with
                 | [] => false
                 | _ => true
                 end
           then
             fetch_failed
               (CloudflareClient.CloudflareAPIError "Cloudflare API returned errors" None)
               st
           else (Continue value_response, st)
       | inr e => fetch_failed e st
       end).

(** Step 6: transform and validate. *)
Definition step_transform_data (data_transformer : LambdaOptimizations.Transformer)
    (key_name : PyValue) (value_response : CloudflareClient.CloudflareValueResponse)
  : M DataTransformer.DynamoDBRecord :=
  with_timeout_context
    (return_error
       (timeout_error "Lambda timeout approaching during data transformation"))
    (fun st =>
       let cloudflare_key :=
         {| CloudflareClient.name := py_str repr key_name;
            CloudflareClient.expiration := None;
            CloudflareClient.metadata := Some [] |} in
       let record :=
         DataTransformer.transform_kv_record repr json_dumps
           (LambdaOptimizations.dt_namespace_id data_transformer)
           iso_timestamp key_name
           (CloudflareClient.result value_response) (Some cloudflare_key) in
       match DataTransformer.validate_record repr record with
       | DataTransformer.Returns true =>
           (Continue record,
            set_stats st
              (ErrorHandler.update_statistics (stats st) [("records_processed", 1)]))
       | DataTransformer.Returns false =>
           return_error
             {| ErrorHandler.category := "data_validation";
                ErrorHandler.message := "Record validation failed";
                ErrorHandler.is_retryable := false |} st
       | DataTransformer.DataValidationError e =>
           return_error
             {| ErrorHandler.category := "data_validation";
                ErrorHandler.message :=
                  String.append "Data validation error: " e;
                ErrorHandler.is_retryable := false |} st
       end).

(** The data of the response when the storage step is skipped. *)
Definition partial_data (key_name : PyValue) : Dict :=
  [("message",
     PyStr "Cloudflare data sync partially completed - timeout approaching");
   ("key_name", key_name);
   ("processing_summary",
     PyDict [("key_retrieved", PyBool true);
             ("record_processed", PyBool true);
             ("record_stored", PyBool false);
             ("timeout_occurred", PyBool true)])].

(** Step 7: store the record.  [batch_write_records] takes every
    [DynamoDBError] itself, the [except DynamoDBError] clause of this step
    is not entered. *)
Definition step_store_record (dynamodb_client : DynamoDBClient.Client)
    (key_name : PyValue) (record : DataTransformer.DynamoDBRecord)
  : M DynamoDBClient.BatchWriteResult :=
  with_timeout_context
    (fun st =>
       let '(response, s) :=
         ErrorHandler.create_success_response (stats st) (Env.clock (world st))
           (partial_data key_name) in
       (Return response, set_stats st s))
    (fun st =>
       let '(batch_result, client, w) :=
         DynamoDBClient.batch_write_records repr dynamodb_client [record] (world st) in
       let st := store_dynamodb_client (set_world st w) client in
       (Continue batch_result,
        set_stats st
          (ErrorHandler.update_statistics (stats st)
             [("dynamodb_writes", 1);
              ("records_stored", DynamoDBClient.successful_records batch_result)]))).

(** The data of the final response; the ["lambda_optimizations"] entry,
    diagnostics of the cold start and of the pool, is left out. *)
Definition final_data (key_name : PyValue)
    (batch_result : DynamoDBClient.BatchWriteResult) : Dict :=
  [("message",
     PyStr (String.append "Cloudflare data sync completed successfully for key '"
              (String.append (py_str repr key_name) "'")));
   ("key_name", key_name);
   ("processing_summary",
     PyDict [("key_retrieved", PyBool true);
             ("record_processed", PyBool true);
             ("record_stored",
               PyBool (0 <? DynamoDBClient.successful_records batch_result));
             ("record_failed",
               PyBool (0 <? DynamoDBClient.failed_records batch_result))])].

(** Step 8: the final response; [timeout_manager.get_remaining_time()] is
    read for the diagnostics, [log_final_summary] closes the statistics. *)
Definition step_final_response (key_name : PyValue)
    (batch_result : DynamoDBClient.BatchWriteResult) : M Response :=
  fun st =>
    let w := snd (LambdaOptimizations.get_remaining_time (timeout_manager st)
                    (world st)) in
    let st := set_world st w in
    let '(response, s) :=
      ErrorHandler.create_success_response (stats st) (Env.clock w)
        (final_data key_name batch_result) in
    (Continue response, set_stats st s).

(** The body of the [try] of [lambda_handler], after
    [optimize_lambda_execution]. *)
Definition pipeline (event : Dict) : M Response :=
  let key_name :=
    CloudflareClient.get_default event "key_name"
      (PyStr "redirect-all-users-to-essentials") in
  config <- step_load_configuration ;;
  cloudflare_client <- step_initialize_cloudflare_client config ;;
  data_transformer <- step_initialize_data_transformer config ;;
  dynamodb_client <- step_initialize_dynamodb_client config ;;
  value_response <- step_fetch_cloudflare_value cloudflare_client key_name ;;
  record <- step_transform_data data_transformer key_name value_response ;;
  batch_result <- step_store_record dynamodb_client key_name record ;;
  step_final_response key_name batch_result.

(** The [except Exception] clause of [lambda_handler]. *)
Definition unexpected_error (st : State) (msg : string) : Response * State :=
  let s := ErrorHandler.ensure_finished (stats st) (Env.clock (world st)) in
  (ErrorHandler.create_error_response s
     {| ErrorHandler.category := ErrorHandler.category_value ErrorHandler.UNKNOWN;
        ErrorHandler.message := msg;
        ErrorHandler.is_retryable := false |},
   set_stats st s).

(** [lambda_handler(event, context)]: [global_pool] is the module-level
    [_connection_pool] of lambda_optimizations when the handler starts; the
    result comes with the pool and the world that the handler leaves.
    The remaining time is read by [TimeoutManager.__init__], once for the
    optimisation report and once for the audit log before the first step. *)
Definition lambda_handler (event : Dict) (global_pool : option ConnectionPool)
    (w : Env.World) : Response * ConnectionPool * Env.World :=
  let statistics := ErrorHandler.new_statistics (Env.clock w) in
  let connection_pool := LambdaOptimizations.get_connection_pool global_pool w in
  let '(timeout_manager, w) := LambdaOptimizations.new_timeout_manager 30 w in
  let w := snd (LambdaOptimizations.get_remaining_time timeout_manager w) in
  let w := snd (Env.remaining_time_in_millis w) in
  let st := {| world := w; pool := connection_pool; stats := statistics;
               timeout_manager := timeout_manager |} in
  let '(response, st) :=
    match pipeline event st with
    | (Continue response, st) => (response, st)
    | (Return response, st) => (response, st)
    | (Raise _ msg, st) => unexpected_error st msg
    end in
  (* finally: cleanup_lambda_resources(logger) *)
  (response, LambdaOptimizations.cleanup (pool st), world st).

End Handler.

End LambdaFunction.

(* ================================================================== *)
(** * The vocabulary of the statements, and scenarios *)
(* ================================================================== *)

Unset Implicit Arguments.

Section Vocabulary.
Import Py CloudflareClient.
Local Open Scope string_scope.
Local Open Scope Z_scope.

(** What holds of every breaker that a program can hold. *)
Record breaker_inv (threshold : Z) (timeout : Q) (cb : CircuitBreaker) : Prop := {
  inv_threshold : failure_threshold cb = threshold;
  inv_timeout : recovery_timeout cb = timeout;
  inv_tripped : state cb <> CLOSED -> threshold <= failure_count cb;
  inv_open : state cb = OPEN ->
             success_count cb = 0 /\ last_failure_time cb <> None;
  inv_closed : state cb = CLOSED -> success_count cb = 0;
  inv_successes : 0 <= success_count cb < 3
}.

(** Whether the wrapped function returned or raised. *)
Definition outcome_of {A} (r : A + Exn) : Outcome :=
  match r with inl _ => Succeeds | inr _ => Fails end.

(** A breaker with threshold 2 after two failing calls at times 0 and 1. *)
Definition tripped_breaker : CircuitBreaker :=
  run (new_circuit_breaker 2 60) [(0%Q, 0%Q, Fails); (1%Q, 1%Q, Fails)].





End Vocabulary.

Section Scenarios.
Import Py.
Local Open Scope string_scope.
Local Open Scope Z_scope.

(** The [ttl] that [transform_kv_record] computes. *)
Definition ttl_of (km : option CloudflareClient.CloudflareKey) : PyValue :=
  match km with
  | Some k =>
      match CloudflareClient.expiration k with
      | Some e => if e =? 0 then PyNone else PyInt e
      | None => PyNone
      end
  | None => PyNone
  end.

(** The metadata of the upstream key, where there is one. *)
Definition upstream_metadata (km : option CloudflareClient.CloudflareKey) : Dict :=
  match km with
  | Some k => match CloudflareClient.metadata k with Some md => md | None => [] end
  | None => []
  end.

(** A world in which nothing has happened yet, with its four oracles. *)
Definition initial_world (http : nat -> Env.Transport)
    (store : nat -> list PyValue -> Env.StoreReply)
    (random_draws : nat -> Q) (remaining_time : nat -> Z) : Env.World :=
  {| Env.clock := 0; Env.slept := [];
     Env.http := http; Env.http_calls := 0%nat;
     Env.store := store; Env.store_requests := [];
     Env.random_draws := random_draws; Env.random_calls := 0%nat;
     Env.remaining_time := remaining_time; Env.remaining_calls := 0%nat |}.

(** An upstream that answers 404 to every request. *)
Definition not_found_world : Env.World :=
  initial_world
    (fun _ => Env.Replies {| Env.status := 404; Env.header_retry_after := None;
                             Env.json_content_type := false; Env.json := None;
                             Env.text := "not found" |})
    (fun _ _ => Env.Unprocessed []) (fun _ => 0%Q) (fun _ => 300000).


(** An element of [UnprocessedItems]. *)
Definition put_request (item : PyValue) : PyValue :=
  PyDict [("PutRequest", PyDict [("Item", item)])].

(** A table that takes nothing: every item sent comes back in
    [UnprocessedItems], as a throttled table answers. *)
Definition throttled_world : Env.World :=
  initial_world (fun _ => Env.Timeout)
    (fun _ items => Env.Unprocessed (map put_request items))
    (fun _ => (1 # 2)%Q) (fun _ => 300000).

(** The record of key ["k"] and value ["v"]. *)
Definition sample_record : DataTransformer.DynamoDBRecord :=
  DataTransformer.transform_kv_record (fun _ => "") (fun _ => None) "namespace"
    "2024-01-09T12:00:00+00:00" (PyStr "k") (PyStr "v") None.


(** A configuration, by its retry count. *)
Definition sample_config (retries : Z) : Config.Config :=
  {| Config.secrets_manager_secret_name := "secret";
     Config.dynamodb_table_name := "table";
     Config.retry_max_attempts := retries;
     Config.api_timeout_seconds := 30;
     Config.cloudflare_credentials :=
       {| Config.api_token := "token"; Config.account_id := "account";
          Config.kv_namespace_id := "namespace-id";
          Config.kv_namespace := "namespace" |} |}.

(** A world where the store takes everything and five minutes remain. *)
Definition quiet_world : Env.World :=
  initial_world (fun _ => Env.Timeout) (fun _ _ => Env.Unprocessed [])
    (fun _ => 0%Q) (fun _ => 300000).

(** The pool after one [get_cloudflare_client] and one
    [get_dynamodb_client] for the configuration. *)
Definition warm_pool (config : Config.Config)
  : LambdaOptimizations.ConnectionPool :=
  let p := LambdaOptimizations.new_connection_pool quiet_world in
  let p := snd (LambdaOptimizations.get_cloudflare_client p config quiet_world) in
  snd (LambdaOptimizations.get_dynamodb_client p config quiet_world).

(** A world whose deadline source reports [ms] at every reading. *)
Definition deadline_world (ms : Z) : Env.World :=
  initial_world (fun _ => Env.Timeout) (fun _ _ => Env.Unprocessed [])
    (fun _ => 0%Q) (fun _ => ms).

(** The upstream returns the raw value ["test-value"]; the table does not
    exist, [batch_write_item] raises [ResourceNotFoundException]; five
    minutes remain at every reading. *)
Definition missing_table_world : Env.World :=
  initial_world
    (fun _ => Env.Replies {| Env.status := 200; Env.header_retry_after := None;
                             Env.json_content_type := false; Env.json := None;
                             Env.text := "test-value" |})
    (fun _ _ => Env.ClientError "ResourceNotFoundException"
                  "Requested resource not found")
    (fun _ => 0%Q) (fun _ => 300000).

(** [d[k]] read as a dictionary. *)
Definition sub_dict (d : option Dict) (k : string) : Dict :=
  match d with
  | Some d => match dict_get d k with Some (PyDict d') => d' | _ => [] end
  | None => []
  end.

End Scenarios.

Section Traces.
Import Py.
Local Open Scope string_scope.
Local Open Scope Z_scope.

(** What a run leaves of the world [w]: [requests] more requests to the
    upstream, the sleeps [naps] appended, the store untouched. *)
Definition loop_trace (w w' : Env.World) (requests : nat) (naps : list Q) : Prop :=
  Env.http_calls w' = (Env.http_calls w + requests)%nat /\
  Env.slept w' = (Env.slept w ++ naps)%list /\
  Env.store_requests w' = Env.store_requests w.

End Traces.

Section Shapes.
Import Py.
Local Open Scope string_scope.
Local Open Scope Z_scope.

(** No key comes twice in the list of entries. *)
Fixpoint keys_distinct (d : Dict) : bool :=
  match d with
  | [] => true
  | (k, _) :: d' =>
      match dict_get d' k with
      | None => keys_distinct d'
      | Some _ => false
      end
  end.

(** As in every Python value, the keys of each dictionary are distinct. *)
Fixpoint well_formed (v : PyValue) : bool :=
  match v with
  | PyDict d => keys_distinct d && forallb (fun kv => well_formed (snd kv)) d
  | PyList l => forallb well_formed l
  | _ => true
  end.

(** The value is built of [None], strings, numbers, booleans, lists and
    dictionaries only. *)
Fixpoint supported (v : PyValue) : bool :=
  match v with
  | PyObject _ _ => false
  | PyDict d => forallb (fun kv => supported (snd kv)) d
  | PyList l => forallb supported l
  | _ => true
  end.
End Shapes.

Section Validity.
Import Py DataTransformer.
(** [validate_record] returns [True] on the record. *)
Definition valid (repr : PyValue -> string) (record : DynamoDBRecord) : bool :=
  match validate_record repr record with
  | Returns true => true
  | _ => false
  end.

(** The index and the message of the first record that [validate_record]
    refuses. *)
Fixpoint first_invalid (repr : PyValue -> string) (records : list DynamoDBRecord)
    (i : Z) : option (Z * string) :=
  match records with
  | [] => None
  | record :: records' =>
      match validate_record repr record with
      | DataValidationError e => Some (i, e)
      | _ => first_invalid repr records' (i + 1)%Z
      end
  end.
End Validity.

Section StoreTraces.
Import Py.

(** What a run leaves of the world [w]: the requests [writes] appended to
    those sent to the store, the sleeps [naps] appended, the upstream untouched. *)
Definition store_trace (w w' : Env.World) (writes : list (list Py.PyValue))
    (naps : list Q) : Prop :=
  Env.store_requests w' = (Env.store_requests w ++ writes)%list /\
  Env.slept w' = (Env.slept w ++ naps)%list /\
  Env.http_calls w' = Env.http_calls w /\
  Env.store w' = Env.store w.
End StoreTraces.

Section HandlerInvariants.
Import Py ErrorHandler LambdaFunction.
Local Open Scope Z_scope.
(** The counters that no statement of [lambda_handler] touches are at 0. *)
Definition untouched (s : ExecutionStatistics) : Prop :=
  records_failed s = 0 /\ total_retries s = 0 /\
  successful_retries s = 0 /\ failed_retries s = 0.

(** The statistics of the response are those of such counters. *)
Definition reports_untouched (response : Response) : Prop :=
  exists s, untouched s /\ statistics response = to_dict s.

(** A piece of the handler keeps these counters at 0, a response that it
    returns reports them so, and a value that it goes on with satisfies [Q]. *)
Definition keeps_untouched {A} (Q : A -> Prop) (m : M A) : Prop :=
  forall st, untouched (stats st) ->
    untouched (stats (snd (m st))) /\
    match fst (m st) with
    | Continue a => Q a
    | Return response => reports_untouched response
    | Raise _ _ => True
    end.
End HandlerInvariants.

Section Reachability.
Import Py CloudflareClient.
(** The request did not get a reply. *)
Definition transport_failure (t : Env.Transport) : Prop :=
  match t with
  | Env.Replies _ => False
  | _ => True
  end.

(** The exceptions that step 5 of the handler has no clause for, or whose
    clause fails on [e.status_code >= 500]: a [CloudflareAPIError] without a
    status code, and the exceptions outside the hierarchy. *)
Definition unclassified (e : Exn) : Prop :=
  match e with
  | CloudflareAPIError _ None => True
  | OtherException _ _ => True
  | _ => False
  end.

(** More than the 30 seconds of the buffer remain at every reading, and
    the timeout manager holds that buffer. *)
Definition unhurried (st : LambdaFunction.State) : Prop :=
  (forall n, (30000 < Env.remaining_time (LambdaFunction.world st) n)%Z) /\
  LambdaOptimizations.buffer_seconds (LambdaFunction.timeout_manager st) = 30%Q.
(** What the stages before the fetch keep. *)
Definition ready (s0 : ErrorHandler.ExecutionStatistics) (w0 : Env.World) (st : LambdaFunction.State) : Prop :=
  unhurried st /\ LambdaFunction.stats st = s0 /\
  Env.http (LambdaFunction.world st) = Env.http w0 /\
  Env.store_requests (LambdaFunction.world st) = Env.store_requests w0.
End Reachability.

Section SuccessfulRun.
Import Py.
Local Open Scope string_scope.

(** The pool of the process holds no object: the process is new, or the
    cleanup of an earlier invocation has emptied the pool. *)
Definition holds_nothing (global : option LambdaOptimizations.ConnectionPool)
  : Prop :=
  match global with
  | None => True
  | Some p =>
      LambdaOptimizations._config_manager p = None /\
      LambdaOptimizations._cloudflare_client p = None /\
      LambdaOptimizations._dynamodb_client p = None /\
      LambdaOptimizations._data_transformer p = None
  end.

(** The key that [lambda_handler] reads from the event. *)
Definition key_of (event : Dict) : PyValue :=
  CloudflareClient.get_default event "key_name"
    (PyStr "redirect-all-users-to-essentials").

(** The record that step 6 of the handler makes of the value fetched. *)
Definition fetched_record (repr : PyValue -> string)
    (json_dumps : PyValue -> option string) (iso_timestamp : string)
    (config : Config.Config) (key_name : PyValue)
    (value_response : CloudflareClient.CloudflareValueResponse)
  : DataTransformer.DynamoDBRecord :=
  DataTransformer.transform_kv_record repr json_dumps
    (Config.kv_namespace_id (Config.cloudflare_credentials config))
    iso_timestamp key_name (CloudflareClient.result value_response)
    (Some {| CloudflareClient.name := py_str repr key_name;
             CloudflareClient.expiration := None;
             CloudflareClient.metadata := Some [] |}).

(** The two worlds differ at most by the clock and by the number of
    readings of the deadline and of draws. *)
Definition same_io (w w' : Env.World) : Prop :=
  Env.http w' = Env.http w /\ Env.http_calls w' = Env.http_calls w /\
  Env.store w' = Env.store w /\ Env.store_requests w' = Env.store_requests w /\
  Env.slept w' = Env.slept w /\ Env.remaining_time w' = Env.remaining_time w.

(** The handler between two stages, with time left. *)
Definition calm (w0 : Env.World) (st : LambdaFunction.State) : Prop :=
  unhurried st /\ same_io w0 (LambdaFunction.world st).
End SuccessfulRun.

Section ErrorCounts.
Import Py ErrorHandler.
(** The counter of one category. *)
Definition error_count (s : ExecutionStatistics) (c : ErrorCategory) : Z :=
  match c with
  | CONFIGURATION => configuration_errors s
  | AUTHENTICATION => authentication_errors s
  | API => api_errors s
  | STORAGE => storage_errors s
  | DATA_VALIDATION => data_validation_errors s
  | NETWORK => network_errors s
  | UNKNOWN => unknown_errors s
  end.

Definition same_category (c d : ErrorCategory) : bool :=
  String.eqb (category_value c) (category_value d).

(** The categories that [_map_error_to_http_status] has a clause for. *)
Definition mapped_categories : list string :=
  map category_value
    [CONFIGURATION; AUTHENTICATION; API; STORAGE; DATA_VALIDATION; NETWORK].
End ErrorCounts.

Section MoreScenarios.
Import Py.
Local Open Scope string_scope.
Local Open Scope Z_scope.




(** A string of [n] characters. *)
Fixpoint filler (n : nat) : string :=
  match n with
  | O => EmptyString
  | S n' => String "x" (filler n')
  end.

(** The record of key ["k"] and of a value of 410240 characters, more
    than the 400 KB of an item. *)
Definition oversized_record : DataTransformer.DynamoDBRecord :=
  DataTransformer.transform_kv_record (fun _ => "") (fun _ => None) "namespace"
    "2024-01-09T12:00:00+00:00" (PyStr "k") (PyStr (filler (640 * 641))) None.

(** The handler at the start of a stage, 25 seconds before the deadline. *)
Definition late_state : LambdaFunction.State :=
  {| LambdaFunction.world :=
       snd (LambdaOptimizations.new_timeout_manager 30 (deadline_world 25000));
     LambdaFunction.pool := LambdaOptimizations.new_connection_pool (deadline_world 25000);
     LambdaFunction.stats := ErrorHandler.new_statistics 0;
     LambdaFunction.timeout_manager :=
       fst (LambdaOptimizations.new_timeout_manager 30 (deadline_world 25000)) |}.

(** A dictionary with [None] values at two levels. *)
Definition nulls_sample : Dict :=
  [("a", PyNone);
   ("b", PyList [PyDict [("c", PyNone); ("d", PyInt 1)]; PyNone]);
   ("e", PyDict [("f", PyNone)])].

(** An upstream that answers every request with the raw value
    ["test-value"], and a table that takes everything. *)
Definition healthy_world : Env.World :=
  initial_world
    (fun _ => Env.Replies {| Env.status := 200; Env.header_retry_after := None;
                             Env.json_content_type := false; Env.json := None;
                             Env.text := "test-value" |})
    (fun _ _ => Env.Unprocessed []) (fun _ => 0%Q) (fun _ => 300000).

(** What [get_value] makes of that reply. *)
Definition raw_test_value : CloudflareClient.CloudflareValueResponse :=
  {| CloudflareClient.success := PyBool true;
     CloudflareClient.result := PyStr "test-value";
     CloudflareClient.errors := [] |}.

(** The item of a record; empty when the record does not convert. *)
Definition item_of (repr : PyValue -> string)
    (record : DataTransformer.DynamoDBRecord) : Dict :=
  match DynamoDBClient._record_to_dynamodb_item repr record with
  | inl item => item
  | inr _ => []
  end.
End MoreScenarios.

(* ================================================================== *)
(** * Properties *)
(* ================================================================== *)

Section PyFacts.
Import Py.
Local Open Scope Q_scope.

Lemma py_min_le_l a b : py_min a b <= a.
Proof.
  unfold py_min. destruct (Qle_bool a b) eqn:E.
  - apply Qle_refl.
  - apply Qlt_le_weak, Qnot_le_lt. intros H. apply Qle_bool_iff in H. congruence.
Qed.

Lemma py_min_le_r a b : py_min a b <= b.
Proof.
  unfold py_min. destruct (Qle_bool a b) eqn:E.
  - now apply Qle_bool_iff.
  - apply Qle_refl.
Qed.

Lemma py_min_glb a b c : c <= a -> c <= b -> c <= py_min a b.
Proof. unfold py_min. destruct (Qle_bool a b); auto. Qed.

Lemma py_min_mono a a' b : a <= a' -> py_min a b <= py_min a' b.
Proof.
  intros H. apply py_min_glb.
  - eapply Qle_trans; [apply py_min_le_l | exact H].
  - apply py_min_le_r.
Qed.


Lemma py_max_ge_l a b : a <= py_max a b.
Proof.
  unfold py_max. destruct (Qle_bool b a) eqn:E.
  - apply Qle_refl.
  - apply Qlt_le_weak, Qnot_le_lt. intros H. apply Qle_bool_iff in H. congruence.
Qed.

Lemma Qpower2_pos (n : Z) : 0 < Qpower 2 n.
Proof. apply Qpower_0_lt. reflexivity. Qed.

Lemma Qpower2_mono (m n : Z) : (0 <= m <= n)%Z -> Qpower 2 m <= Qpower 2 n.
Proof.
  intros [Hm Hmn].
  replace n with (m + (n - m))%Z by lia.
  rewrite Qpower_plus by (intro H; discriminate H).
  assert (H1 : 1 <= Qpower 2 (n - m)).
  { apply Qpower_1_le; [| lia]. discriminate. }
  pose proof (Qpower2_pos m) as Hp.
  nra.
Qed.

End PyFacts.

(** ** Rounding to the nearest double *)

Section FloatFacts.
Import Py.
Local Open Scope Q_scope.

Lemma pow2_pos z : 0 < 2 ^ z.
Proof. apply Qpower_0_lt. reflexivity. Qed.

Lemma pow2_add a b : 2 ^ (a + b) == 2 ^ a * 2 ^ b.
Proof. apply Qpower_plus. discriminate. Qed.

Lemma pow2_succ a : 2 ^ (a + 1) == 2 * 2 ^ a.
Proof. rewrite pow2_add. change (2 ^ 1) with 2. ring. Qed.

Lemma pow2_le a b : (a <= b)%Z -> 2 ^ a <= 2 ^ b.
Proof. intros H. apply Qpower_le_compat_l; [exact H | discriminate]. Qed.

Lemma pow2_lt a b : (a < b)%Z -> 2 ^ a < 2 ^ b.
Proof. intros H. apply Qpower_lt_compat_l; [exact H | reflexivity]. Qed.

Lemma pow2_lt_inv a b : 2 ^ a < 2 ^ b -> (a < b)%Z.
Proof. intros H. apply (Qpower_lt_compat_l_inv 2); [exact H | reflexivity]. Qed.

Lemma pow2_Z k : (0 <= k)%Z -> 2 ^ k == inject_Z (2 ^ k).
Proof. intros H. rewrite Zpower_Qpower by exact H. reflexivity. Qed.

Lemma ilog2_spec x : 0 < x -> 2 ^ ilog2 x <= x /\ x < 2 ^ (ilog2 x + 1).
Proof.
  destruct x as [n d]. intros Hx.
  assert (Hn : (0 < n)%Z) by (unfold Qlt in Hx; cbn in Hx; lia).
  unfold ilog2. cbn [Qnum Qden].
  set (a := Z.log2 n). set (b := Z.log2 (Z.pos d)).
  assert (Ha0 : (0 <= a)%Z) by apply Z.log2_nonneg.
  assert (Hb0 : (0 <= b)%Z) by apply Z.log2_nonneg.
  destruct (Z.log2_spec n Hn) as [Ha1 Ha2]. fold a in Ha1, Ha2.
  destruct (Z.log2_spec (Z.pos d) eq_refl) as [Hb1 Hb2]. fold b in Hb1, Hb2.
  rewrite Zle_Qle in Ha1, Hb1. rewrite Zlt_Qlt in Ha2, Hb2.
  rewrite <- pow2_Z in Ha1, Hb1 by assumption.
  rewrite <- pow2_Z in Ha2, Hb2 by lia.
  unfold Z.succ in Ha2, Hb2. rewrite pow2_succ in Ha2, Hb2.
  set (N := inject_Z n) in *. set (D := inject_Z (Z.pos d)) in *.
  assert (HD : 0 < D) by reflexivity.
  assert (Hk : 2 ^ (a - b) * 2 ^ b == 2 ^ a).
  { rewrite <- pow2_add. now replace (a - b + b)%Z with a by lia. }
  assert (Hk' : 2 ^ (a - b - 1) * 2 == 2 ^ (a - b)).
  { replace (a - b)%Z with (a - b - 1 + 1)%Z at 2 by lia.
    rewrite pow2_succ. ring. }
  pose proof (pow2_pos (a - b)) as P1. pose proof (pow2_pos (a - b - 1)) as P2.
  pose proof (pow2_pos a) as P3. pose proof (pow2_pos b) as P4.
  assert (Hup : n # d < 2 ^ (a - b + 1)).
  { rewrite (Qmake_Qdiv n d). apply Qlt_shift_div_r; [exact HD |].
    rewrite pow2_succ. fold N D. nra. }
  assert (Hlow : 2 ^ (a - b - 1) <= n # d).
  { rewrite (Qmake_Qdiv n d). apply Qle_shift_div_l; [exact HD |]. fold N D. nra. }
  destruct (Qle_bool (2 ^ (a - b)) (n # d)) eqn:E.
  - apply Qle_bool_iff in E. split; assumption.
  - split; [exact Hlow |].
    replace (a - b - 1 + 1)%Z with (a - b)%Z by lia.
    apply Qnot_le_lt. intros H. apply Qle_bool_iff in H. congruence.
Qed.

Lemma ilog2_unique x L : 2 ^ L <= x -> x < 2 ^ (L + 1) -> ilog2 x = L.
Proof.
  intros H1 H2.
  assert (Hx : 0 < x) by (eapply Qlt_le_trans; [apply (pow2_pos L) | exact H1]).
  destruct (ilog2_spec x Hx) as [S1 S2].
  assert (A : (L < ilog2 x + 1)%Z).
  { apply pow2_lt_inv. eapply Qle_lt_trans; eassumption. }
  assert (B : (ilog2 x < L + 1)%Z).
  { apply pow2_lt_inv. eapply Qle_lt_trans; eassumption. }
  lia.
Qed.

Lemma ilog2_mono x y : 0 < x -> x <= y -> (ilog2 x <= ilog2 y)%Z.
Proof.
  intros Hx Hxy.
  assert (Hy : 0 < y) by (eapply Qlt_le_trans; eassumption).
  destruct (ilog2_spec x Hx) as [S1 _]. destruct (ilog2_spec y Hy) as [_ T2].
  assert (A : (ilog2 x < ilog2 y + 1)%Z).
  { apply pow2_lt_inv. eapply Qle_lt_trans; [exact S1 |].
    eapply Qle_lt_trans; eassumption. }
  lia.
Qed.

Lemma rne_bounds q : (Qfloor q <= rne q <= Qfloor q + 1)%Z.
Proof.
  unfold rne. destruct (Qcompare (q - inject_Z (Qfloor q)) (1 # 2)); try lia.
  destruct (Z.even (Qfloor q)); lia.
Qed.

Lemma rne_Z z : rne (inject_Z z) = z.
Proof.
  unfold rne. rewrite Qfloor_Z.
  destruct (Qcompare_spec (inject_Z z - inject_Z z) (1 # 2)) as [C | C | C];
    [exfalso; lra | reflexivity | exfalso; lra].
Qed.

Lemma rne_mono q q' : q <= q' -> (rne q <= rne q')%Z.
Proof.
  intros H.
  pose proof (Qfloor_resp_le _ _ H) as Hf.
  pose proof (rne_bounds q) as B. pose proof (rne_bounds q') as B'.
  destruct (Z.eq_dec (Qfloor q) (Qfloor q')) as [E | N]; [| lia].
  unfold rne. rewrite <- E.
  assert (Ht : q - inject_Z (Qfloor q) <= q' - inject_Z (Qfloor q)) by lra.
  destruct (Qcompare_spec (q - inject_Z (Qfloor q)) (1 # 2)) as [C | C | C];
    destruct (Qcompare_spec (q' - inject_Z (Qfloor q)) (1 # 2)) as [C' | C' | C'];
    try lia; try (destruct (Z.even (Qfloor q)); lia); exfalso; lra.
Qed.

Lemma rne_ge z x e : inject_Z z * 2 ^ e <= x -> (z <= rne (x / 2 ^ e))%Z.
Proof.
  intros H. pose proof (rne_Z z) as E.
  assert (M : (rne (inject_Z z) <= rne (x / 2 ^ e))%Z).
  { apply rne_mono. apply Qle_shift_div_l; [apply pow2_pos | exact H]. }
  lia.
Qed.

Lemma rne_le z x e : x <= inject_Z z * 2 ^ e -> (rne (x / 2 ^ e) <= z)%Z.
Proof.
  intros H. pose proof (rne_Z z) as E.
  assert (M : (rne (x / 2 ^ e) <= rne (inject_Z z))%Z).
  { apply rne_mono. apply Qle_shift_div_r; [apply pow2_pos | exact H]. }
  lia.
Qed.

Lemma round_pos_nonneg x : 0 < x -> 0 <= round_pos x.
Proof.
  intros Hx. unfold round_pos.
  pose proof (pow2_pos (scale x)) as P.
  assert (H : (0 <= rne (x / 2 ^ scale x))%Z).
  { apply rne_ge. change (inject_Z 0) with 0. lra. }
  rewrite Zle_Qle in H. change (inject_Z 0) with 0 in H. nra.
Qed.

(** What [round_pos] returns has at most 53 bits above its scale. *)
Lemma round_pos_repr x :
  0 < x ->
  exists m e,
    round_pos x = inject_Z m * 2 ^ e /\ (0 <= m <= 2 ^ 53)%Z /\ (-1074 <= e)%Z.
Proof.
  intros Hx. exists (rne (x / 2 ^ scale x)), (scale x).
  split; [reflexivity |]. split; [| unfold scale; lia].
  destruct (ilog2_spec x Hx) as [_ S2].
  split.
  - apply rne_ge. change (inject_Z 0) with 0. lra.
  - apply rne_le.
    rewrite <- pow2_Z by lia. rewrite <- pow2_add.
    apply Qlt_le_weak. eapply Qlt_le_trans; [exact S2 |].
    apply pow2_le. unfold scale. lia.
Qed.

Lemma round_pos_mono x y : 0 < x -> x <= y -> round_pos x <= round_pos y.
Proof.
  intros Hx Hxy.
  assert (Hy : 0 < y) by (eapply Qlt_le_trans; eassumption).
  pose proof (ilog2_mono x y Hx Hxy) as HL.
  destruct (ilog2_spec x Hx) as [S1 S2]. destruct (ilog2_spec y Hy) as [T1 T2].
  unfold round_pos.
  pose proof (pow2_pos (scale x)) as Px. pose proof (pow2_pos (scale y)) as Py.
  destruct (Z.eq_dec (scale x) (scale y)) as [E | N].
  - rewrite E.
    assert (H : (rne (x / 2 ^ scale y) <= rne (y / 2 ^ scale y))%Z).
    { apply rne_mono. apply Qmult_le_compat_r; [exact Hxy |].
      apply Qlt_le_weak, Qinv_lt_0_compat, Py. }
    rewrite Zle_Qle in H. nra.
  - assert (Hs : (scale x < scale y)%Z) by (unfold scale in *; lia).
    assert (Ey : scale y = (ilog2 y - 52)%Z) by (unfold scale in *; lia).
    assert (Hlt : (ilog2 x + 1 <= ilog2 y)%Z) by (unfold scale in *; lia).
    set (L := ilog2 y) in *.
    apply Qle_trans with (2 ^ L).
    + assert (Hd : (0 <= L - scale x)%Z) by lia.
      assert (E2 : inject_Z (2 ^ (L - scale x)) * 2 ^ scale x == 2 ^ L).
      { rewrite <- pow2_Z by exact Hd. rewrite <- pow2_add.
        now replace (L - scale x + scale x)%Z with L by lia. }
      assert (H : (rne (x / 2 ^ scale x) <= 2 ^ (L - scale x))%Z).
      { apply rne_le. rewrite E2.
        apply Qlt_le_weak. eapply Qlt_le_trans; [exact S2 |]. now apply pow2_le. }
      rewrite Zle_Qle in H. rewrite <- E2. nra.
    + assert (E2 : inject_Z (2 ^ 52) * 2 ^ scale y == 2 ^ L).
      { rewrite <- pow2_Z by lia. rewrite <- pow2_add.
        now replace (52 + scale y)%Z with L by lia. }
      assert (H : (2 ^ 52 <= rne (y / 2 ^ scale y))%Z).
      { apply rne_ge. rewrite E2. exact T1. }
      rewrite Zle_Qle in H. rewrite <- E2. nra.
Qed.

Lemma pow2_le_inv a b : 2 ^ a <= 2 ^ b -> (a <= b)%Z.
Proof. intros H. apply (Qpower_le_compat_l_inv 2); [exact H | reflexivity]. Qed.

Lemma rne_exact z x e : x == inject_Z z * 2 ^ e -> rne (x / 2 ^ e) = z.
Proof.
  intros H.
  assert (A : (z <= rne (x / 2 ^ e))%Z) by (apply rne_ge; rewrite H; apply Qle_refl).
  assert (B : (rne (x / 2 ^ e) <= z)%Z) by (apply rne_le; rewrite H; apply Qle_refl).
  lia.
Qed.

(** A number of at most 53 bits above a scale of at least -1074 is a
    double. *)
Lemma round_pos_exact m e :
  (0 < m <= 2 ^ 53)%Z -> (-1074 <= e)%Z ->
  round_pos (inject_Z m * 2 ^ e) == inject_Z m * 2 ^ e.
Proof.
  intros [Hm1 Hm2] He.
  set (x := inject_Z m * 2 ^ e).
  pose proof (pow2_pos e) as Pe.
  assert (Hm1q : 0 < inject_Z m) by (rewrite Zlt_Qlt in Hm1; exact Hm1).
  assert (Hm2q : inject_Z m <= 2 ^ 53).
  { rewrite Zle_Qle in Hm2. rewrite pow2_Z by lia. exact Hm2. }
  assert (Hx : 0 < x) by (unfold x; nra).
  destruct (ilog2_spec x Hx) as [S1 S2].
  assert (HL : (ilog2 x <= 53 + e)%Z).
  { apply pow2_le_inv. eapply Qle_trans; [exact S1 |].
    rewrite pow2_add. unfold x. nra. }
  unfold round_pos.
  destruct (Z_le_gt_dec (scale x) e) as [Hs | Hs].
  - assert (E : x == inject_Z (m * 2 ^ (e - scale x)) * 2 ^ scale x).
    { rewrite inject_Z_mult, <- pow2_Z by lia.
      rewrite <- Qmult_assoc, <- pow2_add.
      replace (e - scale x + scale x)%Z with e by lia. reflexivity. }
    rewrite (rne_exact _ _ _ E). symmetry. exact E.
  - assert (EL : ilog2 x = (e + 53)%Z) by (unfold scale in Hs; lia).
    assert (Es : scale x = (e + 1)%Z) by (unfold scale in *; lia).
    assert (Em : inject_Z m == 2 ^ 53).
    { apply Qle_antisym; [exact Hm2q |].
      rewrite EL, pow2_add in S1. unfold x in S1.
      setoid_replace (2 ^ e * 2 ^ 53) with (2 ^ 53 * 2 ^ e) in S1 by ring.
      apply Qmult_le_r in S1; [exact S1 | exact Pe]. }
    assert (E : x == inject_Z (2 ^ 52) * 2 ^ scale x).
    { rewrite Es, <- pow2_Z by lia. rewrite <- pow2_add. unfold x. rewrite Em.
      rewrite <- pow2_add. now replace (52 + (e + 1))%Z with (53 + e)%Z by lia. }
    rewrite (rne_exact _ _ _ E). symmetry. exact E.
Qed.

Lemma round64_pos x : 0 < x -> round64 x == round_pos x.
Proof.
  intros H. unfold round64.
  destruct (Qcompare_spec x 0) as [C | C | C]; [lra | lra |]. apply Qred_correct.
Qed.

Lemma round64_neg x : x < 0 -> round64 x == - round_pos (- x).
Proof.
  intros H. unfold round64.
  destruct (Qcompare_spec x 0) as [C | C | C]; [lra | | lra]. apply Qred_correct.
Qed.

Lemma round64_zero x : x == 0 -> round64 x == 0.
Proof.
  intros H. unfold round64.
  destruct (Qcompare_spec x 0) as [C | C | C]; [reflexivity | lra | lra].
Qed.

(** Rounding keeps the order. *)
Lemma round64_mono x y : x <= y -> round64 x <= round64 y.
Proof.
  intros H.
  destruct (Qcompare_spec x 0) as [Cx | Cx | Cx];
    destruct (Qcompare_spec y 0) as [Cy | Cy | Cy]; try lra.
  - rewrite (round64_zero x Cx), (round64_zero y Cy). apply Qle_refl.
  - rewrite (round64_zero x Cx), (round64_pos y Cy). now apply round_pos_nonneg.
  - rewrite (round64_neg x Cx), (round64_zero y Cy).
    assert (0 <= round_pos (- x)) by (apply round_pos_nonneg; lra). lra.
  - rewrite (round64_neg x Cx), (round64_neg y Cy).
    assert (round_pos (- y) <= round_pos (- x)) by (apply round_pos_mono; lra). lra.
  - rewrite (round64_neg x Cx), (round64_pos y Cy).
    assert (0 <= round_pos (- x)) by (apply round_pos_nonneg; lra).
    assert (0 <= round_pos y) by (apply round_pos_nonneg; lra). lra.
  - rewrite (round64_pos x Cx), (round64_pos y Cy). now apply round_pos_mono.
Qed.

(** Rounding depends on the number, not on the fraction that writes it. *)
Lemma round64_comp x y : x == y -> round64 x == round64 y.
Proof.
  intros H. apply Qle_antisym; apply round64_mono; rewrite H; apply Qle_refl.
Qed.

Lemma round64_nonneg x : 0 <= x -> 0 <= round64 x.
Proof. intros H. apply (round64_mono 0 x H). Qed.

Lemma round64_exact m e :
  (Z.abs m <= 2 ^ 53)%Z -> (-1074 <= e)%Z ->
  round64 (inject_Z m * 2 ^ e) == inject_Z m * 2 ^ e.
Proof.
  intros Hm He. pose proof (pow2_pos e) as Pe.
  destruct (Z.lt_trichotomy m 0) as [Hn | [Hz | Hp]].
  - assert (Hq : inject_Z m < 0) by (rewrite Zlt_Qlt in Hn; exact Hn).
    rewrite round64_neg by nra.
    assert (E : - (inject_Z m * 2 ^ e) == inject_Z (- m) * 2 ^ e).
    { rewrite inject_Z_opp. ring. }
    assert (R : round_pos (- (inject_Z m * 2 ^ e)) == round_pos (inject_Z (- m) * 2 ^ e)).
    { assert (P : 0 < - (inject_Z m * 2 ^ e)) by nra.
      apply Qle_antisym; apply round_pos_mono; rewrite <- ?E; try exact P;
        rewrite ?E; apply Qle_refl. }
    rewrite R, round_pos_exact by lia. rewrite inject_Z_opp. ring.
  - subst m.
    assert (Z0 : inject_Z 0 * 2 ^ e == 0) by (change (inject_Z 0) with 0; ring).
    rewrite (round64_zero _ Z0), Z0. reflexivity.
  - assert (Hq : 0 < inject_Z m) by (rewrite Zlt_Qlt in Hp; exact Hp).
    rewrite round64_pos by nra. apply round_pos_exact; lia.
Qed.

(** The form of a double. *)
Lemma round64_repr x :
  exists m e,
    round64 x == inject_Z m * 2 ^ e /\ (Z.abs m <= 2 ^ 53)%Z /\ (-1074 <= e)%Z.
Proof.
  destruct (Qcompare_spec x 0) as [C | C | C].
  - exists 0%Z, 0%Z. split; [| split; lia].
    rewrite (round64_zero x C). reflexivity.
  - assert (P : 0 < - x) by lra.
    destruct (round_pos_repr (- x) P) as (m & e & E & Hm & He).
    exists (- m)%Z, e. split; [| split; lia].
    rewrite (round64_neg x C), E, inject_Z_opp. ring.
  - destruct (round_pos_repr x C) as (m & e & E & Hm & He).
    exists m, e. split; [| split; lia].
    rewrite (round64_pos x C), E. reflexivity.
Qed.

Lemma is_double_exact x : is_double x = true -> round64 x == x.
Proof.
  unfold is_double. intros H. apply andb_prop in H. now apply Qeq_bool_iff.
Qed.

(** Rounded values are doubles. *)
Lemma round64_idem x : round64 (round64 x) == round64 x.
Proof.
  destruct (round64_repr x) as (m & e & E & Hm & He).
  rewrite (round64_comp _ _ E), E. now apply round64_exact.
Qed.

(** A double times a power of two is a double, as long as no bit falls
    below 2^-1074. *)
Lemma round64_scale x k :
  is_double x = true -> (0 <= k)%Z -> round64 (x * 2 ^ k) == x * 2 ^ k.
Proof.
  intros Hx Hk. apply is_double_exact in Hx.
  destruct (round64_repr x) as (m & e & E & Hm & He).
  rewrite Hx in E.
  assert (E2 : x * 2 ^ k == inject_Z m * 2 ^ (e + k)).
  { rewrite E, pow2_add. ring. }
  rewrite (round64_comp _ _ E2), E2. apply round64_exact; lia.
Qed.
(** Some values: [0.1], which is not a binary fraction; two sums half
    way between two doubles, which go to the one with the even last bit;
    half of the smallest subnormal, which goes to 0; and a negative
    number. *)
Lemma round64_examples :
  round64 (1 # 10) == 3602879701896397 # 36028797018963968 /\
  round64 (1 + (1 # 2) ^ 53) == 1 /\
  round64 (1 + 3 * (1 # 2) ^ 53) == 1 + (1 # 2) ^ 51 /\
  round64 ((1 # 2) ^ 1075) == 0 /\
  round64 (- (7 # 3)) == - (5254199565265579 # 2251799813685248) /\
  is_double (1 # 10) = false /\ is_double (25 # 100) = true.
Proof. vm_compute. repeat split. Qed.

End FloatFacts.

(** ** The retry delay of the Cloudflare client *)

Section CloudflareRetryDelay.
Import Py CloudflareClient.
Local Open Scope Q_scope.

Lemma py_min_Qmin a b : py_min a b == Qmin a b.
Proof.
  unfold py_min. destruct (Qle_bool a b) eqn:E.
  - apply Qle_bool_iff in E. symmetry. now apply Q.min_l.
  - assert (H : b <= a).
    { apply Qlt_le_weak, Qnot_le_lt. intros H. apply Qle_bool_iff in H. congruence. }
    symmetry. now apply Q.min_r.
Qed.

Lemma py_min_comp a a' b : a == a' -> py_min a b == py_min a' b.
Proof.
  intros H. apply Qle_antisym; apply py_min_mono; rewrite H; apply Qle_refl.
Qed.

(** [2 ** attempt] is a double for every [attempt >= 0] (below the range
    of doubles, as everywhere). *)
Lemma round64_pow2 attempt : (0 <= attempt)%Z -> round64 (2 ^ attempt) == 2 ^ attempt.
Proof.
  intros H.
  assert (E : 2 ^ attempt == inject_Z 1 * 2 ^ attempt) by (change (inject_Z 1) with 1; ring).
  apply (Qeq_trans _ _ _ (round64_comp _ _ E)).
  apply (Qeq_trans _ (inject_Z 1 * 2 ^ attempt)); [| symmetry; exact E].
  apply round64_exact; [cbn; lia | lia].
Qed.

Lemma capped_delay_nonneg rc attempt :
  0 <= base_delay rc -> 0 <= max_delay rc -> 0 <= capped_delay rc attempt.
Proof.
  intros Hb Hm. unfold capped_delay, float_mul. apply py_min_glb; [| exact Hm].
  apply round64_nonneg.
  pose proof (round64_nonneg (2 ^ attempt) (Qlt_le_weak _ _ (pow2_pos attempt))). nra.
Qed.

Lemma capped_delay_mono rc a a' :
  0 <= base_delay rc -> (a <= a')%Z ->
  capped_delay rc a <= capped_delay rc a'.
Proof.
  intros Hb Ha. unfold capped_delay, float_mul. apply py_min_mono, round64_mono.
  pose proof (round64_mono _ _ (pow2_le a a' Ha)).
  pose proof (round64_nonneg (2 ^ a) (Qlt_le_weak _ _ (pow2_pos a))). nra.
Qed.

(** With a base delay that is a double, the multiplication by
    [2 ** attempt] is exact. *)
Lemma capped_delay_exact rc attempt :
  is_double (base_delay rc) = true -> (0 <= attempt)%Z ->
  capped_delay rc attempt == Qmin (base_delay rc * 2 ^ attempt) (max_delay rc).
Proof.
  intros Hb Ha. rewrite <- py_min_Qmin. unfold capped_delay, float_mul.
  apply py_min_comp.
  assert (E : base_delay rc * round64 (2 ^ attempt) == base_delay rc * 2 ^ attempt)
    by (rewrite (round64_pow2 attempt Ha); reflexivity).
  rewrite (round64_comp _ _ E). now apply round64_scale.
Qed.

(** The capped value is a double when [max_delay] is one. *)
Lemma capped_delay_double rc attempt :
  is_double (max_delay rc) = true ->
  round64 (capped_delay rc attempt) == capped_delay rc attempt.
Proof.
  intros Hm. unfold capped_delay, py_min, float_mul.
  destruct (Qle_bool _ _).
  - apply round64_idem.
  - now apply is_double_exact.
Qed.

Lemma calculate_retry_delay_unfold rc attempt rnd :
  _calculate_retry_delay rc attempt rnd
  = if jitter rc
    then float_add (capped_delay rc attempt) (jitter_term rc attempt rnd)
    else capped_delay rc attempt.
Proof. reflexivity. Qed.

Lemma jitter_term_nonneg rc attempt rnd :
  0 <= base_delay rc -> 0 <= max_delay rc -> 0 <= rnd ->
  0 <= jitter_term rc attempt rnd.
Proof.
  intros Hb Hm Hr. unfold jitter_term, float_mul.
  pose proof (capped_delay_nonneg rc attempt Hb Hm) as Hc.
  assert (Hq : 0 <= round64 (capped_delay rc attempt * (25 # 100)))
    by (apply round64_nonneg; nra).
  apply round64_nonneg. nra.
Qed.

Lemma jitter_term_mono rc a a' rnd :
  0 <= base_delay rc -> 0 <= rnd -> (a <= a')%Z ->
  jitter_term rc a rnd <= jitter_term rc a' rnd.
Proof.
  intros Hb Hr Ha. unfold jitter_term, float_mul.
  pose proof (capped_delay_mono rc a a' Hb Ha) as Hc.
  assert (Hq : round64 (capped_delay rc a * (25 # 100))
               <= round64 (capped_delay rc a' * (25 # 100)))
    by (apply round64_mono; nra).
  apply round64_mono. nra.
Qed.

(** The jitter is at most a quarter of the capped value, rounded. *)
Lemma jitter_term_quarter rc attempt rnd :
  0 <= base_delay rc -> 0 <= max_delay rc -> rnd <= 1 ->
  jitter_term rc attempt rnd <= float_mul (capped_delay rc attempt) (25 # 100).
Proof.
  intros Hb Hm Hr. unfold jitter_term, float_mul.
  pose proof (capped_delay_nonneg rc attempt Hb Hm) as Hc.
  set (q := round64 (capped_delay rc attempt * (25 # 100))).
  assert (Hq : 0 <= q) by (apply round64_nonneg; nra).
  apply (Qle_trans _ (round64 q)); [apply round64_mono; nra |].
  apply Qle_lteq. right. apply round64_idem.
Qed.

(** C4, the concrete cases against it, with the default configuration
    (jitter on).  With a draw [random.random() = 0.0] the delay of attempt 0
    is the capped value itself, not more.  The same holds for the positive
    draw [2^-53], the smallest that [random.random()] returns apart from 0:
    the jitter [1.0 * 0.25 * 2^-53] is lost when it is added to 1.0.  And
    with a draw of 0.875 at attempt 6 and a draw of 0 at attempt 7 the delay
    goes down from 73.125 to 60 seconds. *)
Lemma calculate_retry_delay_jitter_not_strict :
  jitter default_retry_config = true /\
  capped_delay default_retry_config 0 == 1 /\
  _calculate_retry_delay default_retry_config 0 0 == 1 /\
  (0 < (1 # 2) ^ 53 /\ is_double ((1 # 2) ^ 53) = true /\
   0 < jitter_term default_retry_config 0 ((1 # 2) ^ 53) /\
   _calculate_retry_delay default_retry_config 0 ((1 # 2) ^ 53) == 1) /\
  (is_double (7 # 8) = true /\
   _calculate_retry_delay default_retry_config 6 (7 # 8) == 585 # 8 /\
   _calculate_retry_delay default_retry_config 7 0 == 60).
Proof.
  vm_compute. repeat split; intros H; discriminate H.
Qed.

(** C4 (amended): for attempts [0 <= attempt <= attempt' <= 1023], where
    [2 ** attempt] is a double, and a draw [rnd] of [random.random()].
    The value before the jitter is at most [max_delay]; it is
    [min(base_delay * 2^attempt, max_delay)] exactly when [base_delay] is a
    double that is not negative.  Without jitter the delay returned is that
    value.  With jitter it is the sum, in double arithmetic, of that value
    and of the jitter term [value * 0.25 * rnd]; for a base delay that is
    not negative it is at most the sum of [max_delay] and the jitter term.
    For a configuration whose delays are not negative and whose [max_delay]
    is a double, the delay is at least the value before the jitter when the
    draw is not negative, and at most that value plus a quarter of it when
    the draw is at most 1; and for one and the same draw that is not
    negative it does not decrease with the attempt number.  Nothing makes
    it more than the value before the jitter, not even a positive draw. *)
Theorem calculate_retry_delay_exponential
    (rc : RetryConfig) (attempt attempt' : Z) (rnd : Q) :
  (0 <= attempt <= attempt')%Z -> (attempt' <= 1023)%Z ->
  let value := capped_delay rc attempt in
  let delay := _calculate_retry_delay rc attempt rnd in
  value <= max_delay rc /\
  (is_double (base_delay rc) = true -> 0 <= base_delay rc ->
   value == Qmin (base_delay rc * 2 ^ attempt) (max_delay rc)) /\
  (jitter rc = false -> delay = value) /\
  (jitter rc = true ->
   delay = float_add value (float_mul (float_mul value (25 # 100)) rnd)) /\
  (0 <= base_delay rc ->
   delay <= (if jitter rc
             then float_add (max_delay rc) (jitter_term rc attempt rnd)
             else max_delay rc)) /\
  (is_double (max_delay rc) = true ->
   0 <= base_delay rc -> 0 <= max_delay rc -> 0 <= rnd ->
   value <= delay) /\
  (is_double (max_delay rc) = true ->
   0 <= base_delay rc -> 0 <= max_delay rc -> rnd <= 1 ->
   delay <= float_add value (float_mul value (25 # 100))) /\
  (0 <= base_delay rc -> 0 <= rnd ->
   delay <= _calculate_retry_delay rc attempt' rnd).
Proof.
  intros Ha Ha' value delay.
  assert (Hcap : value <= max_delay rc) by apply py_min_le_r.
  subst delay. rewrite !calculate_retry_delay_unfold.
  split; [exact Hcap |].
  split; [intros Hb _; apply capped_delay_exact; [exact Hb | lia] |].
  split; [intros ->; reflexivity |].
  split; [intros ->; reflexivity |].
  split; [| split; [| split]].
  - intros _. destruct (jitter rc); [| exact Hcap].
    unfold float_add. apply round64_mono. fold value. lra.
  - intros Hm Hb Hm0 Hr.
    destruct (jitter rc); [| apply Qle_refl].
    pose proof (jitter_term_nonneg rc attempt rnd Hb Hm0 Hr) as Hj.
    apply (Qle_trans _ (round64 value));
      [apply Qle_lteq; right; symmetry; exact (capped_delay_double rc attempt Hm) |].
    unfold float_add. apply round64_mono. fold value. lra.
  - intros Hm Hb Hm0 Hr.
    pose proof (capped_delay_nonneg rc attempt Hb Hm0) as Hc. fold value in Hc.
    destruct (jitter rc).
    + pose proof (jitter_term_quarter rc attempt rnd Hb Hm0 Hr) as Hj.
      unfold float_add. apply round64_mono. fold value in Hj |- *. lra.
    + assert (0 <= float_mul value (25 # 100))
        by (unfold float_mul; apply round64_nonneg; nra).
      apply (Qle_trans _ (round64 value));
        [apply Qle_lteq; right; symmetry; exact (capped_delay_double rc attempt Hm) |].
      unfold float_add. apply round64_mono. lra.
  - intros Hb Hr.
    assert (Hle : (attempt <= attempt')%Z) by lia.
    pose proof (capped_delay_mono rc attempt attempt' Hb Hle) as Hc.
    destruct (jitter rc); [| exact Hc].
    pose proof (jitter_term_mono rc attempt attempt' rnd Hb Hr Hle) as Hj.
    unfold float_add. apply round64_mono. lra.
Qed.

(** The theorem at the default configuration, attempts 1 and 2, draw 1/2:
    the value before the jitter is 2 seconds, the delay 2.25 seconds, and
    the delay of attempt 2 is 4.5 seconds. *)
Lemma calculate_retry_delay_exponential_witness :
  let rc := default_retry_config in
  let value := capped_delay rc 1 in
  let delay := _calculate_retry_delay rc 1 (1 # 2) in
  value == Qmin (base_delay rc * 2 ^ 1) (max_delay rc) /\
  value == 2 /\
  delay = float_add value (float_mul (float_mul value (25 # 100)) (1 # 2)) /\
  delay == 9 # 4 /\
  delay <= float_add (max_delay rc) (jitter_term rc 1 (1 # 2)) /\
  value <= delay /\
  delay <= float_add value (float_mul value (25 # 100)) /\
  delay <= _calculate_retry_delay rc 2 (1 # 2).
Proof.
  intros rc value delay.
  destruct (calculate_retry_delay_exponential rc 1 2 (1 # 2))
    as (_ & H2 & _ & H4 & H5 & H6 & H7 & H8); [lia | lia |].
  split; [apply H2; [reflexivity | discriminate] |].
  split; [reflexivity |].
  split; [apply H4; reflexivity |].
  split; [reflexivity |].
  split; [apply H5; discriminate |].
  split; [apply H6; [reflexivity | discriminate ..] |].
  split; [apply H7; [reflexivity | discriminate ..] |].
  apply H8; discriminate.
Defined.

End CloudflareRetryDelay.

(** ** The retry delay of the DynamoDB client *)

Section DynamoDBRetryDelay.
Import Py DynamoDBClient.
Local Open Scope Q_scope.

(** For attempts from 1 on and a draw of [[0, 1)] the value before the
    floor is at least 0.09: the floor of [_calculate_retry_delay] does not
    change it. *)
Lemma store_retry_delay_raw (attempt : Z) (rnd : Q) :
  (1 <= attempt)%Z -> 0 <= rnd ->
  let delay := py_min (BASE_DELAY * Qpower 2 (attempt - 1)) MAX_DELAY in
  9 # 100 <= delay + delay * JITTER_RANGE * (2 * rnd - 1).
Proof.
  intros Ha Hr delay.
  assert (Hd : 1 # 10 <= delay).
  { subst delay. apply py_min_glb; [| unfold MAX_DELAY; discriminate].
    assert (H1 : 1 <= Qpower 2 (attempt - 1)).
    { apply Qpower_1_le; [discriminate | lia]. }
    unfold BASE_DELAY. nra. }
  unfold JITTER_RANGE. nra.
Qed.



End DynamoDBRetryDelay.

(** ** The circuit breaker *)

Section CircuitBreakerFacts.
Import CloudflareClient.
Local Open Scope Z_scope.

Lemma breaker_inv_new threshold timeout :
  breaker_inv threshold timeout (new_circuit_breaker threshold timeout).
Proof.
  constructor; cbn; try reflexivity; try congruence; try lia.
Qed.

Lemma breaker_inv_on_failure threshold timeout cb now :
  breaker_inv threshold timeout cb -> state cb <> OPEN ->
  breaker_inv threshold timeout (_on_failure cb now).
Proof.
  intros [Ht Hr Htr Ho Hc Hs] Hno.
  constructor; cbn; try assumption; try lia.
  - destruct (failure_threshold cb <=? failure_count cb + 1) eqn:E.
    + intros _. apply Z.leb_le in E. lia.
    + intros Hne. specialize (Htr Hne). lia.
  - destruct (failure_threshold cb <=? failure_count cb + 1).
    + intros _. split; [reflexivity | discriminate].
    + intros H. contradiction.
Qed.

Lemma breaker_inv_on_success threshold timeout cb :
  breaker_inv threshold timeout cb -> state cb <> OPEN ->
  breaker_inv threshold timeout (_on_success cb).
Proof.
  intros [Ht Hr Htr Ho Hc Hs] Hno. unfold _on_success.
  destruct (state cb) eqn:Est; try congruence.
  - constructor; cbn; rewrite ?Est; try assumption; try congruence; try lia;
      try (intros _; apply Hc; reflexivity).
  - destruct (3 <=? success_count cb + 1) eqn:E.
    + constructor; cbn; try assumption; try congruence; try lia.
    + apply Z.leb_gt in E.
      constructor; cbn; rewrite ?Est; try assumption; try congruence; try lia;
        try (intros _; apply Htr; congruence).
Qed.

Lemma breaker_inv_half_open threshold timeout cb :
  breaker_inv threshold timeout cb -> state cb = OPEN ->
  breaker_inv threshold timeout (set_state cb HALF_OPEN).
Proof.
  intros [Ht Hr Htr Ho Hc Hs] Hop.
  constructor; cbn; try assumption; try congruence.
  intros _. apply Htr. congruence.
Qed.

Lemma gate_not_open cb now cb1 : gate cb now = Some cb1 -> state cb1 <> OPEN.
Proof.
  unfold gate. destruct (state cb) eqn:E.
  - intros H. inversion H. subst. congruence.
  - destruct (_should_attempt_reset cb now); [| discriminate].
    intros H. inversion H. cbn. discriminate.
  - intros H. inversion H. subst. congruence.
Qed.

Lemma breaker_inv_gate threshold timeout cb now cb1 :
  breaker_inv threshold timeout cb -> gate cb now = Some cb1 ->
  breaker_inv threshold timeout cb1.
Proof.
  intros Hinv. unfold gate. destruct (state cb) eqn:E.
  - intros H. inversion H. subst. exact Hinv.
  - destruct (_should_attempt_reset cb now); [| discriminate].
    intros H. inversion H. now apply breaker_inv_half_open.
  - intros H. inversion H. subst. exact Hinv.
Qed.

Lemma breaker_inv_step threshold timeout cb before after o :
  breaker_inv threshold timeout cb ->
  breaker_inv threshold timeout (step cb before after o).
Proof.
  intros Hinv. unfold step. destruct (gate cb before) as [cb1 |] eqn:G.
  - pose proof (breaker_inv_gate _ _ _ _ _ Hinv G) as H1.
    pose proof (gate_not_open _ _ _ G) as H2.
    destruct o.
    + now apply breaker_inv_on_success.
    + now apply breaker_inv_on_failure.
  - exact Hinv.
Qed.

Lemma reachable_inv threshold timeout cb :
  reachable threshold timeout cb -> breaker_inv threshold timeout cb.
Proof.
  induction 1.
  - apply breaker_inv_new.
  - now apply breaker_inv_step.
Qed.

Lemma reachable_run threshold timeout cb calls :
  reachable threshold timeout cb -> reachable threshold timeout (run cb calls).
Proof.
  revert cb. induction calls as [| [[b a] o] calls IH]; intros cb H; cbn.
  - exact H.
  - apply IH. now constructor.
Qed.

(** The breaker that [call] leaves is [step] of the two clock readings and
    of the outcome of the wrapped function. *)
Lemma call_step (W A : Type) (time : W -> Q) cb (func : W -> (A + Exn) * W) w :
  snd (fst (call time cb func w))
  = step cb (time w) (time (snd (func w))) (outcome_of (fst (func w))).
Proof.
  unfold call, step. destruct (gate cb (time w)); [| reflexivity].
  destruct (func w) as [[a | e] w1]; reflexivity.
Qed.

(** A failing call leaves a tripped breaker open, whether the call was
    refused or went through half-open. *)
Lemma step_fails_stays_open threshold timeout cb before after :
  breaker_inv threshold timeout cb -> state cb <> CLOSED ->
  state (step cb before after Fails) = OPEN.
Proof.
  intros Hinv Hne.
  destruct Hinv as [Ht _ Htr _ _ _].
  assert (Hle : (failure_threshold cb <=? failure_count cb + 1) = true).
  { apply Z.leb_le. rewrite Ht. specialize (Htr Hne). lia. }
  unfold step, gate.
  destruct (state cb) eqn:E; try congruence.
  - destruct (_should_attempt_reset cb before); [| exact E].
    cbn. now rewrite Hle.
  - cbn. now rewrite Hle.
Qed.

(** Failures leave a tripped breaker open. *)
Lemma run_failures_open threshold timeout calls :
  forall cb,
    breaker_inv threshold timeout cb ->
    Forall (fun c => snd c = Fails) calls ->
    state cb = OPEN ->
    state (run cb calls) = OPEN.
Proof.
  induction calls as [| [[b a] o] calls IH]; intros cb Hinv Hall Hop.
  - exact Hop.
  - inversion Hall as [| ? ? Ho Hall']; subst. cbn in Ho. subst o.
    cbn [run]. apply IH.
    + now apply breaker_inv_step.
    + exact Hall'.
    + apply (step_fails_stays_open threshold timeout); [exact Hinv | congruence].
Qed.

(** Consecutive failures from a closed breaker: it stays closed and counts
    them until the count reaches the threshold, and is open from then on. *)
Lemma run_failures_closed threshold timeout calls :
  forall cb,
    breaker_inv threshold timeout cb ->
    Forall (fun c => snd c = Fails) calls ->
    state cb = CLOSED ->
    failure_count cb < threshold ->
    state (run cb calls)
    = if failure_count cb + Z.of_nat (List.length calls) <? threshold
      then CLOSED else OPEN.
Proof.
  induction calls as [| [[b a] o] calls IH]; intros cb Hinv Hall Hc Hlt.
  - cbn. rewrite Z.add_0_r.
    apply Z.ltb_lt in Hlt. rewrite Hlt. exact Hc.
  - inversion Hall as [| ? ? Ho Hall']; subst. cbn in Ho. subst o.
    pose proof (breaker_inv_step _ _ _ b a Fails Hinv) as Hinv'.
    assert (Hs : step cb b a Fails = _on_failure cb a).
    { unfold step, gate. now rewrite Hc. }
    pose proof (inv_threshold _ _ _ Hinv) as Ht.
    cbn [run].
    replace (Z.of_nat (List.length ((b, a, Fails) :: calls)))
      with (1 + Z.of_nat (List.length calls)) by (cbn [List.length]; lia).
    destruct (failure_threshold cb <=? failure_count cb + 1) eqn:E.
    + (* this failure opens the breaker *)
      assert (Hop : state (step cb b a Fails) = OPEN).
      { rewrite Hs. cbn. now rewrite E. }
      rewrite (run_failures_open _ _ _ _ Hinv' Hall' Hop).
      apply Z.leb_le in E.
      assert (Hge : (failure_count cb + (1 + Z.of_nat (List.length calls))
                     <? threshold) = false) by (apply Z.ltb_ge; lia).
      now rewrite Hge.
    + assert (Hcl : state (step cb b a Fails) = CLOSED).
      { rewrite Hs. cbn. now rewrite E. }
      apply Z.leb_gt in E.
      assert (Hfc : failure_count (step cb b a Fails) = failure_count cb + 1).
      { rewrite Hs. reflexivity. }
      rewrite (IH _ Hinv' Hall' Hcl) by (rewrite Hfc; lia).
      rewrite Hfc.
      now replace (failure_count cb + 1 + Z.of_nat (List.length calls))
        with (failure_count cb + (1 + Z.of_nat (List.length calls))) by lia.
Qed.

Lemma should_attempt_reset_spec cb now t :
  last_failure_time cb = Some t ->
  (_should_attempt_reset cb now = true <-> (recovery_timeout cb <= now - t)%Q) /\
  (_should_attempt_reset cb now = false <-> (now - t < recovery_timeout cb)%Q).
Proof.
  intros Hl. unfold _should_attempt_reset. rewrite Hl.
  split.
  - apply Qle_bool_iff.
  - split.
    + intros H. apply Qnot_le_lt. intros Hle. apply Qle_bool_iff in Hle. congruence.
    + intros H. destruct (Qle_bool _ _) eqn:E; [| reflexivity].
      apply Qle_bool_iff in E. exfalso. apply (Qlt_not_le _ _ H E).
Qed.

(** C3: for every breaker that a program can hold (a new one, or what
    calls leave), with threshold [threshold] and recovery time [timeout]:
    - what [call] does to the breaker is [step] of the clock before, the
      clock after and whether the wrapped function raised;
    - a failing call on the closed breaker counts one more failure and
      opens it exactly when the count reaches the threshold, a successful
      call resets the count; so from a new breaker (threshold at least 1)
      [n] consecutive failures leave it closed when [n < threshold] and
      open otherwise;
    - while it is open, a last failure is recorded, and a call made less
      than [timeout] after it returns the circuit-open error with the
      breaker and the world as they were: the function is not invoked;
    - a call made [timeout] or more after the last failure invokes the
      function with the breaker half-open;
    - from that call on, three successes in a row leave the breaker
      half-open, half-open, then closed with both counters at 0;
    - a failure while half-open, or of the call that went half-open,
      leaves the breaker open. *)
Theorem circuit_breaker_state_machine
    (threshold : Z) (timeout : Q) (cb : CircuitBreaker) :
  reachable threshold timeout cb ->
  (forall (W A : Type) (time : W -> Q) (func : W -> (A + Exn) * W) (w : W),
     snd (fst (call time cb func w))
     = step cb (time w) (time (snd (func w))) (outcome_of (fst (func w)))) /\
  (state cb = CLOSED ->
   forall before after,
     failure_count (step cb before after Fails) = failure_count cb + 1 /\
     (state (step cb before after Fails) = OPEN
      <-> threshold <= failure_count cb + 1) /\
     (state (step cb before after Fails) = CLOSED
      <-> failure_count cb + 1 < threshold) /\
     state (step cb before after Succeeds) = CLOSED /\
     failure_count (step cb before after Succeeds) = 0) /\
  (1 <= threshold ->
   forall calls, Forall (fun c => snd c = Fails) calls ->
     state (run (new_circuit_breaker threshold timeout) calls)
     = if Z.of_nat (List.length calls) <? threshold then CLOSED else OPEN) /\
  (state cb = OPEN ->
   exists t, last_failure_time cb = Some t /\
     forall (W A : Type) (time : W -> Q) (func : W -> (A + Exn) * W) (w : W),
       ((time w - t < timeout)%Q ->
        call time cb func w = (inr circuit_open_error, cb, w)) /\
       ((timeout <= time w - t)%Q ->
        state (set_state cb HALF_OPEN) = HALF_OPEN /\
        call time cb func w
        = (fst (func w),
           match fst (func w) with
           | inl _ => _on_success (set_state cb HALF_OPEN)
           | inr _ => _on_failure (set_state cb HALF_OPEN) (time (snd (func w)))
           end,
           snd (func w)))) /\
  (state cb = OPEN ->
   forall b1 a1 b2 a2 b3 a3,
     _should_attempt_reset cb b1 = true ->
     let cb1 := step cb b1 a1 Succeeds in
     let cb2 := step cb1 b2 a2 Succeeds in
     let cb3 := step cb2 b3 a3 Succeeds in
     state cb1 = HALF_OPEN /\ state cb2 = HALF_OPEN /\
     state cb3 = CLOSED /\ failure_count cb3 = 0 /\ success_count cb3 = 0) /\
  (state cb = HALF_OPEN ->
   forall before after, state (step cb before after Fails) = OPEN) /\
  (state cb = OPEN ->
   forall before after,
     _should_attempt_reset cb before = true ->
     state (step cb before after Fails) = OPEN /\
     step cb before after Fails = _on_failure (set_state cb HALF_OPEN) after).
Proof.
  intros Hreach.
  pose proof (reachable_inv _ _ _ Hreach) as Hinv.
  pose proof (inv_threshold _ _ _ Hinv) as Ht.
  pose proof (inv_timeout _ _ _ Hinv) as Hrt.
  repeat apply conj.
  - intros W A time func w. apply call_step.
  - (* closed *)
    intros Hc before after.
    assert (Hf : step cb before after Fails = _on_failure cb after).
    { unfold step, gate. now rewrite Hc. }
    assert (Hs : step cb before after Succeeds = _on_success cb).
    { unfold step, gate. now rewrite Hc. }
    rewrite Hf, Hs. unfold _on_success. rewrite Hc. cbn. rewrite Ht, Hc.
    destruct (threshold <=? failure_count cb + 1) eqn:E.
    + apply Z.leb_le in E. repeat split; intros; try lia; try congruence.
    + apply Z.leb_gt in E. repeat split; intros; try lia; try congruence.
  - (* consecutive failures from a new breaker *)
    intros H1 calls Hall.
    rewrite (run_failures_closed threshold timeout calls _
               (breaker_inv_new threshold timeout) Hall eq_refl)
      by (cbn; lia).
    reflexivity.
  - (* open *)
    intros Hop.
    destruct (inv_open _ _ _ Hinv Hop) as [_ Hl].
    destruct (last_failure_time cb) as [t |] eqn:El; [| congruence].
    exists t. split; [reflexivity |].
    intros W A time func w.
    destruct (should_attempt_reset_spec cb (time w) t El) as [Hyes Hno].
    rewrite Hrt in Hyes, Hno.
    split.
    + intros Hlt. apply Hno in Hlt.
      unfold call, gate. now rewrite Hop, Hlt.
    + intros Hle. apply Hyes in Hle.
      split; [reflexivity |].
      unfold call, gate. rewrite Hop, Hle.
      destruct (func w) as [[a | e] w1]; reflexivity.
  - (* three successes *)
    intros Hop b1 a1 b2 a2 b3 a3 Hreset.
    destruct (inv_open _ _ _ Hinv Hop) as [Hsc _].
    cbn zeta.
    assert (H1 : step cb b1 a1 Succeeds = _on_success (set_state cb HALF_OPEN)).
    { unfold step, gate. now rewrite Hop, Hreset. }
    rewrite H1.
    unfold step, gate, _on_success. cbn. rewrite Hsc. cbn.
    repeat split; reflexivity.
  - (* failure while half-open *)
    intros Hh before after.
    apply (step_fails_stays_open threshold timeout); [exact Hinv | congruence].
  - (* failure of the call that went half-open *)
    intros Hop before after Hreset.
    split.
    + apply (step_fails_stays_open threshold timeout); [exact Hinv | congruence].
    + unfold step, gate. now rewrite Hop, Hreset.
Qed.

(** The theorem at that breaker: it is open; a call at time 10 is refused
    and the function, which would count one more invocation, is not
    invoked; at time 61 the call goes through. *)
Lemma circuit_breaker_state_machine_witness :
  reachable 2 60 tripped_breaker /\
  state tripped_breaker = OPEN /\
  call (fun _ : nat => 10%Q) tripped_breaker
       (fun n : nat => (inl tt, S n)) 0%nat
  = (inr circuit_open_error, tripped_breaker, 0%nat) /\
  snd (call (fun _ : nat => 61%Q) tripped_breaker
            (fun n : nat => (inl tt, S n)) 0%nat) = 1%nat.
Proof.
  assert (Hr : reachable 2 60 tripped_breaker).
  { unfold tripped_breaker. cbn [run]. repeat constructor. }
  pose proof (circuit_breaker_state_machine 2 60 tripped_breaker Hr) as T.
  destruct T as [_ [_ [_ [Hopen _]]]].
  split; [exact Hr |].
  split; [reflexivity |].
  destruct (Hopen eq_refl) as [t [Ht Hcalls]].
  assert (Et : t = 1%Q) by (vm_compute in Ht; congruence).
  subst t.
  split.
  - apply (proj1 (Hcalls nat unit (fun _ => 10%Q) (fun n => (inl tt, S n)) 0%nat)).
    reflexivity.
  - destruct (proj2 (Hcalls nat unit (fun _ => 61%Q) (fun n => (inl tt, S n)) 0%nat))
      as [_ Hc].
    + vm_compute. discriminate.
    + rewrite Hc. reflexivity.
Defined.

End CircuitBreakerFacts.

(** ** The retry loop of the Cloudflare client *)

Section RetryLoopFacts.
Import Py CloudflareClient.
Local Open Scope string_scope.
Local Open Scope Z_scope.

Section Generic.
Variables W A : Type.
Variable sleep : Q -> W -> W.
Variable random : W -> Q * W.
Variable rc : RetryConfig.
Variable func : W -> (A + Exn) * W.




End Generic.

Section Client.
Variable error_msg : Env.Response -> string.

Lemma error_list_raises l e :
  error_list l = inr e -> exists t m, e = OtherException t m.
Proof.
  induction l as [| v l IH]; cbn; [discriminate |].
  destruct v; try (intros H; inversion H; eauto).
  destruct (error_list l) as [es | e']; [discriminate |].
  inversion H. subst. now apply IH.
Qed.

Lemma parse_errors_raises v e :
  parse_errors v = inr e -> exists t m, e = OtherException t m.
Proof.
  destruct v; cbn; try (intros H; inversion H; eauto; fail).
  - destruct s; intros H; inversion H; eauto.
  - apply error_list_raises.
  - destruct d; intros H; inversion H; eauto.
Qed.




Lemma make_request_eq w :
  _make_request error_msg w
  = (request_result error_msg (Env.http w (Env.http_calls w)),
     snd (Env.session_get w)).
Proof. reflexivity. Qed.



End Client.


End RetryLoopFacts.

(** ** Dictionaries *)

Section DictFacts.
Import Py.
Local Open Scope string_scope.

Lemma dict_get_set_eq d k v : dict_get (dict_set d k v) k = Some v.
Proof.
  induction d as [| [k' v'] d IH]; cbn.
  - now rewrite String.eqb_refl.
  - destruct (String.eqb k' k) eqn:E; cbn; rewrite E; [reflexivity | exact IH].
Qed.

Lemma dict_get_set_neq d k v k' :
  k <> k' -> dict_get (dict_set d k v) k' = dict_get d k'.
Proof.
  intros Hne. induction d as [| [k0 v0] d IH]; cbn.
  - apply String.eqb_neq in Hne. now rewrite Hne.
  - destruct (String.eqb k0 k) eqn:E; cbn.
    + apply String.eqb_eq in E. subst k0.
      apply String.eqb_neq in Hne. now rewrite Hne.
    + destruct (String.eqb k0 k'); [reflexivity | exact IH].
Qed.

(** [d.update(e)] leaves alone the keys that [e] does not have. *)
Lemma dict_get_update_other e : forall d k,
  dict_get e k = None -> dict_get (dict_update d e) k = dict_get d k.
Proof.
  unfold dict_update.
  induction e as [| [k0 v0] e IH]; intros d k Hk; cbn.
  - reflexivity.
  - cbn in Hk. destruct (String.eqb k0 k) eqn:E; [discriminate |].
    rewrite IH by exact Hk.
    apply dict_get_set_neq. now apply String.eqb_neq.
Qed.

End DictFacts.

(** ** The transformer *)

Section TransformerFacts.
Import Py DataTransformer.
Local Open Scope string_scope.
Local Open Scope Z_scope.

Variable repr : PyValue -> string.
Variable json_dumps : PyValue -> option string.
Variable self_namespace_id : string.

Lemma transform_fields iso key value km :
  let record :=
    transform_kv_record repr json_dumps self_namespace_id iso key value km in
  pk record = PyStr (String.append "cf_kv#" (py_str repr key)) /\
  sk record = PyStr iso /\
  key_name record = key /\
  DataTransformer.value record = PyStr (value_str repr json_dumps value) /\
  retrieved_at record = PyStr iso /\
  source record = PyStr SOURCE /\
  namespace_id record = PyStr self_namespace_id /\
  data_version record = PyStr DATA_VERSION /\
  ttl record = ttl_of km /\
  metadata record = PyDict (metadata_dict record).
Proof.
  unfold transform_kv_record, ttl_of, metadata_dict.
  destruct km as [k |]; [| cbn; repeat split; reflexivity].
  destruct (CloudflareClient.metadata k) as [[| ? ?] |];
    destruct (CloudflareClient.expiration k) as [e |];
    try destruct (e =? 0); cbn; repeat split; reflexivity.
Qed.

(** The transformer writes ["cloudflare_expiration"] only with a [ttl]. *)
Lemma transform_metadata_expiration iso key value km :
  let record :=
    transform_kv_record repr json_dumps self_namespace_id iso key value km in
  dict_get (metadata_dict record) "cloudflare_expiration"
  = match ttl_of km with
    | PyNone =>
        dict_get (dict_update [] (upstream_metadata km)) "cloudflare_expiration"
    | t => Some t
    end.
Proof.
  unfold transform_kv_record, ttl_of, metadata_dict, upstream_metadata.
  destruct km as [k |]; [| reflexivity].
  destruct (CloudflareClient.metadata k) as [[| ? ?] |];
    destruct (CloudflareClient.expiration k) as [e |];
    try destruct (e =? 0); cbn [DataTransformer.metadata negb];
    rewrite dict_get_update_other by reflexivity;
    rewrite ?dict_get_set_eq; reflexivity.
Qed.

(** C10 (amended): [transform_kv_record] gives a [ttl] other than [None]
    exactly when an upstream key is given whose expiration is a number other
    than 0, and then the [ttl] and the ["cloudflare_expiration"] entry of
    the metadata are that number.  An expiration of 0 gives the very record
    that no expiration gives: [ttl] is [None], and the transformer writes no
    ["cloudflare_expiration"] entry of its own.  The metadata then hold
    under that key what [metadata.update] has copied from the metadata of
    the upstream key: nothing when those have no such entry, and otherwise
    their entry, which stays. *)
Theorem transform_ttl_iff_expiration_nonzero
    (iso : string) (key value : PyValue)
    (km : option CloudflareClient.CloudflareKey) :
  let record :=
    transform_kv_record repr json_dumps self_namespace_id iso key value km in
  (ttl record <> PyNone <->
   exists k e, km = Some k /\ CloudflareClient.expiration k = Some e /\ e <> 0) /\
  (forall k e,
     km = Some k -> CloudflareClient.expiration k = Some e -> e <> 0 ->
     ttl record = PyInt e /\
     dict_get (metadata_dict record) "cloudflare_expiration" = Some (PyInt e)) /\
  (forall k,
     km = Some k -> CloudflareClient.expiration k = Some 0 ->
     record
     = transform_kv_record repr json_dumps self_namespace_id iso key value
         (Some {| CloudflareClient.name := CloudflareClient.name k;
                  CloudflareClient.expiration := None;
                  CloudflareClient.metadata := CloudflareClient.metadata k |}) /\
     ttl record = PyNone /\
     dict_get (metadata_dict record) "cloudflare_expiration"
     = dict_get (dict_update [] (upstream_metadata km)) "cloudflare_expiration" /\
     (dict_get (upstream_metadata km) "cloudflare_expiration" = None ->
      dict_get (metadata_dict record) "cloudflare_expiration" = None) /\
     (forall v,
        CloudflareClient.metadata k = Some [("cloudflare_expiration", v)] ->
        dict_get (metadata_dict record) "cloudflare_expiration" = Some v)).
Proof.
  intros record.
  destruct (transform_fields iso key value km)
    as (_ & _ & _ & _ & _ & _ & _ & _ & Httl & _).
  pose proof (transform_metadata_expiration iso key value km) as Hmd.
  cbn zeta in Hmd. fold record in Httl, Hmd.
  split; [| split].
  - rewrite Httl. unfold ttl_of. split.
    + intros H. destruct km as [k |]; [| congruence].
      destruct (CloudflareClient.expiration k) as [e |] eqn:Ee; [| congruence].
      destruct (e =? 0) eqn:E0; [congruence |].
      exists k, e. split; [reflexivity | split; [exact Ee | now apply Z.eqb_neq]].
    + intros (k & e & Hk & He & Hne). subst km. rewrite He.
      apply Z.eqb_neq in Hne. rewrite Hne. discriminate.
  - intros k e Hk He Hne. subst km.
    assert (Ht : ttl_of (Some k) = PyInt e).
    { unfold ttl_of. rewrite He. apply Z.eqb_neq in Hne. now rewrite Hne. }
    rewrite Ht in Httl, Hmd. split; assumption.
  - intros k Hk He. subst km.
    assert (Ht : ttl_of (Some k) = PyNone).
    { unfold ttl_of. now rewrite He. }
    rewrite Ht in Httl, Hmd.
    split; [| split; [| split; [| split]]].
    + unfold record, transform_kv_record. cbn [CloudflareClient.expiration
        CloudflareClient.metadata]. rewrite He. reflexivity.
    + exact Httl.
    + exact Hmd.
    + intros Hup. rewrite Hmd.
      now rewrite dict_get_update_other by exact Hup.
    + intros v Hv. rewrite Hmd. unfold upstream_metadata. rewrite Hv.
      reflexivity.
Qed.

(** C5: for a key that is a non-empty string and a transformer whose
    namespace id is not empty, at a time whose ISO text is not empty, when
    the record that [transform_kv_record] builds is within the three
    ceilings (estimated size at most 400 KiB, partition key at most 2048
    bytes, sort key at most 1024 bytes), [validate_record] returns [True]
    on it and raises nothing; and the [value] of the record is a string:
    empty for [None], the value itself for a string, otherwise what
    [json.dumps] gives, or [str(value)] when [json.dumps] raises. *)
Theorem transform_then_validate
    (iso : string) (key : string) (value : PyValue)
    (km : option CloudflareClient.CloudflareKey) :
  let record :=
    transform_kv_record repr json_dumps self_namespace_id iso (PyStr key) value km in
  key <> "" -> self_namespace_id <> "" -> iso <> "" ->
  _estimate_item_size repr record <= MAX_DYNAMODB_ITEM_SIZE ->
  utf8_len (String.append "cf_kv#" key) <= 2048 ->
  utf8_len iso <= 1024 ->
  validate_record repr record = Returns true /\
  DataTransformer.value record
  = PyStr match value with
          | PyNone => ""
          | PyStr s => s
          | _ => match json_dumps value with
                 | Some s => s
                 | None => py_str repr value
                 end
          end.
Proof.
  intros record Hkey Hns Hiso Hsize Hpk Hsk.
  destruct (transform_fields iso (PyStr key) value km)
    as (Epk & Esk & Ekey & Eval & Eret & Esrc & Ens & Edv & Ettl & Emd).
  fold record in Epk, Esk, Ekey, Eval, Eret, Esrc, Ens, Edv, Ettl, Emd.
  cbn [py_str] in Epk.
  split.
  - unfold validate_record, missing_required_field.
    rewrite Epk, Esk, Ekey, Eval, Eret, Esrc, Ens, Edv, Ettl, Emd.
    cbn [find is_none snd option_map].
    unfold require_non_empty_str, non_empty_str.
    apply String.eqb_neq in Hkey, Hns, Hiso.
    rewrite Hkey, Hns, Hiso.
    cbn [String.append String.eqb bind require].
    replace (String.eqb SOURCE SOURCE) with true by reflexivity.
    replace (String.eqb DATA_VERSION "") with false by reflexivity.
    cbn [bind require].
    assert (Httl : match ttl_of km with
                   | PyNone | PyInt _ | PyBool _ => true
                   | _ => false
                   end = true).
    { unfold ttl_of. destruct km as [k |]; [| reflexivity].
      destruct (CloudflareClient.expiration k) as [e |]; [| reflexivity].
      now destruct (e =? 0). }
    rewrite Httl. cbn [bind require].
    unfold _validate_dynamodb_constraints, _validate_metadata_for_dynamodb.
    apply Z.ltb_ge in Hsize, Hpk, Hsk.
    cbn [String.append] in Hpk.
    rewrite Hsize, Hpk, Hsk. reflexivity.
  - rewrite Eval. unfold value_str. now destruct value.
Qed.

End TransformerFacts.

(** C10, the case against it: an upstream key whose expiration is 0 and
    whose metadata are [{"cloudflare_expiration": 5}].  [metadata.update]
    copies the entry before the expiration is looked at, so the record has
    no [ttl] and yet a ["cloudflare_expiration"] entry in its metadata. *)
Lemma transform_keeps_upstream_expiration_entry :
  let repr := fun _ : Py.PyValue => "?"%string in
  let json_dumps := fun _ : Py.PyValue => @None string in
  let k :=
    {| CloudflareClient.name := "k"%string;
       CloudflareClient.expiration := Some 0%Z;
       CloudflareClient.metadata :=
         Some [("cloudflare_expiration"%string, Py.PyInt 5)] |} in
  let record :=
    DataTransformer.transform_kv_record repr json_dumps "namespace"
      "2024-01-09T12:00:00+00:00" (Py.PyStr "k") (Py.PyStr "v") (Some k) in
  DataTransformer.ttl record = Py.PyNone /\
  Py.dict_get (DataTransformer.metadata_dict record) "cloudflare_expiration"
  = Some (Py.PyInt 5).
Proof. split; reflexivity. Qed.

(** The theorem for two upstream keys without metadata of their own: one
    that expires at 1700000000, whose record gets that [ttl] and that
    entry, and one with the expiration 0, whose record gets neither. *)
Lemma transform_ttl_iff_expiration_nonzero_witness :
  let repr := fun _ : Py.PyValue => "?"%string in
  let json_dumps := fun _ : Py.PyValue => @None string in
  let key_of e :=
    {| CloudflareClient.name := "k"%string;
       CloudflareClient.expiration := Some e;
       CloudflareClient.metadata := None |} in
  let record_of e :=
    DataTransformer.transform_kv_record repr json_dumps "namespace"
      "2024-01-09T12:00:00+00:00" (Py.PyStr "k") (Py.PyStr "v")
      (Some (key_of e)) in
  (DataTransformer.ttl (record_of 1700000000%Z) = Py.PyInt 1700000000 /\
   Py.dict_get (DataTransformer.metadata_dict (record_of 1700000000%Z))
     "cloudflare_expiration" = Some (Py.PyInt 1700000000)) /\
  (DataTransformer.ttl (record_of 0%Z) = Py.PyNone /\
   Py.dict_get (DataTransformer.metadata_dict (record_of 0%Z))
     "cloudflare_expiration" = None).
Proof.
  intros repr json_dumps key_of record_of. split.
  - destruct (transform_ttl_iff_expiration_nonzero repr json_dumps "namespace"
                "2024-01-09T12:00:00+00:00" (Py.PyStr "k") (Py.PyStr "v")
                (Some (key_of 1700000000%Z))) as (_ & H & _).
    apply (H (key_of 1700000000%Z) 1700000000%Z);
      [reflexivity | reflexivity | discriminate].
  - destruct (transform_ttl_iff_expiration_nonzero repr json_dumps "namespace"
                "2024-01-09T12:00:00+00:00" (Py.PyStr "k") (Py.PyStr "v")
                (Some (key_of 0%Z))) as (_ & _ & H).
    destruct (H (key_of 0%Z) eq_refl eq_refl) as (_ & Ht & _ & Hn & _).
    split; [exact Ht | apply Hn; reflexivity].
Defined.

(** The theorem for the key ["k"] with the value 42, which [json.dumps]
    serialises, without upstream key. *)
Lemma transform_then_validate_witness :
  let repr := fun _ : Py.PyValue => "?"%string in
  let json_dumps := fun _ : Py.PyValue => Some "42"%string in
  let record :=
    DataTransformer.transform_kv_record repr json_dumps "namespace"
      "2024-01-09T12:00:00+00:00" (Py.PyStr "k") (Py.PyInt 42) None in
  DataTransformer.validate_record repr record = DataTransformer.Returns true /\
  DataTransformer.value record = Py.PyStr "42".
Proof.
  intros repr json_dumps record.
  apply (transform_then_validate repr json_dumps "namespace"
           "2024-01-09T12:00:00+00:00" "k" (Py.PyInt 42) None).
  - discriminate.
  - discriminate.
  - discriminate.
  - vm_compute. discriminate.
  - vm_compute. discriminate.
  - vm_compute. discriminate.
Defined.

(** ** The accounting of the DynamoDB client *)

Section StoreAccounting.
Import Py DynamoDBClient.
Local Open Scope string_scope.
Local Open Scope Z_scope.

(** C1, where the code departs from it: one record is written to a table
    that leaves it unprocessed at each of the four attempts
    ([max_retries = 3]).  [_write_batch_with_retry] reports it as failed
    and hands it back in [unprocessed_items], and [batch_write_records]
    counts it as failed a second time: 0 successful and 2 failed for 1
    record submitted, the storage accuracy error is appended, and the
    counters of the client hold 1 attempted, 0 successful, 2 failed. *)
Theorem batch_write_counts_unprocessed_twice :
  let self := new_client 0 "table" (Some 3) in
  let '(result, self', w') :=
    batch_write_records (fun _ => "") self [sample_record] throttled_world in
  successful_records result = 0 /\
  failed_records result = 2 /\
  successful_records result + failed_records result <> len [sample_record] /\
  errors result = ["Max retries exceeded with unprocessed items";
                   "Storage accuracy error"] /\
  total_attempts result = 4 /\
  List.length (Env.store_requests w') = 4%nat /\
  total_records_attempted self' = 1 /\
  total_records_successful self' = 0 /\
  total_records_failed self' = 2 /\
  total_records_successful self' + total_records_failed self'
  <> total_records_attempted self'.
Proof.
  vm_compute. repeat split; discriminate.
Qed.

(** *** What does hold: a table that never leaves items unprocessed *)

Section Clean.
Variable repr : PyValue -> string.






Lemma slices_concat size : forall fuel items,
  (0 < size)%nat -> (List.length items <= fuel)%nat ->
  List.concat (slices fuel size items) = items.
Proof.
  induction fuel as [| fuel IH]; intros items Hsize Hlen.
  - destruct items; [reflexivity | cbn in Hlen; lia].
  - destruct items as [| x items]; [reflexivity |].
    cbn [slices List.concat]. rewrite IH.
    + apply firstn_skipn.
    + exact Hsize.
    + rewrite length_skipn. cbn [List.length] in *. lia.
Qed.

End Clean.

End StoreAccounting.

(** ** The connection pool *)

Section PoolFacts.
Import Py LambdaOptimizations.
Local Open Scope string_scope.
Local Open Scope Z_scope.

(** What [get_cloudflare_client] compares: the cached client is returned
    exactly when the API token, the account id, the namespace id and the
    timeout are those of the configuration.  The namespace name of the
    credentials and the retry count, which the client captured in its
    [retry_config], are not looked at. *)
Lemma get_cloudflare_client_reuse pool config w cached :
  _cloudflare_client pool = Some cached ->
  (fst (get_cloudflare_client pool config w) = cached <->
   (Config.api_token (Config.cloudflare_credentials config)
    = Config.api_token (CloudflareClient.credentials cached) /\
    Config.account_id (Config.cloudflare_credentials config)
    = Config.account_id (CloudflareClient.credentials cached) /\
    Config.kv_namespace_id (Config.cloudflare_credentials config)
    = Config.kv_namespace_id (CloudflareClient.credentials cached) /\
    CloudflareClient.timeout cached = Config.api_timeout_seconds config)
   \/ build_cloudflare_client (allocated pool) config = cached).
Proof.
  intros Hc. unfold get_cloudflare_client, _should_recreate_cloudflare_client.
  rewrite Hc.
  destruct (String.eqb (Config.api_token (Config.cloudflare_credentials config))
              (Config.api_token (CloudflareClient.credentials cached))) eqn:E1;
  destruct (String.eqb (Config.account_id (Config.cloudflare_credentials config))
              (Config.account_id (CloudflareClient.credentials cached))) eqn:E2;
  destruct (String.eqb (Config.kv_namespace_id (Config.cloudflare_credentials config))
              (Config.kv_namespace_id (CloudflareClient.credentials cached))) eqn:E3;
  destruct (CloudflareClient.timeout cached =? Config.api_timeout_seconds config) eqn:E4;
  cbn [negb orb fst];
  rewrite ?String.eqb_eq in *; rewrite ?String.eqb_neq in *;
  rewrite ?Z.eqb_eq in *; rewrite ?Z.eqb_neq in *;
  split; intros H; try (left; repeat split; assumption); try reflexivity;
  try (right; exact H);
  destruct H as [(H1 & H2 & H3 & H4) | H]; try exact H; try contradiction.
Qed.

(** What [get_dynamodb_client] compares: the table name, and the retry
    count of the configuration against the [max_retries] that the cached
    client holds, which is 3 when it was built for a count of 0. *)
Lemma get_dynamodb_client_reuse pool config w cached :
  _dynamodb_client pool = Some cached ->
  (fst (get_dynamodb_client pool config w) = cached <->
   (DynamoDBClient.table_name cached = Config.dynamodb_table_name config /\
    DynamoDBClient.max_retries cached = Config.retry_max_attempts config)
   \/ build_dynamodb_client (allocated pool) config = cached).
Proof.
  intros Hc. unfold get_dynamodb_client, _should_recreate_dynamodb_client.
  rewrite Hc.
  destruct (String.eqb (DynamoDBClient.table_name cached)
              (Config.dynamodb_table_name config)) eqn:E1;
  destruct (DynamoDBClient.max_retries cached =? Config.retry_max_attempts config)
    eqn:E2;
  cbn [negb orb fst];
  rewrite ?String.eqb_eq in *; rewrite ?String.eqb_neq in *;
  rewrite ?Z.eqb_eq in *; rewrite ?Z.eqb_neq in *;
  split; intros H; try (left; split; assumption); try reflexivity;
  try (right; exact H);
  destruct H as [(H1 & H2) | H]; try exact H; try contradiction.
Qed.

(** C8, where the code departs from it.  A pool holds the clients built
    for a retry count of 3.  Asked for the same credentials, timeout and
    table with a retry count of 5, it returns the cached Cloudflare client,
    whose [retry_config] still says 3 attempts: the retry count that the
    client captured differs from the requested one and the client is not
    rebuilt (the DynamoDB client is).  And a pool that holds the clients
    built for a retry count of 0, asked again for the same configuration,
    discards the DynamoDB client and builds a new one, although every
    parameter is the requested one: the client holds [max_retries = 3] and
    that is compared with 0. *)
Theorem pool_staleness_check_misses :
  (let pool := warm_pool (sample_config 3) in
   let '(client, pool') := get_cloudflare_client pool (sample_config 5) quiet_world in
   _cloudflare_client pool = Some client /\
   CloudflareClient.max_attempts (CloudflareClient.retry_config client) = 3 /\
   Config.retry_max_attempts (sample_config 5) = 5 /\
   allocated pool' = allocated pool /\
   (exists cached,
      _dynamodb_client pool = Some cached /\
      fst (get_dynamodb_client pool (sample_config 5) quiet_world) <> cached)) /\
  (let pool := warm_pool (sample_config 0) in
   let '(client, pool') := get_dynamodb_client pool (sample_config 0) quiet_world in
   exists cached,
     _dynamodb_client pool = Some cached /\
     DynamoDBClient.table_name cached = Config.dynamodb_table_name (sample_config 0) /\
     cached = build_dynamodb_client (DynamoDBClient.oid cached) (sample_config 0) /\
     client <> cached /\
     DynamoDBClient.oid client <> DynamoDBClient.oid cached /\
     allocated pool' = S (allocated pool)).
Proof.
  split.
  - vm_compute. repeat split.
    eexists. split; [reflexivity |]. discriminate.
  - vm_compute. eexists. repeat split; discriminate.
Qed.

End PoolFacts.

(** ** The handler *)

Section HandlerFacts.
Import Py LambdaFunction.
Local Open Scope string_scope.
Local Open Scope Z_scope.

(** [remaining / 1000.0 <= 30.0] in milliseconds. *)
Lemma remaining_within_buffer (ms : Z) (buffer : Q) :
  (inject_Z ms <= buffer * 1000)%Q ->
  Qle_bool (inject_Z ms / 1000) buffer = true.
Proof.
  intros H. apply Qle_bool_iff.
  apply Qle_shift_div_r; [reflexivity | exact H].
Qed.

(** [check_timeout] says that the timeout approaches as soon as the time
    that the deadline source reports is within the buffer; with a buffer
    that is not negative, a report of 0 or less is always within it. *)
Lemma check_timeout_stops (tm : LambdaOptimizations.TimeoutManager) (w : Env.World) :
  let ms := Env.remaining_time w (Env.remaining_calls w) in
  ((inject_Z ms <= LambdaOptimizations.buffer_seconds tm * 1000)%Q ->
   fst (fst (LambdaOptimizations.check_timeout tm w)) = true) /\
  ((0 <= LambdaOptimizations.buffer_seconds tm)%Q -> ms <= 0 ->
   fst (fst (LambdaOptimizations.check_timeout tm w)) = true).
Proof.
  intros ms.
  assert (H : (inject_Z ms <= LambdaOptimizations.buffer_seconds tm * 1000)%Q ->
              fst (fst (LambdaOptimizations.check_timeout tm w)) = true).
  { intros Hle. unfold LambdaOptimizations.check_timeout,
      LambdaOptimizations.get_remaining_time_seconds, Env.remaining_time_in_millis.
    fold ms. now rewrite (remaining_within_buffer ms _ Hle). }
  split; [exact H |].
  intros Hb Hms. apply H.
  rewrite Zle_Qle in Hms. change (inject_Z 0) with 0%Q in Hms.
  nra.
Qed.

Variable repr : PyValue -> string.
Variable json_dumps : PyValue -> option string.
Variable error_msg : Env.Response -> string.

(** C7: [lambda_handler] reads the deadline source three times before the
    first stage (for the timeout manager, the optimisation report and the
    audit log); the fourth reading is the check at the first stage
    boundary.  When that reading is at most the 30 second buffer, which
    25 seconds and every reading of 0 or less are, the first check says
    that the stage may not proceed, and the handler returns a failure of
    type TIMEOUT_ERROR (category timeout) that is retryable, having sent no
    request to the upstream and written nothing to the store. *)
Theorem deadline_within_buffer_stops_first_stage
    (environment : Config.Config + string) (iso : string) (event : Dict)
    (global_pool : option LambdaOptimizations.ConnectionPool) (w : Env.World) :
  Env.remaining_time w (3 + Env.remaining_calls w)%nat <= 30000 ->
  let '(response, pool', w') :=
    lambda_handler repr json_dumps error_msg environment iso event global_pool w in
  ErrorHandler.success response = false /\
  ErrorHandler.error response
  = Some {| ErrorHandler.error_type := "TIMEOUT_ERROR";
            ErrorHandler.details :=
              "Lambda timeout approached during configuration loading";
            ErrorHandler.error_is_retryable := true |} /\
  ErrorHandler.category
    (timeout_error "Lambda timeout approached during configuration loading")
  = "timeout" /\
  Env.store_requests w' = Env.store_requests w /\
  Env.http_calls w' = Env.http_calls w /\
  Env.slept w' = Env.slept w.
Proof.
  intros Hms.
  unfold lambda_handler, pipeline, bind, step_load_configuration,
    with_timeout_context, LambdaOptimizations.timeout_context_enter,
    LambdaOptimizations.new_timeout_manager, LambdaOptimizations.get_remaining_time,
    LambdaOptimizations.check_timeout,
    LambdaOptimizations.get_remaining_time_seconds, Env.remaining_time_in_millis.
  cbn [fst snd Env.remaining_time Env.remaining_calls world timeout_manager
       LambdaOptimizations.buffer_seconds].
  cbn [Nat.add] in Hms.
  rewrite (remaining_within_buffer _ 30).
  - cbn. repeat split.
  - rewrite Zle_Qle in Hms.
    eapply Qle_trans; [exact Hms |]. vm_compute. discriminate.
Qed.

End HandlerFacts.

(** The theorem with 25 seconds remaining, an empty event and a new
    process. *)
Lemma deadline_within_buffer_stops_first_stage_witness :
  (Env.remaining_time (deadline_world 25000)
     (3 + Env.remaining_calls (deadline_world 25000))%nat <= 30000)%Z /\
  let '(response, pool', w') :=
    LambdaFunction.lambda_handler (fun _ => ""%string) (fun _ => None)
      (fun _ => ""%string) (inl (sample_config 3)) "2024-01-09T12:00:00+00:00"
      [] None (deadline_world 25000) in
  ErrorHandler.success response = false /\
  ErrorHandler.error response
  = Some {| ErrorHandler.error_type := "TIMEOUT_ERROR";
            ErrorHandler.details :=
              "Lambda timeout approached during configuration loading";
            ErrorHandler.error_is_retryable := true |} /\
  ErrorHandler.category
    (LambdaFunction.timeout_error
       "Lambda timeout approached during configuration loading")
  = "timeout"%string /\
  Env.store_requests w' = Env.store_requests (deadline_world 25000) /\
  Env.http_calls w' = Env.http_calls (deadline_world 25000) /\
  Env.slept w' = Env.slept (deadline_world 25000).
Proof.
  assert (H : (Env.remaining_time (deadline_world 25000)
                 (3 + Env.remaining_calls (deadline_world 25000))%nat <= 30000)%Z)
    by (cbn; lia).
  split; [exact H |].
  apply (deadline_within_buffer_stops_first_stage (fun _ => ""%string)
           (fun _ => None) (fun _ => ""%string) (inl (sample_config 3))
           "2024-01-09T12:00:00+00:00" [] None (deadline_world 25000) H).
Defined.

Section StorageError.
Import Py LambdaFunction.
Local Open Scope string_scope.
Local Open Scope Z_scope.

(** C2, where the code departs from it: the invocation in that world,
    with an empty event, in a new process.  The handler returns
    [success = True]; the statistics say 1 record processed, 0 stored and a
    success rate of 0.0, but [records_failed] is 0, not 1: the handler
    passes [dynamodb_writes] and [records_stored] to [update_statistics] and
    never the failed count, which only shows as [record_failed = True] in
    the processing summary.  One write was sent to the store. *)
Theorem storage_error_statistics :
  let '(response, pool', w') :=
    lambda_handler (fun _ => "") (fun _ => None) (fun _ => "")
      (inl (sample_config 3)) "2024-01-09T12:00:00+00:00" [] None
      missing_table_world in
  ErrorHandler.success response = true /\
  dict_get (ErrorHandler.statistics response) "records_processed" = Some (PyInt 1) /\
  dict_get (ErrorHandler.statistics response) "records_stored" = Some (PyInt 0) /\
  dict_get (ErrorHandler.statistics response) "records_failed" = Some (PyInt 0) /\
  dict_get (ErrorHandler.statistics response) "records_failed" <> Some (PyInt 1) /\
  (exists rate,
     dict_get (ErrorHandler.statistics response) "success_rate" = Some (PyFloat rate)
     /\ (rate == 0)%Q) /\
  dict_get (sub_dict (ErrorHandler.data response) "processing_summary") "record_stored"
  = Some (PyBool false) /\
  dict_get (sub_dict (ErrorHandler.data response) "processing_summary") "record_failed"
  = Some (PyBool true) /\
  List.length (Env.store_requests w') = 1%nat.
Proof.
  vm_compute. repeat split; try discriminate.
  eexists. split; reflexivity.
Qed.

End StorageError.

(** ** How many requests a call of [get_value] sends *)

Section RetryBounds.
Import Py CloudflareClient.
Local Open Scope string_scope.
Local Open Scope Z_scope.

Variable error_msg : Env.Response -> string.

Lemma retry_loop_bounds rc remaining :
  forall attempt last w,
    Z.of_nat remaining + attempt = max_attempts rc ->
    exists requests naps,
      loop_trace w (snd (retry_loop Env.sleep Env.random rc (_make_request error_msg)
                           remaining attempt last w)) requests naps /\
      (Nat.min 1 remaining <= requests <= remaining)%nat /\
      (List.length naps + Nat.min 1 remaining <= requests)%nat.
Proof.
  induction remaining as [| n IH]; intros attempt last w Hsync.
  - exists 0%nat, []. unfold loop_trace.
    cbn. destruct last; cbn; rewrite app_nil_r, Nat.add_0_r; repeat split; lia.
  - cbn [retry_loop].
    assert (Hstop : exists requests naps,
               loop_trace w (snd (Env.session_get w)) requests naps /\
               (Nat.min 1 (S n) <= requests <= S n)%nat /\
               (List.length naps + Nat.min 1 (S n) <= requests)%nat).
    { exists 1%nat, []. unfold loop_trace. cbn. rewrite app_nil_r.
      repeat split; lia. }
    assert (Hnext : forall w2 d last',
               Env.http_calls w2 = S (Env.http_calls w) ->
               Env.slept w2 = Env.slept w ->
               Env.store_requests w2 = Env.store_requests w ->
               (attempt <? max_attempts rc - 1) = true ->
               exists requests naps,
                 loop_trace w
                   (snd (retry_loop Env.sleep Env.random rc (_make_request error_msg)
                           n (attempt + 1) last' (Env.sleep d w2))) requests naps /\
                 (Nat.min 1 (S n) <= requests <= S n)%nat /\
                 (List.length naps + Nat.min 1 (S n) <= requests)%nat).
    { intros w2 d last' H2c H2s H2st Hlt. apply Z.ltb_lt in Hlt.
      destruct (IH (attempt + 1) last' (Env.sleep d w2))
        as (requests & naps & (Hc & Hn & Hst) & Hr & Hl); [lia |].
      cbn [Env.sleep Env.http_calls Env.slept Env.store_requests] in Hc, Hn, Hst.
      exists (S requests), (d :: naps). unfold loop_trace.
      repeat split.
      - rewrite Hc, H2c. lia.
      - rewrite Hn, H2s, <- app_assoc. reflexivity.
      - congruence.
      - lia.
      - lia.
      - cbn [List.length]. lia. }
    unfold _make_request at 1.
    destruct (Env.session_get w) as [t w1] eqn:Eg.
    assert (Ew1 : w1 = snd (Env.session_get w)) by now rewrite Eg.
    cbn [snd] in Hstop.
    assert (H1 : Env.http_calls w1 = S (Env.http_calls w) /\
                 Env.slept w1 = Env.slept w /\
                 Env.store_requests w1 = Env.store_requests w).
    { subst w1. cbn. repeat split. }
    destruct H1 as (H1c & H1s & H1st).
    destruct (request_result error_msg t) as [a | e]; [exact Hstop |].
    destruct e as [m c | m ra | m c | ty m]; try exact Hstop.
    + destruct (attempt <? max_attempts rc - 1) eqn:Hlt; [| exact Hstop].
      unfold time_sleep. destruct (Qle_bool 0 _); [| exact Hstop].
      now apply Hnext.
    + destruct (is_client_error c); [exact Hstop |].
      destruct (attempt <? max_attempts rc - 1) eqn:Hlt; [| exact Hstop].
      destruct (calculate_retry_delay_io Env.random rc attempt w1) as [d w2] eqn:Ed.
      assert (H2 : Env.http_calls w2 = Env.http_calls w1 /\
                   Env.slept w2 = Env.slept w1 /\
                   Env.store_requests w2 = Env.store_requests w1).
      { unfold calculate_retry_delay_io in Ed.
        destruct (jitter rc); inversion Ed; subst; cbn; repeat split. }
      destruct H2 as (H2c & H2s & H2st).
      unfold time_sleep. destruct (Qle_bool 0 d).
      * apply Hnext; congruence.
      * cbn [snd]. destruct Hstop as (rq & np & (Hc & Hn & Hst) & Hr & Hl).
        exists rq, np. unfold loop_trace. repeat split; try congruence; lia.
Qed.

(** X1: one call of [get_value] sends at most [max_attempts] requests to
    the upstream (none when [max_attempts] is 0 or negative), sleeps only
    between two of its requests, so at most [max_attempts - 1] times,
    appends its sleeps to those already made, and sends nothing to the
    store.  When the breaker refuses the call (it is [OPEN] and the recovery
    timeout has not passed since the last failure), [get_value] raises the
    error of the open breaker and nothing else happens: no request, no
    sleep, the same breaker. *)
Theorem get_value_requests_bounded (c : Client) (w : Env.World) :
  let w' := snd (get_value error_msg c w) in
  let max := Z.to_nat (max_attempts (retry_config c)) in
  (exists requests naps,
     Env.http_calls w' = (Env.http_calls w + requests)%nat /\
     Env.slept w' = (Env.slept w ++ naps)%list /\
     Env.store_requests w' = Env.store_requests w /\
     (requests <= max)%nat /\
     (List.length naps <= Nat.pred max)%nat /\
     (List.length naps <= Nat.pred requests)%nat) /\
  (max_attempts (retry_config c) <= 0 ->
   Env.http_calls w' = Env.http_calls w /\ Env.slept w' = Env.slept w) /\
  (state (circuit_breaker c) = OPEN ->
   _should_attempt_reset (circuit_breaker c) (Env.clock w) = false ->
   get_value error_msg c w = (inr circuit_open_error, c, w)).
Proof.
  intros w' max.
  assert (Hbounds : exists requests naps,
             Env.http_calls w' = (Env.http_calls w + requests)%nat /\
             Env.slept w' = (Env.slept w ++ naps)%list /\
             Env.store_requests w' = Env.store_requests w /\
             (requests <= max)%nat /\
             (List.length naps <= Nat.pred max)%nat /\
             (List.length naps <= Nat.pred requests)%nat).
  { assert (Hnone : exists requests naps,
               Env.http_calls w = (Env.http_calls w + requests)%nat /\
               Env.slept w = (Env.slept w ++ naps)%list /\
               Env.store_requests w = Env.store_requests w /\
               (requests <= max)%nat /\
               (List.length naps <= Nat.pred max)%nat /\
               (List.length naps <= Nat.pred requests)%nat).
    { exists 0%nat, []. rewrite app_nil_r. cbn. repeat split; lia. }
    subst w'. unfold get_value, _execute_with_retry_and_circuit_breaker, call.
    destruct (gate (circuit_breaker c) (Env.clock w)) as [cb1 |]; [| exact Hnone].
    unfold _execute_with_retries. fold max.
    destruct (Z_le_gt_dec 0 (max_attempts (retry_config c))) as [Hpos | Hneg].
    - destruct (retry_loop_bounds (retry_config c) max 0 None w)
        as (requests & naps & (Hc & Hn & Hst) & Hr & Hl); [unfold max; lia |].
      destruct (retry_loop _ _ _ _ max 0 None w) as [[a | e] w1]; cbn [snd] in *;
        exists requests, naps; repeat split; try assumption; lia.
    - assert (E0 : max = 0%nat) by (unfold max; lia).
      rewrite E0. cbn.
      exists 0%nat, []. rewrite app_nil_r. repeat split; cbn; lia. }
  split; [exact Hbounds | split].
  - intros Hmax. destruct Hbounds as (requests & naps & Hc & Hn & _ & Hr & Hl & _).
    assert (E0 : max = 0%nat) by (unfold max; lia). rewrite E0 in Hr, Hl.
    cbn in Hl. destruct naps; [| cbn in Hl; lia].
    rewrite app_nil_r in Hn. split; [lia | exact Hn].
  - intros Hopen Hreset.
    unfold get_value, _execute_with_retry_and_circuit_breaker, call, gate.
    rewrite Hopen, Hreset. now destruct c.
Qed.
End RetryBounds.

Section RetryBoundsExamples.
Import Py.
Local Open Scope string_scope.
Local Open Scope Z_scope.

(** The theorem for a client of three attempts whose breaker has opened at
    time 1, called at time 0 against the upstream that answers 404: the
    call is refused and nothing is sent. *)
Lemma get_value_requests_bounded_witness :
  let c :=
    {| CloudflareClient.oid := 0;
       CloudflareClient.credentials :=
         Config.cloudflare_credentials (sample_config 3);
       CloudflareClient.timeout := 30;
       CloudflareClient.retry_config := CloudflareClient.default_retry_config;
       CloudflareClient.circuit_breaker := tripped_breaker |} in
  CloudflareClient.get_value (fun _ => "") c not_found_world
  = (inr CloudflareClient.circuit_open_error, c, not_found_world).
Proof.
  intros c.
  destruct (get_value_requests_bounded (fun _ => "") c not_found_world)
    as (_ & _ & H).
  apply H; reflexivity.
Defined.

End RetryBoundsExamples.

(** ** Replies by status *)

Section ResponseClasses.
Import Py CloudflareClient.
Local Open Scope string_scope.
Local Open Scope Z_scope.
Variable error_msg : Env.Response -> string.

(** X26: [_handle_response] by status code.  401 and 403 raise
    [CloudflareAuthenticationError] with the status; 429 raises
    [CloudflareRateLimitError] with the seconds of [Retry-After], 60 without
    the header, or [ValueError] when the header is not an integer.  A value
    is returned only for a status below 400 or from 600 on.  Every
    [CloudflareAPIError] that it raises carries the status of the reply, a
    status from 400 to 599 other than 401, 403 and 429.  A reply of a good
    status that is not declared as JSON, or whose body does not parse, is
    returned as raw text with [success = True]. *)
Theorem handle_response_by_status (r : Env.Response) :
  (Env.status r = 401 \/ Env.status r = 403 ->
   _handle_response error_msg r
   = inr (CloudflareAuthenticationError (error_msg r) (Some (Env.status r)))) /\
  (Env.status r = 429 ->
   _handle_response error_msg r
   = match Env.header_retry_after r with
     | None => inr (CloudflareRateLimitError (error_msg r) (Some 60))
     | Some (Some seconds) => inr (CloudflareRateLimitError (error_msg r) (Some seconds))
     | Some None => inr (OtherException "ValueError" "invalid literal for int()")
     end) /\
  (forall a, _handle_response error_msg r = inl a ->
     Env.status r < 400 \/ 600 <= Env.status r) /\
  (forall msg status_code,
     _handle_response error_msg r = inr (CloudflareAPIError msg status_code) ->
     status_code = Some (Env.status r) /\ 400 <= Env.status r < 600 /\
     Env.status r <> 401 /\ Env.status r <> 403 /\ Env.status r <> 429) /\
  (Env.status r < 400 \/ 600 <= Env.status r ->
   Env.json_content_type r = false \/ Env.json r = None ->
   _handle_response error_msg r
   = inl {| success := PyBool true; result := PyStr (Env.text r); errors := [] |}).
Proof.
  unfold _handle_response, Env.ok.
  split; [| split; [| split; [| split]]].
  - intros [H | H]; rewrite H; reflexivity.
  - intros H. rewrite H. reflexivity.
  - intros a.
    destruct ((Env.status r =? 401) || (Env.status r =? 403)); [discriminate |].
    destruct (Env.status r =? 429).
    { destruct (Env.header_retry_after r) as [[s |] |]; discriminate. }
    destruct ((400 <=? Env.status r) && (Env.status r <? 600)) eqn:E;
      cbn [negb]; [discriminate |].
    intros _. apply andb_false_iff in E. destruct E as [E | E];
      [apply Z.leb_gt in E | apply Z.ltb_ge in E]; lia.
  - intros msg status_code.
    destruct (Env.status r =? 401) eqn:E1; [discriminate |].
    destruct (Env.status r =? 403) eqn:E2; [discriminate |].
    cbn [orb].
    destruct (Env.status r =? 429) eqn:E3.
    { destruct (Env.header_retry_after r) as [[s |] |]; discriminate. }
    apply Z.eqb_neq in E1, E2, E3.
    destruct ((400 <=? Env.status r) && (Env.status r <? 600)) eqn:E; cbn [negb].
    + apply andb_prop in E. destruct E as [Ea Eb].
      apply Z.leb_le in Ea. apply Z.ltb_lt in Eb.
      unfold http_error. intros H.
      assert (Hs : status_code = Some (Env.status r)).
      { destruct (Env.json r) as [[| | | | | | error_data |] |];
          try discriminate; [| now inversion H].
        destruct (parse_errors (get_default error_data "errors" (PyList [])))
          as [es | e] eqn:Ep.
        - destruct (get_default error_data "errors" (PyList [PyDict []]))
            as [| | | | s | [| x l] | d | t s];
            try discriminate; now inversion H.
        - inversion H. subst e.
          destruct (parse_errors_raises _ _ Ep) as (t & m & Hx). discriminate. }
      repeat split; try assumption; lia.
    + destruct (Env.json_content_type r); cbn [negb]; [| discriminate].
      destruct (Env.json r) as [json_data |]; [| discriminate].
      unfold _parse_value_response.
      destruct json_data as [| | | | | | d |]; try discriminate.
      destruct (dict_get d "success"); [| discriminate].
      destruct (parse_errors (get_default d "errors" (PyList []))) as [es | e] eqn:Ep;
        [discriminate |].
      intros H. inversion H. subst e.
      destruct (parse_errors_raises _ _ Ep) as (t & m & Hx). discriminate.
  - intros Hs Hraw.
    assert (E1 : (Env.status r =? 401) = false) by (apply Z.eqb_neq; lia).
    assert (E2 : (Env.status r =? 403) = false) by (apply Z.eqb_neq; lia).
    assert (E3 : (Env.status r =? 429) = false) by (apply Z.eqb_neq; lia).
    assert (E4 : (400 <=? Env.status r) && (Env.status r <? 600) = false).
    { apply andb_false_iff. destruct Hs; [left; apply Z.leb_gt | right; apply Z.ltb_ge]; lia. }
    rewrite E1, E2, E3, E4. cbn [orb negb].
    destruct Hraw as [H | H]; rewrite H; [reflexivity |].
    now destruct (Env.json_content_type r).
Qed.
End ResponseClasses.

(** ** What [get_value] returns *)

Section RetryOutcome.
Import Py CloudflareClient.
Local Open Scope string_scope.
Local Open Scope Z_scope.

Variable error_msg : Env.Response -> string.



(** X3: when [max_attempts] is 0 or negative and the breaker is not open,
    [get_value] sends no request and does not sleep: it raises
    [CloudflareAPIError("All retry attempts exhausted")] with no status code,
    leaves the world as it was, and the breaker counts one more failure. *)
Theorem get_value_without_attempts (c : Client) (w : Env.World) :
  max_attempts (retry_config c) <= 0 ->
  state (circuit_breaker c) <> OPEN ->
  exists c',
    get_value error_msg c w
    = (inr (CloudflareAPIError "All retry attempts exhausted" None), c', w) /\
    circuit_breaker c' = _on_failure (circuit_breaker c) (Env.clock w) /\
    failure_count (circuit_breaker c') = failure_count (circuit_breaker c) + 1.
Proof.
  intros Hmax Hs.
  unfold get_value, _execute_with_retry_and_circuit_breaker, call, gate,
    _execute_with_retries.
  replace (Z.to_nat (max_attempts (retry_config c))) with 0%nat by lia.
  destruct (state (circuit_breaker c)); try congruence; cbn;
    eexists; repeat split.
Qed.
End RetryOutcome.

Section RetryOutcomeExamples.
Import Py.
Local Open Scope string_scope.
Local Open Scope Z_scope.


(** The theorem for a client of no attempt, against the upstream that
    answers 404: the world is not touched. *)
Lemma get_value_without_attempts_witness :
  let c := CloudflareClient.new_client 0
             (Config.cloudflare_credentials (sample_config 3)) 30
             {| CloudflareClient.max_attempts := 0;
                CloudflareClient.base_delay := 1;
                CloudflareClient.max_delay := 60;
                CloudflareClient.jitter := true |} in
  exists c',
    CloudflareClient.get_value (fun _ => "") c not_found_world
    = (inr (CloudflareClient.CloudflareAPIError "All retry attempts exhausted" None),
       c', not_found_world) /\
    CloudflareClient.circuit_breaker c'
    = CloudflareClient._on_failure (CloudflareClient.circuit_breaker c)
        (Env.clock not_found_world) /\
    CloudflareClient.failure_count (CloudflareClient.circuit_breaker c')
    = CloudflareClient.failure_count (CloudflareClient.circuit_breaker c) + 1.
Proof.
  intros c.
  apply (get_value_without_attempts (fun _ => "") c not_found_world).
  - cbn. lia.
  - cbn. discriminate.
Defined.

End RetryOutcomeExamples.

(** ** Rate limits *)

Section RateLimit.
Import Py CloudflareClient.
Local Open Scope string_scope.
Local Open Scope Z_scope.
Variable error_msg : Env.Response -> string.

End RateLimit.

Section RateLimitExamples.
Import Py.
Local Open Scope string_scope.
Local Open Scope Z_scope.


End RateLimitExamples.

(** ** Values handed on by the transformer *)

Section DictLoops.
Import Py.
Local Open Scope string_scope.

(** Induction on values, with the elements of lists and the values of
    dictionaries. *)
Lemma PyValue_nested_ind (P : PyValue -> Prop) :
  P PyNone -> (forall b, P (PyBool b)) -> (forall z, P (PyInt z)) ->
  (forall q, P (PyFloat q)) -> (forall s, P (PyStr s)) ->
  (forall l, Forall P l -> P (PyList l)) ->
  (forall d, Forall (fun kv => P (snd kv)) d -> P (PyDict d)) ->
  (forall t s, P (PyObject t s)) ->
  forall v, P v.
Proof.
  intros HN HB HI HF HS HL HD HO.
  fix IH 1. intros v. destruct v as [| b | z | q | s | l | d | t s].
  - exact HN.
  - apply HB.
  - apply HI.
  - apply HF.
  - apply HS.
  - apply HL. induction l as [| x l IHl]; constructor; [apply IH | exact IHl].
  - apply HD. induction d as [| [k x] d IHd]; constructor; [apply IH | exact IHd].
  - apply HO.
Qed.

Lemma dict_set_fresh d k v :
  dict_get d k = None -> dict_set d k v = (d ++ [(k, v)])%list.
Proof.
  induction d as [| [k' v'] d IH]; cbn; [reflexivity |].
  destruct (String.eqb k' k); [discriminate |].
  intros H. now rewrite IH.
Qed.

Lemma dict_get_app d e k :
  dict_get (d ++ e)%list k
  = match dict_get d k with Some v => Some v | None => dict_get e k end.
Proof.
  induction d as [| [k' v'] d IH]; cbn; [reflexivity |].
  destruct (String.eqb k' k); [reflexivity | exact IH].
Qed.

(** A loop that sets the keys of [d] one after the other appends the
    entries in their order when the keys are distinct and new. *)
Lemma set_loop_distinct (g : PyValue -> PyValue) d :
  forall acc,
    keys_distinct d = true ->
    (forall k, dict_get d k <> None -> dict_get acc k = None) ->
    fold_left (fun acc kv => dict_set acc (fst kv) (g (snd kv))) d acc
    = (acc ++ map (fun kv => (fst kv, g (snd kv))) d)%list.
Proof.
  induction d as [| [k v] d IH]; intros acc Hd Hnew; cbn.
  - now rewrite app_nil_r.
  - cbn in Hd. destruct (dict_get d k) eqn:Ek; [discriminate |].
    rewrite dict_set_fresh.
    + rewrite IH.
      * now rewrite <- app_assoc.
      * exact Hd.
      * intros k' Hk'. rewrite dict_get_app. rewrite Hnew.
        -- cbn. destruct (String.eqb k k') eqn:E; [| reflexivity].
           apply String.eqb_eq in E. subst k'. congruence.
        -- cbn. destruct (String.eqb k k'); [discriminate | exact Hk'].
    + apply Hnew. cbn. rewrite String.eqb_refl. discriminate.
Qed.

Lemma map_id_on {A} (f : A -> A) l :
  Forall (fun x => f x = x) l -> map f l = l.
Proof. induction 1; cbn; congruence. Qed.

End DictLoops.

Section T.
Import Py DataTransformer.
Local Open Scope string_scope.

Lemma processed_value_id v : well_formed v = true -> processed_value v = v.
Proof.
  induction v as [| b | z | q | s | l IH | d IH | t s] using PyValue_nested_ind;
    intros Hwf; try reflexivity.
  - cbn [processed_value]. f_equal.
    cbn [well_formed] in Hwf. rewrite forallb_forall in Hwf.
    apply map_id_on. rewrite Forall_forall in *.
    intros x Hx. destruct x; try reflexivity. apply IH; [exact Hx |].
    now apply Hwf.
  - cbn [processed_value]. f_equal.
    cbn [well_formed] in Hwf. apply andb_prop in Hwf. destruct Hwf as [Hk Hv].
    rewrite set_loop_distinct; [| exact Hk | reflexivity].
    cbn [app]. rewrite forallb_forall in Hv.
    apply map_id_on. rewrite Forall_forall in *.
    intros [k x] Hx. cbn. f_equal. apply (IH (k, x) Hx). now apply (Hv (k, x)).
Qed.

(** X5: [handle_missing_or_null_values] returns a dictionary equal to its
    argument, whatever [None] values it holds and however they are nested:
    on a dictionary whose keys are distinct at every level, as those of
    Python are, nothing is removed, replaced or reordered. *)
Theorem handle_missing_or_null_values_keeps_data (data : Dict) :
  well_formed (PyDict data) = true ->
  handle_missing_or_null_values data = data.
Proof.
  intros Hwf. pose proof (processed_value_id (PyDict data) Hwf) as H.
  cbn [processed_value] in H. injection H as H. exact H.
Qed.

Section SanitizeFacts.
Variable float_of_decimal : string -> Q.

Lemma forallb_dict_set (P : PyValue -> bool) d k v :
  forallb (fun kv => P (snd kv)) d = true -> P v = true ->
  forallb (fun kv => P (snd kv)) (dict_set d k v) = true.
Proof.
  intros Hd Hv. induction d as [| [k' v'] d IH]; cbn.
  - now rewrite Hv.
  - cbn in Hd. apply andb_prop in Hd. destruct Hd as [H1 H2].
    destruct (String.eqb k' k); cbn.
    + now rewrite Hv, H2.
    + now rewrite H1, IH.
Qed.

Lemma keys_distinct_dict_set d k v :
  keys_distinct d = true -> keys_distinct (dict_set d k v) = true.
Proof.
  induction d as [| [k' v'] d IH]; cbn; [reflexivity |].
  destruct (dict_get d k') eqn:E; [discriminate |]. intros Hd.
  destruct (String.eqb k' k) eqn:Ek; cbn.
  - now rewrite E.
  - rewrite dict_get_set_neq.
    + rewrite E. now apply IH.
    + intros ->. now rewrite String.eqb_refl in Ek.
Qed.

(** What a loop that sets keys one after the other keeps. *)
Lemma set_loop_invariant (g : PyValue -> PyValue) (P : PyValue -> bool) d :
  forall acc,
    Forall (fun kv => P (g (snd kv)) = true) d ->
    keys_distinct acc = true ->
    forallb (fun kv => P (snd kv)) acc = true ->
    let r := fold_left (fun acc kv => dict_set acc (fst kv) (g (snd kv))) d acc in
    keys_distinct r = true /\ forallb (fun kv => P (snd kv)) r = true.
Proof.
  induction d as [| [k v] d IH]; intros acc Hd Hk Hp; cbn.
  - now split.
  - inversion Hd as [| ? ? H1 H2]; subst. cbn in H1.
    apply IH.
    + exact H2.
    + now apply keys_distinct_dict_set.
    + now apply forallb_dict_set.
Qed.

Lemma sanitize_supported v :
  supported (sanitize_for_dynamodb float_of_decimal v) = true.
Proof.
  induction v as [| b | z | q | s | l IH | d IH | t s] using PyValue_nested_ind;
    try reflexivity.
  - cbn [sanitize_for_dynamodb supported]. rewrite forallb_forall.
    intros x Hx. apply in_map_iff in Hx. destruct Hx as [y [<- Hy]].
    rewrite Forall_forall in IH. now apply IH.
  - cbn [sanitize_for_dynamodb supported].
    apply (set_loop_invariant (sanitize_for_dynamodb float_of_decimal) supported d []);
      [exact IH | reflexivity | reflexivity].
  - cbn. now destruct (String.eqb t "Decimal").
Qed.

Lemma sanitize_well_formed v :
  well_formed (sanitize_for_dynamodb float_of_decimal v) = true.
Proof.
  induction v as [| b | z | q | s | l IH | d IH | t s] using PyValue_nested_ind;
    try reflexivity.
  - cbn [sanitize_for_dynamodb well_formed]. rewrite forallb_forall.
    intros x Hx. apply in_map_iff in Hx. destruct Hx as [y [<- Hy]].
    rewrite Forall_forall in IH. now apply IH.
  - cbn [sanitize_for_dynamodb well_formed].
    destruct (set_loop_invariant (sanitize_for_dynamodb float_of_decimal)
                well_formed d [] IH eq_refl eq_refl) as [H1 H2].
    now rewrite H1, H2.
  - cbn. now destruct (String.eqb t "Decimal").
Qed.

Lemma sanitize_id v :
  well_formed v = true -> supported v = true ->
  sanitize_for_dynamodb float_of_decimal v = v.
Proof.
  induction v as [| b | z | q | s | l IH | d IH | t s] using PyValue_nested_ind;
    intros Hwf Hs; try reflexivity.
  - cbn [sanitize_for_dynamodb]. f_equal.
    cbn [well_formed supported] in Hwf, Hs. rewrite forallb_forall in Hwf, Hs.
    apply map_id_on. rewrite Forall_forall in *.
    intros x Hx. apply IH; auto.
  - cbn [sanitize_for_dynamodb]. f_equal.
    cbn [well_formed supported] in Hwf, Hs.
    apply andb_prop in Hwf. destruct Hwf as [Hk Hv].
    rewrite set_loop_distinct; [| exact Hk | reflexivity].
    cbn [app]. rewrite forallb_forall in Hv, Hs.
    apply map_id_on. rewrite Forall_forall in *.
    intros [k x] Hx. cbn. f_equal.
    apply (IH (k, x) Hx); [apply (Hv (k, x) Hx) | apply (Hs (k, x) Hx)].
  - discriminate Hs.
Qed.

(** X6: the result of [sanitize_for_dynamodb] is built of [None], strings,
    numbers, booleans, lists and dictionaries only; sanitizing it once more
    changes nothing; a value that is already of that kind comes back equal;
    a [Decimal] becomes its [float], any other object its [str]. *)
Theorem sanitize_for_dynamodb_supported (v : PyValue) :
  let sanitized := sanitize_for_dynamodb float_of_decimal v in
  supported sanitized = true /\
  sanitize_for_dynamodb float_of_decimal sanitized = sanitized /\
  (well_formed v = true -> supported v = true -> sanitized = v) /\
  (forall t s, v = PyObject t s ->
     sanitized = if String.eqb t "Decimal" then PyFloat (float_of_decimal s)
                 else PyStr s).
Proof.
  intros sanitized. repeat split.
  - apply sanitize_supported.
  - apply sanitize_id; [apply sanitize_well_formed | apply sanitize_supported].
  - apply sanitize_id.
  - intros t s ->. reflexivity.
Qed.
End SanitizeFacts.
End T.

Section TExamples.
Import Py.
Local Open Scope string_scope.
Local Open Scope Z_scope.

(** The theorem on a dictionary with [None] values at two levels. *)
Lemma handle_missing_or_null_values_keeps_data_witness :
  well_formed (PyDict nulls_sample) = true /\
  DataTransformer.handle_missing_or_null_values nulls_sample = nulls_sample.
Proof.
  assert (H : well_formed (PyDict nulls_sample) = true) by reflexivity.
  split; [exact H |].
  exact (handle_missing_or_null_values_keeps_data nulls_sample H).
Defined.

End TExamples.

(** ** Batches of records and required fields *)

Section BatchFacts.
Import Py DataTransformer.
Local Open Scope string_scope.
Local Open Scope Z_scope.
Variable repr : PyValue -> string.

(** [validate_record] returns [True] or raises: it never returns [False]. *)
Lemma validate_record_true_or_raises record b :
  validate_record repr record = Returns b -> b = true.
Proof.
  unfold validate_record.
  destruct (missing_required_field record); [discriminate |].
  unfold bind.
  destruct (require_non_empty_str (pk record) _); [| discriminate].
  destruct (require_non_empty_str (sk record) _); [| discriminate].
  destruct (require_non_empty_str (key_name record) _); [| discriminate].
  destruct (require _ _); [| discriminate].
  destruct (metadata record); try discriminate.
  destruct (require _ _); [| discriminate].
  destruct (require_non_empty_str (namespace_id record) _); [| discriminate].
  destruct (require_non_empty_str (data_version record) _); [| discriminate].
  destruct (require _ _); [| discriminate].
  destruct (_validate_dynamodb_constraints _ _ _ _ _); [| discriminate].
  intros H. now inversion H.
Qed.

Lemma validate_from_skip records :
  forall i acc,
    validate_from repr true records i acc
    = Returns (acc ++ filter (valid repr) records)%list.
Proof.
  induction records as [| r records IH]; intros i acc; cbn [validate_from filter].
  - now rewrite app_nil_r.
  - unfold valid at 1.
    destruct (validate_record repr r) as [[|] | e]; rewrite IH.
    + now rewrite <- app_assoc.
    + reflexivity.
    + reflexivity.
Qed.

Lemma validate_from_strict records :
  forall i acc,
    validate_from repr false records i acc
    = match first_invalid repr records i with
      | None => Returns (acc ++ records)%list
      | Some (j, e) =>
          DataValidationError
            (String.append "Record "
               (String.append (str_of_Z j)
                  (String.append " validation failed: " e)))
      end.
Proof.
  induction records as [| r records IH]; intros i acc; cbn [validate_from first_invalid].
  - now rewrite app_nil_r.
  - destruct (validate_record repr r) as [b | e] eqn:E; [| reflexivity].
    pose proof (validate_record_true_or_raises r b E). subst b. rewrite IH.
    destruct (first_invalid repr records (i + 1)) as [[j e] |]; [reflexivity |].
    now rewrite <- app_assoc.
Qed.

Lemma first_invalid_spec records :
  forall i,
    match first_invalid repr records i with
    | None => forallb (valid repr) records = true
    | Some (j, e) =>
        exists n record,
          j = i + Z.of_nat n /\ nth_error records n = Some record /\
          validate_record repr record = DataValidationError e /\
          forallb (valid repr) (firstn n records) = true
    end.
Proof.
  induction records as [| r records IH]; intros i; cbn [first_invalid forallb].
  - reflexivity.
  - unfold valid at 1 3. destruct (validate_record repr r) as [b | e] eqn:E.
    + pose proof (validate_record_true_or_raises r b E). subst b.
      specialize (IH (i + 1)).
      destruct (first_invalid repr records (i + 1)) as [[j e] |].
      * destruct IH as (n & record & Hj & Hn & Hv & Hf).
        exists (S n), record. repeat split; try assumption; [lia |].
        cbn [firstn forallb].
        rewrite E. exact Hf.
      * unfold valid at 1. rewrite E. exact IH.
    + exists 0%nat, r. repeat split; [lia | exact E].
Qed.

(** X7: with [skip_invalid=True], [validate_and_process_batch] never
    raises and returns exactly the records that [validate_record] accepts,
    in their order ([validate_record] returns [True] or raises, never
    [False]).  With [skip_invalid=False] it returns all the records when all
    are accepted, and otherwise raises for the first refused one, with
    ["Record <index> validation failed: <message>"], the index counted
    from 0. *)
Theorem validate_and_process_batch_keeps_valid (records : list DynamoDBRecord) :
  validate_and_process_batch repr records true
  = Returns (filter (valid repr) records) /\
  (forall record b, validate_record repr record = Returns b -> b = true) /\
  match validate_and_process_batch repr records false with
  | Returns valid_records =>
      valid_records = records /\ forallb (valid repr) records = true
  | DataValidationError msg =>
      exists n record e,
        nth_error records n = Some record /\
        validate_record repr record = DataValidationError e /\
        forallb (valid repr) (firstn n records) = true /\
        msg = String.append "Record "
                (String.append (str_of_Z (Z.of_nat n))
                   (String.append " validation failed: " e))
  end.
Proof.
  unfold validate_and_process_batch. split; [| split].
  - apply validate_from_skip.
  - apply validate_record_true_or_raises.
  - rewrite validate_from_strict.
    pose proof (first_invalid_spec records 0) as H.
    destruct (first_invalid repr records 0) as [[j e] |].
    + destruct H as (n & record & Hj & Hn & Hv & Hf).
      exists n, record, e. cbn in Hj. subst j. repeat split; assumption.
    + split; [reflexivity | exact H].
Qed.

(** X8: [validate_api_response_fields] returns [True] exactly when every
    required field is a key of the response (a key whose value is [None]
    counts as present); otherwise it raises, and its message lists, after
    ["Missing required fields in API response: "], exactly the required
    fields that are missing, separated by [", "]; it never returns
    [False]. *)
Theorem validate_api_response_fields_iff (response_data : Dict)
    (required_fields : list string) :
  (validate_api_response_fields response_data required_fields = Returns true
   <-> forall field, In field required_fields ->
                     dict_get response_data field <> None) /\
  (forall msg,
     validate_api_response_fields response_data required_fields
     = DataValidationError msg ->
     exists missing,
       missing <> [] /\
       msg = String.append "Missing required fields in API response: "
               (String.concat ", " missing) /\
       forall field,
         In field missing
         <-> In field required_fields /\ dict_get response_data field = None) /\
  validate_api_response_fields response_data required_fields <> Returns false.
Proof.
  unfold validate_api_response_fields.
  set (absent := fun field => match dict_get response_data field with
                              | None => true
                              | Some _ => false
                              end).
  assert (Hin : forall field,
             In field (filter absent required_fields)
             <-> In field required_fields /\ dict_get response_data field = None).
  { intros field. rewrite filter_In. unfold absent.
    destruct (dict_get response_data field); intuition congruence. }
  destruct (filter absent required_fields) as [| m ms] eqn:Ef.
  - repeat split; try discriminate.
    + intros _ field Hf Hnone. apply (proj2 (Hin field)). now split.
  - repeat split; try discriminate.
    + intros Hall. exfalso.
      destruct (proj1 (Hin m) (or_introl eq_refl)) as [H1 H2].
      exact (Hall m H1 H2).
    + intros msg H. inversion H. exists (m :: ms).
      split; [discriminate |]. split; [reflexivity | exact Hin].
Qed.
End BatchFacts.

(** ** The batches of a write *)

Section StoreBatches.
Import Py DynamoDBClient.
Local Open Scope string_scope.
Local Open Scope Z_scope.

Lemma slices_sizes size : forall fuel items,
  (0 < size)%nat -> (List.length items <= fuel)%nat ->
  Forall (fun b => (1 <= List.length b <= size)%nat) (slices fuel size items) /\
  Forall (fun b => (List.length b = size)%nat)
         (removelast (slices fuel size items)) /\
  Z.of_nat (List.length (slices fuel size items))
  = (Z.of_nat (List.length items) + Z.of_nat size - 1) / Z.of_nat size.
Proof.
  induction fuel as [| fuel IH]; intros items Hsize Hlen.
  - destruct items; [| cbn in Hlen; lia]. cbn.
    repeat split; try constructor.
    symmetry. apply Z.div_small. lia.
  - destruct items as [| x items].
    + cbn. repeat split; try constructor. symmetry. apply Z.div_small. lia.
    + cbn [slices].
      set (l := x :: items) in *.
      assert (Hl : (1 <= List.length l)%nat) by (cbn; lia).
      destruct (IH (skipn size l) Hsize) as (H1 & H2 & H3).
      { rewrite length_skipn. cbn [List.length] in *. lia. }
      assert (Hf : List.length (firstn size l) = Nat.min size (List.length l))
        by apply length_firstn.
      split; [| split].
      * constructor; [lia | exact H1].
      * destruct (slices fuel size (skipn size l)) as [| b bs] eqn:Es.
        -- constructor.
        -- cbn [removelast]. constructor; [| exact H2].
           (* a further batch exists: more than [size] items were left *)
           destruct (Nat.le_gt_cases (List.length l) size) as [Hle | Hgt]; [| lia].
           exfalso. rewrite skipn_all2 in Es by exact Hle.
           destruct fuel; discriminate Es.
      * cbn [List.length]. rewrite Nat2Z.inj_succ, H3, length_skipn.
        destruct (Nat.le_gt_cases (List.length l) size) as [Hle | Hgt].
        -- replace (List.length l - size)%nat with 0%nat by lia.
           rewrite (Z.div_small (Z.of_nat 0 + Z.of_nat size - 1)) by lia.
           apply Z.div_unique_pos with (r := Z.of_nat (List.length l) - 1); lia.
        -- rewrite Nat2Z.inj_sub by lia.
           replace (Z.of_nat (List.length l) + Z.of_nat size - 1)
             with (Z.of_nat (List.length l) - Z.of_nat size + Z.of_nat size - 1
                   + 1 * Z.of_nat size) by lia.
           rewrite Z.div_add by lia. lia.
Qed.

(** X9: the batches that [batch_write_records] cuts are consecutive
    pieces of the items: put end to end they give the items back, each has
    between 1 and 25 items, all but the last have exactly 25, and there are
    [ceil(len(items) / 25)] of them (none for no item). *)
Theorem batches_of_chunks (items : list PyValue) :
  List.concat (batches_of items) = items /\
  Forall (fun batch => 1 <= len batch <= MAX_BATCH_SIZE) (batches_of items) /\
  Forall (fun batch => len batch = MAX_BATCH_SIZE) (removelast (batches_of items)) /\
  len (batches_of items) = (len items + 24) / 25.
Proof.
  unfold batches_of.
  destruct (slices_sizes (Z.to_nat MAX_BATCH_SIZE) (List.length items) items)
    as (H1 & H2 & H3); [cbn; lia | lia |].
  split; [| split; [| split]].
  - apply slices_concat; [cbn; lia | lia].
  - eapply Forall_impl; [| exact H1]. intros b Hb. unfold len, MAX_BATCH_SIZE in *.
    cbn in Hb. lia.
  - eapply Forall_impl; [| exact H2]. intros b Hb. unfold len, MAX_BATCH_SIZE in *.
    cbn in Hb. lia.
  - unfold len. rewrite H3.
    change (Z.of_nat (Z.to_nat MAX_BATCH_SIZE)) with 25. f_equal. lia.
Qed.
End StoreBatches.

(** ** The requests of a write *)

Section WriteLoop.
Import Py DynamoDBClient.
Local Open Scope string_scope.
Local Open Scope Z_scope.

Lemma store_trace_refl w : store_trace w w [] [].
Proof. unfold store_trace. now rewrite !app_nil_r. Qed.

Lemma backoff_trace attempt w :
  exists d, store_trace w (backoff attempt w) [] [d].
Proof.
  unfold backoff, store_trace. cbn. eexists. rewrite app_nil_r. repeat split.
Qed.

(** The loop ends by its own condition: more fuel than the turns that
    [attempt <= max_retries] leaves changes nothing. *)
Lemma write_loop_fuel fuel :
  forall fuel' self items successful errors attempt w,
    max_retries self + 1 - attempt <= Z.of_nat fuel ->
    max_retries self + 1 - attempt <= Z.of_nat fuel' ->
    write_loop fuel self items successful errors attempt w
    = write_loop fuel' self items successful errors attempt w.
Proof.
  induction fuel as [| fuel IH]; intros fuel' self items successful errors attempt w
                                        Hf Hf'.
  - destruct fuel' as [| fuel']; [reflexivity |].
    cbn [write_loop].
    assert (E : (attempt <=? max_retries self) = false) by (apply Z.leb_gt; lia).
    rewrite E, andb_false_r. reflexivity.
  - destruct fuel' as [| fuel'].
    + cbn [write_loop].
      assert (E : (attempt <=? max_retries self) = false) by (apply Z.leb_gt; lia).
      rewrite E, andb_false_r. reflexivity.
    + cbn [write_loop].
      destruct (negb (match items with [] => false | _ => true end
                      && (attempt <=? max_retries self))) eqn:Ec; [reflexivity |].
      destruct (Env.batch_write_item items w) as [[rs | code m | m] w1].
      * destruct rs as [| x rs]; [reflexivity |].
        destruct (attempt + 1 <=? _); [| reflexivity].
        destruct (put_request_items (x :: rs)); [| reflexivity].
        apply IH; cbn [add_retry_attempts max_retries]; lia.
      * destruct (existsb (String.eqb code) RETRYABLE_ERRORS && _); [| reflexivity].
        apply IH; cbn [add_retry_attempts max_retries]; lia.
      * reflexivity.
Qed.

(** The turns of the loop: each sends one request; all but the first count
    as retries. *)
Lemma write_loop_turns fuel :
  forall self items successful errors attempt w,
    0 <= attempt ->
    let '(r, self', w') :=
      write_loop fuel self items successful errors attempt w in
    exists writes naps,
      store_trace w w' writes naps /\
      attempt + len writes <= Z.max attempt (max_retries self + 1) /\
      len naps <= len writes /\
      max_retries self' = max_retries self /\
      total_retry_attempts self'
      = total_retry_attempts self
        + (if attempt =? 0 then Z.max 0 (len writes - 1) else len writes) /\
      match r with
      | inl result =>
          total_attempts result = attempt + len writes /\
          failed_records result = len (unprocessed_items result)
      | inr _ => True
      end.
Proof.
  induction fuel as [| fuel IH]; intros self items successful errors attempt w Ha.
  - cbn [write_loop]. exists [], []. unfold len. cbn.
    split; [apply store_trace_refl |].
    repeat split; try lia. destruct (attempt =? 0); lia.
  - cbn [write_loop].
    assert (Hdone : forall unprocessed su er,
               exists writes naps,
                 store_trace w w writes naps /\
                 attempt + len writes <= Z.max attempt (max_retries self + 1) /\
                 len naps <= len writes /\
                 max_retries self = max_retries self /\
                 total_retry_attempts self
                 = total_retry_attempts self
                   + (if attempt =? 0 then Z.max 0 (len writes - 1) else len writes) /\
                 total_attempts (batch_result unprocessed su er attempt)
                 = attempt + len writes /\
                 failed_records (batch_result unprocessed su er attempt)
                 = len (unprocessed_items (batch_result unprocessed su er attempt))).
    { intros. exists [], []. unfold len. cbn.
      split; [apply store_trace_refl |].
      repeat split; try lia. destruct (attempt =? 0); lia. }
    destruct (negb (match items with [] => false | _ => true end
                    && (attempt <=? max_retries self))) eqn:Ec; [apply Hdone |].
    apply negb_false_iff in Ec. apply andb_prop in Ec. destruct Ec as [_ Hle].
    apply Z.leb_le in Hle.
    set (self1 := add_retry_attempts self (if 1 <? attempt + 1 then 1 else 0)).
    assert (Hr1 : total_retry_attempts self1
                  = total_retry_attempts self + (if attempt =? 0 then 0 else 1)).
    { unfold self1. cbn. destruct (Z.eqb_spec attempt 0) as [-> | Hne]; [reflexivity |].
      assert (E : (1 <? attempt + 1) = true) by (apply Z.ltb_lt; lia).
      now rewrite E. }
    assert (Hm1 : max_retries self1 = max_retries self) by reflexivity.
    unfold Env.batch_write_item.
    set (w1 := {| Env.clock := Env.clock w |}).
    assert (Hw1 : store_trace w w1 [items] []).
    { unfold store_trace, w1. cbn. rewrite app_nil_r. repeat split. }
    (* what one turn that ends the loop leaves *)
    assert (Hone : forall w2 naps,
               store_trace w1 w2 [] naps -> len naps <= 1 ->
               exists writes naps',
                 store_trace w w2 writes naps' /\
                 attempt + len writes <= Z.max attempt (max_retries self + 1) /\
                 len naps' <= len writes /\
                 max_retries self1 = max_retries self /\
                 total_retry_attempts self1
                 = total_retry_attempts self
                   + (if attempt =? 0 then Z.max 0 (len writes - 1) else len writes) /\
                 len writes = 1).
    { intros w2 naps (T1 & T2 & T3 & T4) Hn.
      destruct Hw1 as (U1 & U2 & U3 & U4).
      exists [items], naps. unfold store_trace, len in *. cbn [List.length] in *.
      rewrite app_nil_r in *.
      repeat split; try congruence; try lia.
      rewrite Hr1. destruct (attempt =? 0); lia. }
    (* what a turn followed by the rest of the loop leaves *)
    assert (Hrec : forall its su er,
               let '(r, self', w') :=
                 write_loop fuel self1 its su er (attempt + 1)
                   (backoff (attempt + 1) w1) in
               exists writes naps,
                 store_trace w w' writes naps /\
                 attempt + len writes <= Z.max attempt (max_retries self + 1) /\
                 len naps <= len writes /\
                 max_retries self' = max_retries self /\
                 total_retry_attempts self'
                 = total_retry_attempts self
                   + (if attempt =? 0 then Z.max 0 (len writes - 1) else len writes) /\
                 match r with
                 | inl result =>
                     total_attempts result = attempt + len writes /\
                     failed_records result = len (unprocessed_items result)
                 | inr _ => True
                 end).
    { intros its su er.
      specialize (IH self1 its su er (attempt + 1) (backoff (attempt + 1) w1)).
      destruct (write_loop fuel self1 its su er (attempt + 1)
                  (backoff (attempt + 1) w1)) as [[r self'] w'].
      destruct IH as (writes & naps & (T1 & T2 & T3 & T4) & Hb & Hn & Hm & Hr & Hres);
        [lia |].
      destruct (backoff_trace (attempt + 1) w1) as [d (B1 & B2 & B3 & B4)].
      destruct Hw1 as (U1 & U2 & U3 & U4).
      exists (items :: writes), (d :: naps).
      unfold store_trace, len in *. cbn [List.length] in *.
      rewrite app_nil_r in *.
      assert (E1 : (attempt + 1 =? 0) = false) by (apply Z.eqb_neq; lia).
      rewrite E1 in Hr. rewrite Hm1 in *.
      repeat split.
      - rewrite T1, B1, U1, <- app_assoc. reflexivity.
      - rewrite T2, B2, U2, <- app_assoc. reflexivity.
      - congruence.
      - congruence.
      - lia.
      - lia.
      - exact Hm.
      - rewrite Hr, Hr1. destruct (attempt =? 0); lia.
      - destruct r as [result | e]; [| exact I].
        destruct Hres as [Hres1 Hres2]. split; [lia | exact Hres2]. }
    assert (Hend : forall w2 naps,
               store_trace w1 w2 [] naps -> len naps <= 1 ->
               forall r : BatchWriteResult + string,
                 match r with
                 | inl result =>
                     total_attempts result = attempt + 1 /\
                     failed_records result = len (unprocessed_items result)
                 | inr _ => True
                 end ->
                 exists writes naps',
                   store_trace w w2 writes naps' /\
                   attempt + len writes <= Z.max attempt (max_retries self + 1) /\
                   len naps' <= len writes /\
                   max_retries self1 = max_retries self /\
                   total_retry_attempts self1
                   = total_retry_attempts self
                     + (if attempt =? 0 then Z.max 0 (len writes - 1) else len writes) /\
                   match r with
                   | inl result =>
                       total_attempts result = attempt + len writes /\
                       failed_records result = len (unprocessed_items result)
                   | inr _ => True
                   end).
    { intros w2 naps Ht Hn r Hres.
      destruct (Hone w2 naps Ht Hn) as (wr & np & H1 & H2 & H3 & H4 & H5 & H6).
      exists wr, np.
      split; [exact H1 |]. split; [exact H2 |]. split; [exact H3 |].
      split; [exact H4 |]. split; [exact H5 |].
      destruct r as [result | e]; [| exact I].
      rewrite H6. exact Hres. }
    assert (Hnone : len (@nil Q) <= 1) by (unfold len; cbn; lia).
    destruct (Env.store w (List.length (Env.store_requests w)) items)
      as [rs | code m | m].
    + destruct rs as [| x rs].
      * apply (Hend w1 [] (store_trace_refl w1) Hnone (inl _)).
        split; reflexivity.
      * destruct (attempt + 1 <=? max_retries self1) eqn:E.
        -- destruct (put_request_items (x :: rs)) as [its |].
           ++ apply Hrec.
           ++ destruct (backoff_trace (attempt + 1) w1) as [d Hb].
              assert (Hd : len [d] <= 1) by (unfold len; cbn; lia).
              apply (Hend (backoff (attempt + 1) w1) [d] Hb Hd (inr EmptyString)). exact I.
        -- apply (Hend w1 [] (store_trace_refl w1) Hnone (inl _)).
           split; reflexivity.
    + destruct (existsb (String.eqb code) RETRYABLE_ERRORS && _).
      * apply Hrec.
      * apply (Hend w1 [] (store_trace_refl w1) Hnone (inr EmptyString)). exact I.
    + apply (Hend w1 [] (store_trace_refl w1) Hnone (inr EmptyString)). exact I.
Qed.

(** The first request of the loop carries the items it was given. *)
Lemma write_loop_first fuel self items successful errors attempt w :
  0 <= attempt ->
  let '(_, _, w') := write_loop fuel self items successful errors attempt w in
  Env.store_requests w' = Env.store_requests w \/
  exists rest,
    Env.store_requests w' = (Env.store_requests w ++ items :: rest)%list.
Proof.
  intros Ha. destruct fuel as [| fuel]; [now left |].
  cbn [write_loop].
  destruct (negb (match items with [] => false | _ => true end
                  && (attempt <=? max_retries self))); [now left |].
  set (self1 := add_retry_attempts self _).
  unfold Env.batch_write_item.
  set (w1 := {| Env.clock := Env.clock w |}).
  assert (Hrec : forall its su er,
             let '(_, _, w') :=
               write_loop fuel self1 its su er (attempt + 1)
                 (backoff (attempt + 1) w1) in
             Env.store_requests w' = Env.store_requests w \/
             exists rest,
               Env.store_requests w' = (Env.store_requests w ++ items :: rest)%list).
  { intros its su er.
    pose proof (write_loop_turns fuel self1 its su er (attempt + 1)
                  (backoff (attempt + 1) w1)) as H.
    destruct (write_loop fuel self1 its su er (attempt + 1)
                (backoff (attempt + 1) w1)) as [[r s'] w'].
    destruct H as (writes & naps & (T1 & _) & _); [lia |].
    right. exists writes. rewrite T1. cbn. now rewrite <- app_assoc. }
  assert (Hone : Env.store_requests w1 = Env.store_requests w \/
                 exists rest,
                   Env.store_requests w1
                   = (Env.store_requests w ++ items :: rest)%list).
  { right. now exists []. }
  destruct (Env.store w (List.length (Env.store_requests w)) items)
    as [rs | code m | m].
  - destruct rs as [| x rs]; [exact Hone |].
    destruct (attempt + 1 <=? max_retries self1); [| exact Hone].
    destruct (put_request_items (x :: rs)); [apply Hrec | exact Hone].
  - destruct (existsb (String.eqb code) RETRYABLE_ERRORS && _);
      [apply Hrec | exact Hone].
  - exact Hone.
Qed.

Lemma write_batch_trace (self : Client) (items : list PyValue)
    (w : Env.World) :
  let '(r, self', w') := _write_batch_with_retry self items w in
  (forall fuel,
     len items <= MAX_BATCH_SIZE ->
     max_retries self + 1 <= Z.of_nat fuel ->
     write_loop fuel self items 0 [] 0 w = (r, self', w')) /\
  exists writes naps,
    store_trace w w' writes naps /\
    len writes <= Z.max 0 (max_retries self + 1) /\
    len naps <= len writes /\
    hd items writes = items /\
    max_retries self' = max_retries self /\
    total_retry_attempts self'
    = total_retry_attempts self + Z.max 0 (len writes - 1) /\
    (MAX_BATCH_SIZE < len items -> writes = [] /\ exists e, r = inr e) /\
    match r with
    | inl result =>
        total_attempts result = len writes /\
        failed_records result = len (unprocessed_items result)
    | inr _ => True
    end.
Proof.
  unfold _write_batch_with_retry.
  destruct (MAX_BATCH_SIZE <? len items) eqn:Eb.
  - apply Z.ltb_lt in Eb. split; [intros; lia |].
    exists [], []. split; [apply store_trace_refl |].
    unfold len. cbn. repeat split; try lia. now eexists.
  - apply Z.ltb_ge in Eb.
    pose proof (write_loop_turns (Z.to_nat (max_retries self + 1)) self items 0 [] 0 w
                  (Z.le_refl 0)) as H.
    pose proof (write_loop_first (Z.to_nat (max_retries self + 1)) self items 0 [] 0 w
                  (Z.le_refl 0)) as Hf.
    pose proof (fun fuel => write_loop_fuel fuel (Z.to_nat (max_retries self + 1))
                              self items 0 [] 0 w) as Hfuel.
    destruct (write_loop (Z.to_nat (max_retries self + 1)) self items 0 [] 0 w)
      as [[r self'] w'].
    destruct H as (writes & naps & Ht & Hb & Hn & Hm & Hr & Hres).
    split.
    + intros fuel _ Hge. apply Hfuel; lia.
    + exists writes, naps. cbn [Z.eqb] in Hr.
      split; [exact Ht |]. split; [lia |]. split; [exact Hn |].
      split.
      { destruct Ht as (T1 & _).
        destruct Hf as [Hf | [rest Hf]]; rewrite T1 in Hf.
        - rewrite <- (app_nil_r (Env.store_requests w)) in Hf at 2.
          apply app_inv_head in Hf. now subst writes.
        - apply app_inv_head in Hf. now subst writes. }
      split; [exact Hm |]. split; [exact Hr |].
      split; [intros; lia |].
      destruct r as [result | e]; [| exact I].
      destruct Hres as [H1 H2]. split; [lia | exact H2].
Qed.

(** X10: [_write_batch_with_retry] sends at most [max_retries + 1]
    requests to the store (none when [max_retries] is negative, and none for
    a batch of more than 25 items, which raises), sleeps at most once per
    request, and does not touch the upstream; its first request carries the
    whole batch; [total_retry_attempts] grows by the number of requests after
    the first; the result reports as [total_attempts] the number of requests
    sent and as [failed_records] the number of its [unprocessed_items]. *)
Theorem write_batch_attempts_bounded (self : Client) (items : list PyValue)
    (w : Env.World) :
  let '(r, self', w') := _write_batch_with_retry self items w in
  exists writes naps,
    store_trace w w' writes naps /\
    len writes <= Z.max 0 (max_retries self + 1) /\
    len naps <= len writes /\
    hd items writes = items /\
    max_retries self' = max_retries self /\
    total_retry_attempts self'
    = total_retry_attempts self + Z.max 0 (len writes - 1) /\
    (MAX_BATCH_SIZE < len items -> writes = [] /\ exists e, r = inr e) /\
    match r with
    | inl result =>
        total_attempts result = len writes /\
        failed_records result = len (unprocessed_items result)
    | inr _ => True
    end.
Proof.
  pose proof (write_batch_trace self items w) as H.
  destruct (_write_batch_with_retry self items w) as [[r self'] w'].
  exact (proj2 H).
Qed.

(** ** Unprocessed items handed back *)

Lemma extract_items_length l : forall items,
  extract_items l = Some items -> List.length items = List.length l.
Proof.
  induction l as [| x l IH]; intros items H; cbn in H.
  - now inversion H.
  - destruct (match x with
              | PyDict d => match dict_get d "PutRequest" with
                            | Some _ => put_request_item x
                            | None => Some x
                            end
              | _ => Some x
              end) as [i |]; [| discriminate].
    destruct (extract_items l) as [is_ |]; [| discriminate].
    inversion H. cbn. now rewrite (IH is_ eq_refl).
Qed.

(** X11: [handle_write_errors] does nothing for an empty list; for more
    than 25 unprocessed items it raises without sending anything; and when
    it returns normally for a list that is not empty, the items were
    extracted from every element, the retry of those items left none
    unprocessed, and the first request it sent carried all of them. *)
Theorem handle_write_errors_edges (self : Client)
    (unprocessed : list PyValue) (w : Env.World) :
  let '(r, self', w') := handle_write_errors self unprocessed w in
  (unprocessed = [] -> r = inl tt /\ self' = self /\ w' = w) /\
  (MAX_BATCH_SIZE < len unprocessed ->
   (exists e, r = inr e) /\ self' = self /\ w' = w) /\
  (r = inl tt -> unprocessed <> [] ->
   exists items result,
     extract_items unprocessed = Some items /\
     _write_batch_with_retry self items w = (inl result, self', w') /\
     unprocessed_items result = [] /\
     hd items (skipn (List.length (Env.store_requests w)) (Env.store_requests w'))
     = items).
Proof.
  unfold handle_write_errors.
  destruct unprocessed as [| x l].
  - split; [intros _; repeat split |]. split; [intros H; unfold len, MAX_BATCH_SIZE in H; cbn in H; lia |].
    intros _ H. now contradiction H.
  - set (u := x :: l).
    destruct (extract_items u) as [items |] eqn:Ee.
    + pose proof (extract_items_length u items Ee) as Hlen.
      pose proof (write_batch_trace self items w) as Hb.
      destruct (_write_batch_with_retry self items w) as [[[result | e] self'] w'] eqn:Ew.
      * destruct Hb as (_ & writes & naps & (T1 & _) & _ & _ & Hhd & _ & _ & Hbig & Hres & Hfail).
        destruct (0 <? failed_records result) eqn:Ef.
        -- split; [discriminate |]. split; [| discriminate].
           intros Hgt. exfalso. unfold len in *. rewrite <- Hlen in Hgt.
           destruct (Hbig Hgt) as [_ [e He]]. discriminate He.
        -- split; [discriminate |]. split.
           ++ intros Hgt. exfalso. unfold len in *. rewrite <- Hlen in Hgt.
              destruct (Hbig Hgt) as [_ [e He]]. discriminate He.
           ++ intros _ _. exists items, result.
              split; [reflexivity |]. split; [exact Ew |]. split.
              ** apply Z.ltb_ge in Ef. rewrite Hfail in Ef. unfold len in Ef.
                 destruct (unprocessed_items result); [reflexivity | cbn in Ef; lia].
              ** rewrite T1, skipn_app, skipn_all, Nat.sub_diag. exact Hhd.
      * split; [discriminate |]. split; [| discriminate].
        intros Hgt. split; [now eexists |].
        unfold _write_batch_with_retry in Ew. unfold len in *. rewrite <- Hlen in Hgt.
        apply Z.ltb_lt in Hgt. unfold len in Ew. rewrite Hgt in Ew.
        inversion Ew. now split.
    + split; [discriminate |]. split; [| discriminate].
      intros _. split; [now eexists | now split].
Qed.

Lemma store_trace_trans w1 w2 w3 a b c d :
  store_trace w1 w2 a b -> store_trace w2 w3 c d ->
  store_trace w1 w3 (a ++ c) (b ++ d).
Proof.
  intros (A1 & A2 & A3 & A4) (B1 & B2 & B3 & B4). unfold store_trace.
  rewrite B1, B2, B3, B4, A1, A2, A3, A4, !app_assoc. repeat split.
Qed.

Lemma process_batch_trace t self w batch_items :
  let '(t', self', w') := process_batch (t, self, w) batch_items in
  exists writes naps,
    store_trace w w' writes naps /\
    len writes <= Z.max 0 (max_retries self + 1) /\
    len naps <= len writes /\
    max_retries self' = max_retries self /\
    total_records_attempted self' = total_records_attempted self /\
    total_records_successful self' = total_records_successful self /\
    total_records_failed self' = total_records_failed self /\
    total_write_operations self' = total_write_operations self.
Proof.
  unfold process_batch.
  pose proof (write_batch_trace self batch_items w) as H.
  assert (Hc : forall fuel s its su er at_ w0,
             let '(_, s', _) := write_loop fuel s its su er at_ w0 in
             total_records_attempted s' = total_records_attempted s /\
             total_records_successful s' = total_records_successful s /\
             total_records_failed s' = total_records_failed s /\
             total_write_operations s' = total_write_operations s).
  { induction fuel as [| fuel IH]; intros s its su er at_ w0; cbn [write_loop].
    - repeat split.
    - destruct (negb _); [repeat split |].
      destruct (Env.batch_write_item its w0) as [[rs | c m | m] w1].
      + destruct rs as [| x rs]; [repeat split |].
        destruct (at_ + 1 <=? _); [| repeat split].
        destruct (put_request_items (x :: rs)); [| repeat split].
        match goal with
        | |- context [write_loop fuel ?s1 ?i ?a ?b ?c ?d] =>
            specialize (IH s1 i a b c d);
            destruct (write_loop fuel s1 i a b c d) as [[? ?] ?]
        end.
        exact IH.
      + destruct (existsb (String.eqb c) RETRYABLE_ERRORS && _); [| repeat split].
        match goal with
        | |- context [write_loop fuel ?s1 ?i ?a ?b ?c ?d] =>
            specialize (IH s1 i a b c d);
            destruct (write_loop fuel s1 i a b c d) as [[? ?] ?]
        end.
        exact IH.
      + repeat split. }
  assert (Hc' : let '(_, s', _) := _write_batch_with_retry self batch_items w in
                total_records_attempted s' = total_records_attempted self /\
                total_records_successful s' = total_records_successful self /\
                total_records_failed s' = total_records_failed self /\
                total_write_operations s' = total_write_operations self).
  { unfold _write_batch_with_retry.
    destruct (MAX_BATCH_SIZE <? len batch_items); [repeat split |]. apply Hc. }
  destruct (_write_batch_with_retry self batch_items w) as [[r self'] w'].
  destruct H as (_ & writes & naps & Ht & Hb & Hn & _ & Hm & _).
  destruct Hc' as (C1 & C2 & C3 & C4).
  destruct r as [result | e]; exists writes, naps; (split; [exact Ht |]);
    repeat split; assumption.
Qed.

Lemma fold_batches_trace batches :
  forall t self w,
    let '(t', self', w') := fold_left process_batch batches (t, self, w) in
    exists writes naps,
      store_trace w w' writes naps /\
      len writes <= len batches * Z.max 0 (max_retries self + 1) /\
      len naps <= len writes /\
      max_retries self' = max_retries self /\
      total_records_attempted self' = total_records_attempted self /\
      total_records_successful self' = total_records_successful self /\
      total_records_failed self' = total_records_failed self /\
      total_write_operations self' = total_write_operations self.
Proof.
  induction batches as [| b batches IH]; intros t self w.
  - cbn. exists [], []. split; [apply store_trace_refl |].
    unfold len. cbn. repeat split; lia.
  - cbn [fold_left].
    pose proof (process_batch_trace t self w b) as Hb.
    destruct (process_batch (t, self, w) b) as [[t1 self1] w1].
    destruct Hb as (wr1 & np1 & Ht1 & Hl1 & Hn1 & Hm1 & A1 & A2 & A3 & A4).
    specialize (IH t1 self1 w1).
    destruct (fold_left process_batch batches (t1, self1, w1)) as [[t2 self2] w2].
    destruct IH as (wr2 & np2 & Ht2 & Hl2 & Hn2 & Hm2 & B1 & B2 & B3 & B4).
    exists (wr1 ++ wr2)%list, (np1 ++ np2)%list.
    split; [now apply (store_trace_trans w w1 w2) |].
    unfold len in *. rewrite !length_app. cbn [List.length].
    rewrite Hm1 in Hl2.
    repeat split; try congruence; try nia.
Qed.

(** What a call of [batch_write_records] leaves, whatever the table
    answers. *)
Lemma batch_write_records_trace (repr : PyValue -> string) self records w :
  let '(result, self', w') := batch_write_records repr self records w in
  let items := fst (convert_records repr records) in
  exists writes naps,
    store_trace w w' writes naps /\
    len writes <= len (batches_of items) * Z.max 0 (max_retries self + 1) /\
    len naps <= len writes /\
    max_retries self' = max_retries self /\
    total_records_attempted self' = total_records_attempted self + len records /\
    total_records_successful self'
    = total_records_successful self + successful_records result /\
    total_records_failed self' = total_records_failed self + failed_records result /\
    total_write_operations self'
    = total_write_operations self + len (batches_of items) /\
    unprocessed_items result = [].
Proof.
  unfold batch_write_records.
  destruct records as [| record records'].
  - cbn. exists [], []. split; [apply store_trace_refl |].
    unfold len. cbn. repeat split; lia.
  - set (records := record :: records').
    destruct (convert_records repr records) as [items conversion_errors] eqn:Ec.
    cbn [fst].
    destruct items as [| item items'].
    + exists [], []. split; [apply store_trace_refl |].
      unfold len. cbn. repeat split; lia.
    + set (items := item :: items') in *.
      set (t0 := {| t_successful_records := 0 |}).
      pose proof (fold_batches_trace (batches_of items) t0
                    (add_attempted self (len records)) w) as H.
      destruct (fold_left process_batch (batches_of items)
                  (t0, add_attempted self (len records), w)) as [[t self1] w1].
      destruct H as (writes & naps & Ht & Hl & Hn & Hm & A1 & A2 & A3 & A4).
      exists writes, naps.
      cbn [add_attempted max_retries total_records_attempted total_records_successful
           total_records_failed total_write_operations] in *.
      cbn [add_results max_retries total_records_attempted total_records_successful
           total_records_failed total_write_operations successful_records
           failed_records unprocessed_items].
      split; [exact Ht |]. repeat split; try assumption; try lia.
Qed.

Section Records.
Variable repr : PyValue -> string.

Lemma convert_records_count records :
  len (fst (convert_records repr records)) + len (snd (convert_records repr records))
  = len records.
Proof.
  induction records as [| r records IH]; [reflexivity |].
  cbn [convert_records].
  destruct (convert_records repr records) as [items errs]. cbn [fst snd] in IH.
  destruct (_record_to_dynamodb_item repr r); cbn [fst snd];
    unfold len in *; cbn [List.length]; lia.
Qed.

(** X12: [batch_write_records] sends at most
    [ceil(len(records) / 25) * (max_retries + 1)] requests to the store,
    sleeps at most once per request and does not touch the upstream;
    [total_write_operations] grows by at most [ceil(len(records) / 25)],
    [total_records_attempted] by [len(records)], the two other totals by the
    counts of the result; and the [unprocessed_items] of the result is
    always empty. *)
Theorem batch_write_requests_bounded (self : Client)
    (records : list DataTransformer.DynamoDBRecord) (w : Env.World) :
  let '(result, self', w') := batch_write_records repr self records w in
  exists writes naps,
    store_trace w w' writes naps /\
    len writes <= ((len records + 24) / 25) * Z.max 0 (max_retries self + 1) /\
    len naps <= len writes /\
    0 <= total_write_operations self' - total_write_operations self
      <= (len records + 24) / 25 /\
    max_retries self' = max_retries self /\
    total_records_attempted self' = total_records_attempted self + len records /\
    total_records_successful self'
    = total_records_successful self + successful_records result /\
    total_records_failed self' = total_records_failed self + failed_records result /\
    unprocessed_items result = [].
Proof.
  pose proof (batch_write_records_trace repr self records w) as H.
  destruct (batch_write_records repr self records w) as [[result self'] w'].
  cbn zeta in H.
  destruct H as (writes & naps & Ht & Hl & Hn & Hm & A1 & A2 & A3 & A4 & A5).
  pose proof (convert_records_count records) as Hc.
  set (items := fst (convert_records repr records)) in *.
  assert (Hb : 0 <= len (batches_of items) <= (len records + 24) / 25).
  { unfold batches_of.
    destruct (slices_sizes (Z.to_nat MAX_BATCH_SIZE) (List.length items) items)
      as (_ & _ & H3); [cbn; lia | lia |].
    unfold len at 1 2. rewrite H3.
    change (Z.of_nat (Z.to_nat MAX_BATCH_SIZE)) with 25.
    split; [apply Z.div_pos; lia |].
    apply Z.div_le_mono; [lia |].
    unfold len in *. lia. }
  exists writes, naps. split; [exact Ht |].
  repeat split; try assumption; try lia.
  eapply Z.le_trans; [exact Hl |].
  apply Z.mul_le_mono_nonneg_r; lia.
Qed.



(** X14: [_record_to_dynamodb_item] builds one item from the record, with
    every field of the record under its own name, and ["ttl"] exactly when
    the record's [ttl] is not [None]: 9 or 10 attributes.  It returns that
    item when the estimated size of the item is at most 400 KB, and raises
    when the estimate of that very item exceeds 400 KB, with a message that
    gives the estimate; so an item returned has every field and an estimate
    of at most 400 KB, and an error means that the item of this record is
    too large. *)
Theorem record_to_item_round_trip (record : DataTransformer.DynamoDBRecord) :
  exists item,
    dict_get item "pk" = Some (DataTransformer.pk record) /\
    dict_get item "sk" = Some (DataTransformer.sk record) /\
    dict_get item "key_name" = Some (DataTransformer.key_name record) /\
    dict_get item "value" = Some (DataTransformer.value record) /\
    dict_get item "metadata" = Some (DataTransformer.metadata record) /\
    dict_get item "retrieved_at" = Some (DataTransformer.retrieved_at record) /\
    dict_get item "source" = Some (DataTransformer.source record) /\
    dict_get item "namespace_id" = Some (DataTransformer.namespace_id record) /\
    dict_get item "data_version" = Some (DataTransformer.data_version record) /\
    dict_get item "ttl"
    = match DataTransformer.ttl record with
      | PyNone => None
      | t => Some t
      end /\
    len item = match DataTransformer.ttl record with PyNone => 9 | _ => 10 end /\
    _record_to_dynamodb_item repr record
    = (if MAX_ITEM_SIZE <? _estimate_item_size repr item
       then inr (item_too_large (_estimate_item_size repr item))
       else inl item) /\
    (forall item',
       _record_to_dynamodb_item repr record = inl item' ->
       item' = item /\ _estimate_item_size repr item' <= MAX_ITEM_SIZE) /\
    (forall e,
       _record_to_dynamodb_item repr record = inr e ->
       MAX_ITEM_SIZE < _estimate_item_size repr item /\
       e = item_too_large (_estimate_item_size repr item)).
Proof.
  unfold _record_to_dynamodb_item.
  destruct (DataTransformer.ttl record) eqn:Et;
    match goal with
    | |- context [MAX_ITEM_SIZE <? _estimate_item_size repr ?it] =>
        exists it;
        destruct (MAX_ITEM_SIZE <? _estimate_item_size repr it) eqn:E;
        [apply Z.ltb_lt in E | apply Z.ltb_ge in E];
        do 12 (split; [reflexivity |]);
        (split; intros x Hx);
        first [discriminate Hx
              | injection Hx as <-; split; [reflexivity | exact E]
              | injection Hx as <-; split; [exact E | reflexivity]]
    end.
Qed.

(** X15: when none of the records can be converted to an item,
    [batch_write_records] sends nothing and sleeps nowhere: the world is
    unchanged, every record is counted as failed with one conversion error
    each, [total_attempts] is 0, and of the client's totals only attempted
    and failed grow. *)
Theorem no_convertible_record_no_write (self : Client)
    (records : list DataTransformer.DynamoDBRecord) (w : Env.World) :
  records <> [] -> fst (convert_records repr records) = [] ->
  let '(result, self', w') := batch_write_records repr self records w in
  w' = w /\
  successful_records result = 0 /\
  failed_records result = len records /\
  total_attempts result = 0 /\
  errors result = snd (convert_records repr records) /\
  len (errors result) = len records /\
  total_records_attempted self' = total_records_attempted self + len records /\
  total_records_failed self' = total_records_failed self + len records /\
  total_records_successful self' = total_records_successful self /\
  total_write_operations self' = total_write_operations self.
Proof.
  intros Hne Hnone. unfold batch_write_records.
  destruct records as [| r rs]; [congruence |].
  pose proof (convert_records_count (r :: rs)) as Hc.
  destruct (convert_records repr (r :: rs)) as [items errs].
  cbn [fst snd] in *. subst items.
  cbn. repeat split. unfold len in *. cbn in *. lia.
Qed.
End Records.
End WriteLoop.

Section WriteLoopExamples.
Import Py.
Local Open Scope string_scope.
Local Open Scope Z_scope.


(** The theorem for one record of more than 400 KB. *)
Lemma no_convertible_record_no_write_witness :
  let self := DynamoDBClient.new_client 0 "table" None in
  let '(result, self', w') :=
    DynamoDBClient.batch_write_records (fun _ => "") self [oversized_record]
      quiet_world in
  w' = quiet_world /\
  DynamoDBClient.successful_records result = 0 /\
  DynamoDBClient.failed_records result = 1 /\
  DynamoDBClient.total_attempts result = 0 /\
  DynamoDBClient.total_records_failed self' = 1 /\
  DynamoDBClient.total_write_operations self' = 0.
Proof.
  intros self.
  assert (H1 : [oversized_record] <> []) by discriminate.
  assert (H2 : fst (DynamoDBClient.convert_records (fun _ => "") [oversized_record])
               = []) by (vm_compute; reflexivity).
  pose proof (no_convertible_record_no_write (fun _ => "") self [oversized_record]
                quiet_world H1 H2) as H.
  destruct (DynamoDBClient.batch_write_records (fun _ => "") self [oversized_record]
              quiet_world) as [[result self'] w'].
  destruct H as (A & B & C & D & _ & _ & _ & E & _ & F).
  repeat split; assumption.
Defined.

(** The theorem for the record of key ["k"] and value ["v"], which has no
    [ttl]: the item is returned, with its partition key and 9 attributes,
    and its estimate is within the limit. *)
Lemma record_to_item_round_trip_witness :
  exists item,
    DynamoDBClient._record_to_dynamodb_item (fun _ => "") sample_record
    = inl item /\
    dict_get item "pk" = Some (PyStr "cf_kv#k") /\
    DynamoDBClient.len item = 9 /\
    DynamoDBClient._estimate_item_size (fun _ => "") item
    <= DynamoDBClient.MAX_ITEM_SIZE.
Proof.
  destruct (record_to_item_round_trip (fun _ => "") sample_record)
    as (item & Hpk & _ & _ & _ & _ & _ & _ & _ & _ & _ & Hlen & _ & Hinl & _).
  destruct (DynamoDBClient._record_to_dynamodb_item (fun _ => "") sample_record)
    as [item' | e] eqn:E; [| vm_compute in E; discriminate E].
  destruct (Hinl item' eq_refl) as [-> Hsize].
  exists item. split; [reflexivity |].
  split; [exact Hpk | split; [exact Hlen | exact Hsize]].
Defined.

End WriteLoopExamples.

(** ** What the pool hands out *)

Section PoolObjects.
Import Py LambdaOptimizations.
Local Open Scope string_scope.
Local Open Scope Z_scope.

(** X16: whatever the pool holds, the Cloudflare client that
    [get_cloudflare_client] hands out has the token, account, namespace id
    and timeout of the configuration passed, and the DynamoDB client of
    [get_dynamodb_client] its table name and retry count (3 when the
    configuration says 0); each is the cached object or a newly built one,
    is cached afterwards, and each call adds 1 to the usage count.  The
    transformer handed out has the namespace asked for and is the cached one
    when that matches; the configuration manager is the cached one when
    there is one. *)
Theorem pool_hands_out_matching_objects (pool : ConnectionPool)
    (config : Config.Config) (w : Env.World) :
  (let '(client, pool') := get_cloudflare_client pool config w in
   let creds := Config.cloudflare_credentials config in
   Config.api_token (CloudflareClient.credentials client) = Config.api_token creds /\
   Config.account_id (CloudflareClient.credentials client) = Config.account_id creds /\
   Config.kv_namespace_id (CloudflareClient.credentials client)
   = Config.kv_namespace_id creds /\
   CloudflareClient.timeout client = Config.api_timeout_seconds config /\
   (_cloudflare_client pool = Some client
    \/ client = build_cloudflare_client (allocated pool) config) /\
   _cloudflare_client pool' = Some client /\
   _usage_count pool' = _usage_count pool + 1) /\
  (let '(client, pool') := get_dynamodb_client pool config w in
   DynamoDBClient.table_name client = Config.dynamodb_table_name config /\
   (DynamoDBClient.max_retries client = Config.retry_max_attempts config
    \/ Config.retry_max_attempts config = 0
       /\ DynamoDBClient.max_retries client = DynamoDBClient.DEFAULT_MAX_RETRIES) /\
   (_dynamodb_client pool = Some client
    \/ client = build_dynamodb_client (allocated pool) config) /\
   _dynamodb_client pool' = Some client /\
   _usage_count pool' = _usage_count pool + 1) /\
  (forall namespace_id,
     let '(transformer, pool') := get_data_transformer pool namespace_id w in
     dt_namespace_id transformer = namespace_id /\
     (forall cached, _data_transformer pool = Some cached ->
        dt_namespace_id cached = namespace_id -> transformer = cached) /\
     _data_transformer pool' = Some transformer /\
     _usage_count pool' = _usage_count pool + 1) /\
  (let '(manager, pool') := get_config_manager pool w in
   (forall cached, _config_manager pool = Some cached -> manager = cached) /\
   (_config_manager pool = None -> _config_cache manager = None) /\
   _config_manager pool' = Some manager /\
   _usage_count pool' = _usage_count pool + 1).
Proof.
  split; [| split; [| split]].
  - unfold get_cloudflare_client, _should_recreate_cloudflare_client.
    destruct (_cloudflare_client pool) as [cached |] eqn:Ec.
    + destruct (String.eqb (Config.api_token (Config.cloudflare_credentials config))
                  (Config.api_token (CloudflareClient.credentials cached))) eqn:E1;
      destruct (String.eqb (Config.account_id (Config.cloudflare_credentials config))
                  (Config.account_id (CloudflareClient.credentials cached))) eqn:E2;
      destruct (String.eqb (Config.kv_namespace_id (Config.cloudflare_credentials config))
                  (Config.kv_namespace_id (CloudflareClient.credentials cached))) eqn:E3;
      destruct (CloudflareClient.timeout cached =? Config.api_timeout_seconds config)
        eqn:E4;
      cbn [negb orb];
      rewrite ?String.eqb_eq in *; rewrite ?Z.eqb_eq in *; cbn;
      repeat split; auto.
    + cbn. repeat split; auto.
  - unfold get_dynamodb_client, _should_recreate_dynamodb_client.
    assert (Hnew : forall oid,
               DynamoDBClient.max_retries (build_dynamodb_client oid config)
               = Config.retry_max_attempts config
               \/ Config.retry_max_attempts config = 0
                  /\ DynamoDBClient.max_retries (build_dynamodb_client oid config)
                     = DynamoDBClient.DEFAULT_MAX_RETRIES).
    { intros oid. cbn. destruct (Z.eqb_spec (Config.retry_max_attempts config) 0);
        [right; now split | now left]. }
    destruct (_dynamodb_client pool) as [cached |] eqn:Ec.
    + destruct (String.eqb (DynamoDBClient.table_name cached)
                  (Config.dynamodb_table_name config)) eqn:E1;
      destruct (DynamoDBClient.max_retries cached =? Config.retry_max_attempts config)
        eqn:E2;
      cbn [negb orb];
      rewrite ?String.eqb_eq in *; rewrite ?Z.eqb_eq in *;
      (split; [first [exact E1 | reflexivity] |]);
      (split; [first [left; exact E2 | apply Hnew] |]);
      cbn; repeat split; auto.
    + split; [reflexivity |]. split; [apply Hnew |]. cbn. repeat split; auto.
  - intros namespace_id. unfold get_data_transformer.
    destruct (_data_transformer pool) as [cached |] eqn:Ec.
    + destruct (String.eqb (dt_namespace_id cached) namespace_id) eqn:E1;
        cbn [negb].
      * apply String.eqb_eq in E1. cbn. repeat split; auto.
        intros c Hc _. now inversion Hc.
      * apply String.eqb_neq in E1. cbn. repeat split; auto.
        intros c Hc Hn. inversion Hc. subst. contradiction.
    + cbn. repeat split; auto. discriminate.
  - unfold get_config_manager.
    destruct (_config_manager pool) as [cached |] eqn:Ec; cbn.
    + repeat split; auto; try discriminate. intros c Hc. now inversion Hc.
    + repeat split; auto. discriminate.
Qed.
End PoolObjects.

(** ** Cold starts and the pool after an invocation *)

Section HandlerPool.
Import Py LambdaFunction LambdaOptimizations.
Local Open Scope string_scope.
Local Open Scope Z_scope.
Variable repr : PyValue -> string.
Variable json_dumps : PyValue -> option string.
Variable error_msg : Env.Response -> string.

(** X17: [detect_cold_start] reports a warm start exactly when the pool
    holds at least one object, is at least one second old and has been used
    at least twice; without a pool it reports a cold start; and the global
    flag, once set, stays set. *)
Theorem detect_cold_start_spec (flag : bool) (pool : ConnectionPool) (t : Q)
    (w : Env.World) :
  (fst (detect_cold_start flag (Some (pool, t)) w) = false <->
   (_config_manager pool <> None \/ _cloudflare_client pool <> None \/
    _dynamodb_client pool <> None \/ _data_transformer pool <> None) /\
   (1 <= Env.clock w - t)%Q /\ 2 <= _usage_count pool) /\
  fst (detect_cold_start flag None w) = true /\
  (forall global,
     snd (detect_cold_start flag global w)
     = flag || fst (detect_cold_start flag global w)).
Proof.
  split; [| split].
  - unfold detect_cold_start, get_stats, get_connection_pool. cbn.
    rewrite !orb_false_iff, !negb_false_iff, orb_false_r.
    rewrite !orb_true_iff, Z.ltb_ge, Qle_bool_iff.
    unfold is_not_none.
    destruct (_config_manager pool), (_cloudflare_client pool),
      (_dynamodb_client pool), (_data_transformer pool);
      intuition (try discriminate; try congruence).
  - reflexivity.
  - intros global. unfold detect_cold_start. cbn [fst snd].
    destruct (_ || _ || _); destruct flag; reflexivity.
Qed.

(** X18: after every invocation of [lambda_handler], however it ends, the
    pool holds no object: the cleanup of the [finally] clause has emptied all
    four slots.  So [detect_cold_start] reports a cold start on that pool at
    any later time, and the next [get_cloudflare_client] and
    [get_dynamodb_client] build new clients: nothing is reused from one
    invocation to the next. *)
Theorem handler_leaves_pool_empty
    (environment : Config.Config + string) (iso : string) (event : Dict)
    (global_pool : option ConnectionPool) (w : Env.World) :
  let '(response, pool', w') :=
    lambda_handler repr json_dumps error_msg environment iso event global_pool w in
  _config_manager pool' = None /\ _cloudflare_client pool' = None /\
  _dynamodb_client pool' = None /\ _data_transformer pool' = None /\
  pool' = cleanup_lambda_resources (Some pool') w' /\
  (forall flag t w2, fst (detect_cold_start flag (Some (pool', t)) w2) = true) /\
  (forall config w2,
     fst (get_cloudflare_client pool' config w2)
     = build_cloudflare_client (allocated pool') config /\
     fst (get_dynamodb_client pool' config w2)
     = build_dynamodb_client (allocated pool') config).
Proof.
  unfold lambda_handler.
  destruct (new_timeout_manager 30 w) as [tm w1].
  match goal with
  | |- context [pipeline ?a ?b ?c ?d ?e ?f ?g] => destruct (pipeline a b c d e f g) as [r st]
  end.
  assert (H : forall p,
             let pool' := cleanup p in
             _config_manager pool' = None /\ _cloudflare_client pool' = None /\
             _dynamodb_client pool' = None /\ _data_transformer pool' = None /\
             (forall w', pool' = cleanup_lambda_resources (Some pool') w') /\
             (forall flag t w2, fst (detect_cold_start flag (Some (pool', t)) w2) = true) /\
             (forall config w2,
                fst (get_cloudflare_client pool' config w2)
                = build_cloudflare_client (allocated pool') config /\
                fst (get_dynamodb_client pool' config w2)
                = build_dynamodb_client (allocated pool') config)).
  { intros p. cbn. repeat split. }
  destruct r as [response | response | ty msg];
    [| | destruct (unexpected_error st msg) as [response st']];
    match goal with
    | |- context [cleanup ?p] =>
        destruct (H p) as (H1 & H2 & H3 & H4 & H5 & H6 & H7)
    end; repeat split; try assumption; try apply H5; try apply H7.
Qed.
End HandlerPool.

(** ** Error counters and error responses *)

Section ErrorFacts.
Import Py ErrorHandler.
Local Open Scope string_scope.
Local Open Scope Z_scope.
Variable repr : PyValue -> string.
Variable lower : string -> string.

(** X19: after any sequence of [increment_error_count] calls,
    [get_total_errors] has grown by the length of the sequence and the
    counter of each category by the number of its occurrences; the total is
    the sum of the seven counters; the record counters are not touched.
    Each of the six [handle_..._error] methods adds exactly 1 to the
    total. *)
Theorem total_errors_counts_handled (s : ExecutionStatistics)
    (categories : list ErrorCategory) :
  let s' := fold_left increment_error_count categories s in
  get_total_errors s' = get_total_errors s + Z.of_nat (List.length categories) /\
  (forall c,
     error_count s' c
     = error_count s c
       + Z.of_nat (List.length (filter (same_category c) categories))) /\
  get_total_errors s'
  = error_count s' CONFIGURATION + error_count s' AUTHENTICATION
    + error_count s' API + error_count s' STORAGE
    + error_count s' DATA_VALIDATION + error_count s' NETWORK
    + error_count s' UNKNOWN /\
  records_processed s' = records_processed s /\
  records_stored s' = records_stored s /\
  records_failed s' = records_failed s /\
  (forall msg retryable,
     get_total_errors (snd (handle_configuration_error s msg)) = get_total_errors s + 1 /\
     get_total_errors (snd (handle_authentication_error s msg)) = get_total_errors s + 1 /\
     get_total_errors (snd (handle_api_error s msg retryable)) = get_total_errors s + 1 /\
     get_total_errors (snd (handle_storage_error s msg retryable))
     = get_total_errors s + 1 /\
     get_total_errors (snd (handle_data_validation_error s msg))
     = get_total_errors s + 1 /\
     get_total_errors (snd (handle_network_error s msg)) = get_total_errors s + 1).
Proof.
  cbn zeta.
  assert (Hone : forall s0 c,
             get_total_errors (increment_error_count s0 c) = get_total_errors s0 + 1).
  { intros s0 c. destruct c; unfold get_total_errors; cbn; lia. }
  assert (Hcount : forall s0 c d,
             error_count (increment_error_count s0 c) d
             = error_count s0 d + (if same_category d c then 1 else 0)).
  { intros s0 c d. destruct c, d; cbn; lia. }
  assert (Hkeep : forall s0 c,
             records_processed (increment_error_count s0 c) = records_processed s0 /\
             records_stored (increment_error_count s0 c) = records_stored s0 /\
             records_failed (increment_error_count s0 c) = records_failed s0).
  { intros s0 c. destruct c; repeat split. }
  split; [| split; [| split; [| split; [| split; [| split]]]]].
  - revert s. induction categories as [| c cs IH]; intros s; cbn [fold_left List.length].
    + lia.
    + rewrite IH, Hone. lia.
  - intros d. revert s.
    induction categories as [| c cs IH]; intros s; cbn [fold_left filter].
    + cbn. lia.
    + rewrite IH, Hcount. destruct (same_category d c); cbn [List.length]; lia.
  - reflexivity.
  - revert s. induction categories as [| c cs IH]; intros s; cbn [fold_left];
      [reflexivity |]. rewrite IH. apply Hkeep.
  - revert s. induction categories as [| c cs IH]; intros s; cbn [fold_left];
      [reflexivity |]. rewrite IH. apply Hkeep.
  - revert s. induction categories as [| c cs IH]; intros s; cbn [fold_left];
      [reflexivity |]. rewrite IH. apply Hkeep.
  - intros msg retryable. repeat split; apply Hone.
Qed.

Lemma prefix_append m b : String.prefix m (String.append m b) = true.
Proof.
  induction m as [| c m IH]; cbn.
  - now destruct b.
  - destruct (ascii_dec c c); [exact IH | congruence].
Qed.

Lemma contains_append a m b :
  contains m (String.append a (String.append m b)) = true.
Proof.
  induction a as [| c a IH]; cbn [String.append].
  - destruct (String.append m b) eqn:E; cbn [contains];
      rewrite <- E, prefix_append; reflexivity.
  - cbn [contains]. rewrite IH. apply orb_true_r.
Qed.

(** X21: the message of [_create_actionable_error_message] always
    contains the original message, followed by a full stop and a space; it
    returns whenever ['message'] is a string or absent (then the original is
    ["Unknown error occurred"]); for a data validation error it is
    ["Data validation error: <original>. The invalid data will be skipped and
    processing will continue."]. *)
Theorem actionable_message_keeps_original (error_info : Dict) :
  let original := get error_info "message" (PyStr "Unknown error occurred") in
  (forall message,
     _create_actionable_error_message repr lower error_info = Some message ->
     contains (py_str repr original) message = true /\
     contains (String.append (py_str repr original) ". ") message = true) /\
  ((exists m, original = PyStr m) ->
   exists message,
     _create_actionable_error_message repr lower error_info = Some message) /\
  (is_str (get error_info "category" (PyStr "unknown"))
     (category_value DATA_VALIDATION) = true ->
   _create_actionable_error_message repr lower error_info
   = Some (String.append "Data validation error: "
             (String.append (py_str repr original)
                ". The invalid data will be skipped and processing will continue."))).
Proof.
  cbn zeta. unfold _create_actionable_error_message.
  set (original := get error_info "message" (PyStr "Unknown error occurred")).
  set (category := get error_info "category" (PyStr "unknown")).
  assert (Hf : forall before after message,
             Some (String.append before
                     (String.append (py_str repr original) after)) = Some message ->
             (exists rest, after = String.append ". " rest) ->
             contains (py_str repr original) message = true /\
             contains (String.append (py_str repr original) ". ") message = true).
  { intros before after message H [rest ->]. injection H as H. subst message.
    split.
    - apply contains_append.
    - assert (E : forall a, String.append a (String.append ". " rest)
                       = String.append (String.append a ". ") rest).
      { clear. induction a as [| c s IH]; cbn [String.append] in *;
          [reflexivity | f_equal; exact IH]. }
      rewrite E. apply contains_append. }
  split; [| split].
  - intros message.
    destruct (is_str category (category_value CONFIGURATION)).
    { destruct (lowered lower original) as [m |]; [| discriminate].
      destruct (contains "environment" m); [| destruct (contains "secret" m)];
        intros H; apply (Hf _ _ _ H); eexists; reflexivity. }
    destruct (is_str category (category_value AUTHENTICATION)).
    { intros H; apply (Hf _ _ _ H); eexists; reflexivity. }
    destruct (is_str category (category_value API)).
    { destruct (lowered lower original) as [m |]; [| discriminate].
      destruct (contains "rate" m || contains "limit" m);
        [| destruct (contains "timeout" m); [| destruct (contains "network" m)]];
        intros H; apply (Hf _ _ _ H); eexists; reflexivity. }
    destruct (is_str category (category_value STORAGE)).
    { destruct (lowered lower original) as [m |]; [| discriminate].
      destruct (contains "capacity" m || contains "throttl" m);
        [| destruct (contains "table" m)];
        intros H; apply (Hf _ _ _ H); eexists; reflexivity. }
    destruct (is_str category (category_value DATA_VALIDATION)).
    { intros H; apply (Hf _ _ _ H); eexists; reflexivity. }
    destruct (is_str category (category_value NETWORK)).
    { intros H; apply (Hf _ _ _ H); eexists; reflexivity. }
    intros H; apply (Hf _ _ _ H); eexists; reflexivity.
  - intros [m Hm]. rewrite Hm. cbn [lowered].
    repeat match goal with
           | |- context [if ?c then _ else _] => destruct c
           end; eexists; reflexivity.
  - intros Hc.
    assert (E : exists c, category = PyStr c /\ c = category_value DATA_VALIDATION).
    { destruct category; try discriminate. eexists. split; [reflexivity |].
      now apply String.eqb_eq. }
    destruct E as (c & -> & ->). reflexivity.
Qed.

(** X20: [_map_error_to_http_status] returns one of 400, 401, 403, 404,
    422, 429, 500, 502, 503 and 504, and it returns whenever ['type'] is a
    string or absent.  A configuration error gives 500, a data validation
    error 422, a network error 503, an authentication error 401 or 403 when
    it returns.  A
    category without a clause of its own, such as ["timeout"] or
    ["unknown"], is mapped by severity: 500 for critical and high, 503 for
    medium and also when there is no severity, 400 for anything else. *)
Theorem map_error_to_http_status_codes (error_info : Dict) :
  let category := get error_info "category" (PyStr "unknown") in
  let status := _map_error_to_http_status lower error_info in
  (forall code, status = Some code ->
     In code [400; 401; 403; 404; 422; 429; 500; 502; 503; 504]) /\
  ((exists t, get error_info "type" (PyStr "") = PyStr t) ->
   exists code, status = Some code) /\
  (category = PyStr "configuration" -> status = Some 500) /\
  (category = PyStr "data_validation" -> status = Some 422) /\
  (category = PyStr "network" -> status = Some 503) /\
  (category = PyStr "authentication" -> status = Some 401 \/ status = Some 403 \/ status = None) /\
  (existsb (is_str category) mapped_categories = false ->
   let severity := get error_info "severity" (PyStr "medium") in
   (severity = PyStr "critical" \/ severity = PyStr "high" -> status = Some 500) /\
   (severity = PyStr "medium" -> status = Some 503) /\
   (existsb (is_str severity) ["critical"; "high"; "medium"] = false ->
    status = Some 400)).
Proof.
  cbn zeta. unfold _map_error_to_http_status.
  set (category := get error_info "category" (PyStr "unknown")).
  set (error_type := get error_info "type" (PyStr "")).
  split; [| split; [| split; [| split; [| split; [| split]]]]].
  - intros code.
    repeat match goal with
           | |- context [match lowered lower error_type with _ => _ end] =>
               destruct (lowered lower error_type)
           | |- context [if ?c then _ else _] => destruct c
           end;
      intros H; inversion H; cbn; tauto.
  - intros [t Ht]. rewrite Ht. cbn [lowered].
    repeat match goal with
           | |- context [if ?c then _ else _] => destruct c
           end; eexists; reflexivity.
  - intros ->. reflexivity.
  - intros ->. reflexivity.
  - intros ->. reflexivity.
  - intros ->. cbn [is_str category_value String.eqb Ascii.eqb Bool.eqb].
    cbn. destruct (lowered lower error_type); [| tauto].
    destruct (_ || _); tauto.
  - unfold mapped_categories. cbn [map existsb].
    rewrite !orb_false_iff. intros (H1 & H2 & H3 & H4 & H5 & H6 & _).
    rewrite H1, H2, H3, H4, H5, H6. cbn zeta.
    split; [| split].
    + intros [-> | ->]; reflexivity.
    + intros ->. reflexivity.
    + intros (S1 & S2 & S3 & _).
      cbn [severity_value]. rewrite S1, S2, S3. reflexivity.
Qed.
End ErrorFacts.

(** ** Counters that the handler never sets *)

Section HandlerStatistics.
Import Py ErrorHandler LambdaFunction.
Local Open Scope string_scope.
Local Open Scope Z_scope.
Variable repr : PyValue -> string.
Variable json_dumps : PyValue -> option string.
Variable error_msg : Env.Response -> string.
Variable environment : Config.Config + string.
Variable iso : string.

Lemma untouched_new now : untouched (new_statistics now).
Proof. repeat split. Qed.

Lemma untouched_increment s c : untouched s -> untouched (increment_error_count s c).
Proof. intros H. destruct c; exact H. Qed.

Lemma untouched_ensure_finished s now : untouched s -> untouched (ensure_finished s now).
Proof. intros H. unfold ensure_finished. destruct (end_time s); exact H. Qed.

Lemma keeps_bind {A B} (Q : A -> Prop) (R : B -> Prop) (m : M A) (k : A -> M B) :
  keeps_untouched Q m -> (forall a, Q a -> keeps_untouched R (k a)) ->
  keeps_untouched R (bind m k).
Proof.
  intros Hm Hk st Hst. unfold bind.
  destruct (Hm st Hst) as [H1 H2].
  destruct (m st) as [[a | response | ty msg] st1]; cbn [fst snd] in *.
  - now apply Hk.
  - now split.
  - now split.
Qed.

Lemma keeps_return_error {A} (Q : A -> Prop) error_info :
  keeps_untouched Q (@return_error A error_info).
Proof.
  intros st Hst. unfold return_error. cbn. split; [exact Hst |].
  now exists (stats st).
Qed.

Lemma keeps_with_timeout_context {A} (Q : A -> Prop) (skipped body : M A) :
  keeps_untouched Q skipped -> keeps_untouched Q body ->
  keeps_untouched Q (with_timeout_context skipped body).
Proof.
  intros Hs Hb st Hst. unfold with_timeout_context.
  destruct (LambdaOptimizations.timeout_context_enter _ _) as [[go tm] w].
  destruct go; cbn [negb].
  - match goal with
    | |- context [body ?s] => destruct (Hb s Hst) as [H1 H2]; destruct (body s) as [r st2]
    end.
    cbn [fst snd] in *. split; assumption.
  - match goal with
    | |- context [skipped ?s] => exact (Hs s Hst)
    end.
Qed.

Lemma keeps_load_configuration :
  keeps_untouched (fun _ => True) (step_load_configuration environment).
Proof.
  apply keeps_with_timeout_context; [apply keeps_return_error |].
  intros st Hst.
  destruct (LambdaOptimizations.get_config_manager (pool st) (world st)) as [cm p].
  unfold load_config.
  destruct (LambdaOptimizations._config_cache cm); [now split |].
  destruct environment as [config | e]; [now split |].
  cbn. split.
  - exact (untouched_increment (stats st) CONFIGURATION Hst).
  - eexists. split; [| reflexivity].
    exact (untouched_increment (stats st) CONFIGURATION Hst).
Qed.

Lemma keeps_fetch_failed {A} (Q : A -> Prop) e :
  keeps_untouched Q (@fetch_failed A e).
Proof.
  intros st Hst. unfold fetch_failed.
  destruct e as [m c | m ra | m [c |] | t m]; cbn; try (now split).
  - split; [exact (untouched_increment (stats st) AUTHENTICATION Hst) |].
    eexists; split; [| reflexivity].
    exact (untouched_increment (stats st) AUTHENTICATION Hst).
  - split; [exact (untouched_increment (stats st) API Hst) |].
    eexists; split; [| reflexivity].
    exact (untouched_increment (stats st) API Hst).
  - split; [exact (untouched_increment (stats st) API Hst) |].
    eexists; split; [| reflexivity].
    exact (untouched_increment (stats st) API Hst).
Qed.

Lemma keeps_fetch client key :
  keeps_untouched (fun _ => True)
    (step_fetch_cloudflare_value error_msg client key).
Proof.
  apply keeps_with_timeout_context; [apply keeps_return_error |].
  intros st Hst.
  destruct (CloudflareClient.get_value error_msg client (world st)) as [[r c'] w'].
  destruct r as [value_response | e].
  - match goal with
    | |- context [if ?c then _ else _] => destruct c
    end.
    + apply keeps_fetch_failed. exact Hst.
    + cbn. split; [exact Hst | exact I].
  - apply keeps_fetch_failed. exact Hst.
Qed.

Lemma keeps_transform dt key value_response :
  keeps_untouched (fun _ => True)
    (step_transform_data repr json_dumps iso dt key value_response).
Proof.
  apply keeps_with_timeout_context; [apply keeps_return_error |].
  intros st Hst. cbn beta zeta.
  match goal with
  | |- context [DataTransformer.validate_record repr ?r] =>
      destruct (DataTransformer.validate_record repr r) as [[|] | e]
  end.
  - cbn. split; [exact Hst | exact I].
  - apply keeps_return_error. exact Hst.
  - apply keeps_return_error. exact Hst.
Qed.

Lemma keeps_store client key record :
  keeps_untouched (fun _ => True) (step_store_record repr client key record).
Proof.
  apply keeps_with_timeout_context.
  - intros st Hst. cbn. split.
    + now apply untouched_ensure_finished.
    + eexists. split; [| reflexivity]. now apply untouched_ensure_finished.
  - intros st Hst.
    destruct (DynamoDBClient.batch_write_records repr client [record] (world st))
      as [[batch_result c'] w'].
    cbn. split; [exact Hst | exact I].
Qed.

Lemma keeps_final key batch_result :
  keeps_untouched reports_untouched (step_final_response repr key batch_result).
Proof.
  intros st Hst. cbn. split.
  - now apply untouched_ensure_finished.
  - eexists. split; [| reflexivity]. now apply untouched_ensure_finished.
Qed.

Lemma keeps_pipeline event :
  keeps_untouched reports_untouched
    (pipeline repr json_dumps error_msg environment iso event).
Proof.
  unfold pipeline.
  eapply keeps_bind; [apply keeps_load_configuration |]. intros config _.
  eapply keeps_bind with (Q := fun _ => True).
  { apply keeps_with_timeout_context; [apply keeps_return_error |].
    intros st Hst.
    destruct (LambdaOptimizations.get_cloudflare_client (pool st) config (world st)).
    now split. }
  intros cloudflare_client _.
  eapply keeps_bind with (Q := fun _ => True).
  { intros st Hst. unfold step_initialize_data_transformer.
    destruct (LambdaOptimizations.get_data_transformer _ _ _). now split. }
  intros data_transformer _.
  eapply keeps_bind with (Q := fun _ => True).
  { apply keeps_with_timeout_context; [apply keeps_return_error |].
    intros st Hst.
    destruct (LambdaOptimizations.get_dynamodb_client (pool st) config (world st)).
    now split. }
  intros dynamodb_client _.
  eapply keeps_bind; [apply keeps_fetch |]. intros value_response _.
  eapply keeps_bind; [apply keeps_transform |]. intros record _.
  eapply keeps_bind; [apply keeps_store |]. intros batch_result _.
  apply keeps_final.
Qed.

(** X22: in the statistics of every response of [lambda_handler],
    [records_failed] is 0 and the retry statistics are all 0
    ([total_retries], [successful_retries], [failed_retries], and a
    [retry_success_rate] of 0.0), whatever happened in the run: the handler
    passes neither the failed records nor the retries of its clients to
    [update_statistics]. *)
Theorem handler_never_reports_failed_records (event : Dict)
    (global_pool : option LambdaOptimizations.ConnectionPool) (w : Env.World) :
  let '(response, _, _) :=
    lambda_handler repr json_dumps error_msg environment iso event global_pool w in
  let retry_statistics := sub_dict (Some (statistics response)) "retry_statistics" in
  dict_get (statistics response) "records_failed" = Some (PyInt 0) /\
  dict_get retry_statistics "total_retries" = Some (PyInt 0) /\
  dict_get retry_statistics "successful_retries" = Some (PyInt 0) /\
  dict_get retry_statistics "failed_retries" = Some (PyInt 0) /\
  dict_get retry_statistics "retry_success_rate" = Some (PyFloat 0).
Proof.
  assert (Hrep : forall response,
             reports_untouched response ->
             let retry_statistics :=
               sub_dict (Some (statistics response)) "retry_statistics" in
             dict_get (statistics response) "records_failed" = Some (PyInt 0) /\
             dict_get retry_statistics "total_retries" = Some (PyInt 0) /\
             dict_get retry_statistics "successful_retries" = Some (PyInt 0) /\
             dict_get retry_statistics "failed_retries" = Some (PyInt 0) /\
             dict_get retry_statistics "retry_success_rate" = Some (PyFloat 0)).
  { intros response (s & (H1 & H2 & H3 & H4) & Hs). rewrite Hs.
    cbn. rewrite H1, H2, H3, H4. cbn. repeat split. }
  unfold lambda_handler.
  destruct (LambdaOptimizations.new_timeout_manager 30 w) as [tm w1].
  match goal with
  | |- context [pipeline ?a ?b ?c ?d ?e ?f ?g] =>
      destruct (keeps_pipeline f g) as [H1 H2]; [apply untouched_new |];
      destruct (pipeline a b c d e f g) as [r st]
  end.
  cbn [fst snd] in H1, H2.
  destruct r as [response | response | ty msg].
  - now apply Hrep.
  - now apply Hrep.
  - unfold unexpected_error. cbn beta iota zeta.
    apply Hrep. eexists. split; [| reflexivity].
    now apply untouched_ensure_finished.
Qed.
End HandlerStatistics.

(** ** An upstream that cannot be reached *)

Section Upstream.
Import Py CloudflareClient.
Local Open Scope string_scope.
Local Open Scope Z_scope.
Variable error_msg : Env.Response -> string.

Lemma retry_loop_transport_failure rc remaining :
  forall attempt last w,
    (forall n, transport_failure (Env.http w n)) ->
    (forall e, last = Some e -> unclassified e) ->
    exists e w',
      retry_loop Env.sleep Env.random rc (_make_request error_msg)
                 remaining attempt last w = (inr e, w') /\
      unclassified e /\ Env.store_requests w' = Env.store_requests w /\
      Env.remaining_time w' = Env.remaining_time w /\
      Env.remaining_calls w' = Env.remaining_calls w.
Proof.
  induction remaining as [| n IH]; intros attempt last w Hw Hlast.
  - cbn. destruct last as [e |].
    + exists e, w. repeat split. now apply Hlast.
    + eexists _, w. repeat split.
  - cbn [retry_loop]. rewrite make_request_eq.
    set (w1 := snd (Env.session_get w)).
    assert (He : exists m, request_result error_msg (Env.http w (Env.http_calls w))
                           = inr (CloudflareAPIError m None)).
    { specialize (Hw (Env.http_calls w)).
      destruct (Env.http w (Env.http_calls w)); [contradiction | |]; cbn; eauto. }
    destruct He as [m He]. rewrite He. cbn [is_client_error].
    destruct (attempt <? max_attempts rc - 1).
    + destruct (calculate_retry_delay_io Env.random rc attempt w1) as [d w2] eqn:Ed.
      assert (H2 : Env.http w2 = Env.http w /\
                   Env.store_requests w2 = Env.store_requests w /\
                   Env.remaining_time w2 = Env.remaining_time w /\
                   Env.remaining_calls w2 = Env.remaining_calls w).
      { unfold calculate_retry_delay_io in Ed.
        destruct (jitter rc); inversion Ed; subst; cbn; repeat split. }
      destruct H2 as (Hh & Hs & Ht & Hc).
      unfold time_sleep. destruct (Qle_bool 0 d).
      * destruct (IH (attempt + 1) (Some (CloudflareAPIError m None)) (Env.sleep d w2))
          as (e & w' & Hl & Hu & Hs' & Ht' & Hc').
        -- intros k. cbn. rewrite Hh. apply Hw.
        -- intros e H. inversion H. exact I.
        -- exists e, w'. split; [exact Hl |]. cbn in Hs', Ht', Hc'.
           repeat split; congruence.
      * eexists _, w2. split; [reflexivity |]. repeat split; assumption.
    + eexists _, w1. split; [reflexivity |]. repeat split.
Qed.

Lemma get_value_transport_failure c w :
  (forall n, transport_failure (Env.http w n)) ->
  exists e c' w',
    get_value error_msg c w = (inr e, c', w') /\
    unclassified e /\ Env.store_requests w' = Env.store_requests w /\
    Env.remaining_time w' = Env.remaining_time w /\
    Env.remaining_calls w' = Env.remaining_calls w.
Proof.
  intros Hw. unfold get_value, _execute_with_retry_and_circuit_breaker, call.
  destruct (gate (circuit_breaker c) (Env.clock w)) as [cb1 |].
  - unfold _execute_with_retries.
    destruct (retry_loop_transport_failure (retry_config c)
                (Z.to_nat (max_attempts (retry_config c))) 0 None w Hw)
      as (e & w' & Hl & Hu & Hrest); [discriminate |].
    rewrite Hl. eexists e, _, w'. split; [reflexivity |]. now split.
  - eexists _, _, w. split; [reflexivity |]. repeat split.
Qed.
End Upstream.

Section HandlerUpstream.
Import Py ErrorHandler LambdaFunction.
Local Open Scope string_scope.
Local Open Scope Z_scope.
Variable repr : PyValue -> string.
Variable json_dumps : PyValue -> option string.
Variable error_msg : Env.Response -> string.
Variable iso : string.

(** A reading of more than 30 seconds is outside the buffer. *)
Lemma remaining_outside_buffer (ms : Z) :
  30000 < ms -> Qle_bool (inject_Z ms / 1000) 30 = false.
Proof.
  intros H. destruct (Qle_bool (inject_Z ms / 1000) 30) eqn:E; [| reflexivity].
  apply Qle_bool_iff in E. exfalso.
  assert (H1 : (inject_Z ms <= 30 * 1000)%Q).
  { apply (Qmult_le_r _ _ 1000) in E; [| reflexivity].
    eapply Qle_trans; [| exact E].
    unfold Qdiv. rewrite <- Qmult_assoc.
    setoid_replace (/ 1000 * 1000)%Q with 1%Q by reflexivity.
    rewrite Qmult_1_r. apply Qle_refl. }
  change (30 * 1000)%Q with (inject_Z 30000) in H1.
  rewrite <- Zle_Qle in H1. lia.
Qed.

(** With time left, the block of a stage runs, in a state that differs by
    the two readings of the deadline, and is followed by one more reading. *)
Lemma with_timeout_context_runs {A} (skipped body : M A) st :
  unhurried st ->
  exists w1,
    Env.http w1 = Env.http (world st) /\
    Env.store_requests w1 = Env.store_requests (world st) /\
    Env.remaining_time w1 = Env.remaining_time (world st) /\
    with_timeout_context skipped body st
    = let '(r, st2) :=
        body {| world := w1; pool := pool st; stats := stats st;
                timeout_manager := timeout_manager st |} in
      (r, set_world st2 (LambdaOptimizations.timeout_context_exit
                           (timeout_manager st2) (world st2))).
Proof.
  intros [Htime Hbuf].
  unfold with_timeout_context, LambdaOptimizations.timeout_context_enter,
    LambdaOptimizations.check_timeout, LambdaOptimizations.get_remaining_time_seconds,
    Env.remaining_time_in_millis.
  rewrite Hbuf, (remaining_outside_buffer _ (Htime _)).
  cbn [negb].
  eexists. split; [| split; [| split; [| reflexivity]]]; reflexivity.
Qed.

Lemma exit_keeps tm w :
  let w' := LambdaOptimizations.timeout_context_exit tm w in
  Env.http w' = Env.http w /\
  Env.store_requests w' = Env.store_requests w /\
  Env.remaining_time w' = Env.remaining_time w.
Proof. repeat split. Qed.

Lemma ready_stage {A} s0 w0 (skipped : M A) (f : State -> A * LambdaOptimizations.ConnectionPool) st :
  ready s0 w0 st ->
  exists a st',
    with_timeout_context skipped
      (fun st => let '(a, p) := f st in (Continue a, set_pool st p)) st
    = (Continue a, st') /\ ready s0 w0 st'.
Proof.
  intros ([Htime Hbuf] & Hs & Hh & Hr).
  destruct (with_timeout_context_runs skipped
              (fun st => let '(a, p) := f st in (Continue a, set_pool st p)) st
              (conj Htime Hbuf)) as (w1 & H1 & H2 & H3 & Hrun).
  rewrite Hrun.
  destruct (f _) as [a p]. eexists a, _. split; [reflexivity |].
  unfold ready, unhurried. cbn. rewrite H3. repeat split; try assumption; congruence.
Qed.

(** X23: when no request to the upstream gets a reply (timeouts or
    connection errors) and more than 30 seconds remain at every reading, the
    handler answers [success = False] with the error type ["UNKNOWN_ERROR"],
    not retryable: the [CloudflareAPIError] of a transport failure has no
    status code, and [e.status_code >= 500] raises in the clause that would
    have classified it.  The statistics of that response count no error and
    no API call, and nothing is sent to the store. *)
Theorem upstream_unreachable_is_unknown_error
    (config : Config.Config) (event : Dict)
    (global_pool : option LambdaOptimizations.ConnectionPool) (w : Env.World) :
  (forall n, 30000 < Env.remaining_time w n) ->
  (forall n, transport_failure (Env.http w n)) ->
  let '(response, pool', w') :=
    lambda_handler repr json_dumps error_msg (inl config) iso event global_pool w in
  success response = false /\
  (exists details,
     error response = Some {| error_type := "UNKNOWN_ERROR";
                              details := details;
                              error_is_retryable := false |}) /\
  dict_get (statistics response) "total_errors" = Some (PyInt 0) /\
  dict_get (statistics response) "cloudflare_api_calls" = Some (PyInt 0) /\
  Env.store_requests w' = Env.store_requests w.
Proof.
  intros Htime Hhttp.
  unfold lambda_handler.
  destruct (LambdaOptimizations.new_timeout_manager 30 w) as [tm w1] eqn:Etm.
  set (s0 := new_statistics (Env.clock w)).
  match goal with
  | |- context [pipeline _ _ _ _ _ _ ?st] => set (st0 := st)
  end.
  assert (H0 : ready s0 w st0).
  { unfold LambdaOptimizations.new_timeout_manager,
      LambdaOptimizations.get_remaining_time_seconds, Env.remaining_time_in_millis
      in Etm.
    inversion Etm. subst tm w1. unfold ready, unhurried, st0. cbn.
    repeat split. exact Htime. }
  clearbody st0.
  unfold pipeline.
  (* step 1 *)
  unfold bind at 1. unfold step_load_configuration.
  destruct H0 as (Hun & Hs & Hh & Hr).
  destruct (with_timeout_context_runs
              (return_error
                 (timeout_error "Lambda timeout approached during configuration loading"))
              (fun st =>
                 let '(config_manager, p) :=
                   LambdaOptimizations.get_config_manager (pool st) (world st) in
                 load_config (inl config) config_manager (set_pool st p)) st0 Hun)
    as (wa & A1 & A2 & A3 & Hrun).
  rewrite Hrun. clear Hrun.
  cbn [world pool].
  destruct (LambdaOptimizations.get_config_manager (pool st0) wa) as [cm p1].
  assert (Hload : exists cfg st1,
             load_config (inl config) cm
               (set_pool {| world := wa; pool := pool st0; stats := stats st0;
                            timeout_manager := timeout_manager st0 |} p1)
             = (Continue cfg, st1) /\
             world st1 = wa /\ stats st1 = stats st0 /\
             timeout_manager st1 = timeout_manager st0).
  { unfold load_config.
    destruct (LambdaOptimizations._config_cache cm) as [cfg |];
      eexists _, _; (split; [reflexivity |]); repeat split. }
  destruct Hload as (cfg & st1 & Hload & L1 & L2 & L3). rewrite Hload.
  assert (H1 : ready s0 w (set_world st1
                             (LambdaOptimizations.timeout_context_exit
                                (timeout_manager st1) (world st1)))).
  { destruct Hun as [Ht Hb]. unfold ready, unhurried. cbn.
    rewrite L1, L2, L3, A3. repeat split; try assumption; congruence. }
  set (st1' := set_world st1 _) in *. clearbody st1'. clear Hload L1 L2 L3 st1.
  (* step 2 *)
  unfold bind at 1. unfold step_initialize_cloudflare_client.
  destruct (ready_stage s0 w
              (return_error
                 (timeout_error
                    "Lambda timeout approaching during Cloudflare client initialization"))
              (fun st => LambdaOptimizations.get_cloudflare_client (pool st) cfg (world st))
              st1' H1) as (client & st2 & Hrun & H2).
  rewrite Hrun. clear Hrun.
  (* step 3 *)
  unfold bind at 1. unfold step_initialize_data_transformer.
  destruct (LambdaOptimizations.get_data_transformer (pool st2) _ (world st2))
    as [dt p3].
  assert (H3 : ready s0 w (set_pool st2 p3)) by exact H2.
  set (st3 := set_pool st2 p3) in *. clearbody st3.
  (* step 4 *)
  unfold bind at 1. unfold step_initialize_dynamodb_client.
  destruct (ready_stage s0 w
              (return_error
                 (timeout_error
                    "Lambda timeout approaching during DynamoDB client initialization"))
              (fun st => LambdaOptimizations.get_dynamodb_client (pool st) cfg (world st))
              st3 H3) as (dbclient & st4 & Hrun & H4).
  rewrite Hrun. clear Hrun.
  (* step 5 *)
  unfold bind at 1. unfold step_fetch_cloudflare_value.
  destruct H4 as (Hun4 & Hs4 & Hh4 & Hr4).
  match goal with
  | |- context [with_timeout_context ?sk ?body st4] =>
      destruct (with_timeout_context_runs sk body st4 Hun4)
        as (wb & B1 & B2 & B3 & Hrun)
  end.
  rewrite Hrun. clear Hrun. cbn [world].
  destruct (get_value_transport_failure error_msg client wb)
    as (e & c' & w' & Hget & Hu & G1 & G2 & G3).
  { intros n. rewrite B1, Hh4. apply Hhttp. }
  rewrite Hget.
  assert (Hraise : forall st, exists ty msg,
             @fetch_failed CloudflareClient.CloudflareValueResponse e st
             = (Raise ty msg, st)).
  { intros st. unfold fetch_failed.
    destruct e as [m c | m ra | m [c |] | t m]; try contradiction; eauto. }
  match goal with
  | |- context [fetch_failed e ?st] => destruct (Hraise st) as (ty & msg & Hf)
  end.
  rewrite Hf. clear Hf.
  unfold unexpected_error. cbn [fst snd stats world set_world set_stats
                                store_cloudflare_client set_pool].
  rewrite Hs4. subst s0.
  split; [reflexivity |]. split; [eexists; reflexivity |].
  split; [reflexivity |]. split; [reflexivity |].
  cbn. rewrite G1, B2. exact Hr4.
Qed.
End HandlerUpstream.

Section HandlerUpstreamExamples.
Import Py.
Local Open Scope string_scope.
Local Open Scope Z_scope.

(** The theorem for an empty event in a new process, against an upstream
    whose every request times out, five minutes before the deadline. *)
Lemma upstream_unreachable_is_unknown_error_witness :
  let '(response, pool', w') :=
    LambdaFunction.lambda_handler (fun _ => "") (fun _ => None) (fun _ => "")
      (inl (sample_config 3)) "2024-01-09T12:00:00+00:00" [] None quiet_world in
  ErrorHandler.success response = false /\
  (exists details,
     ErrorHandler.error response
     = Some {| ErrorHandler.error_type := "UNKNOWN_ERROR";
               ErrorHandler.details := details;
               ErrorHandler.error_is_retryable := false |}) /\
  dict_get (ErrorHandler.statistics response) "total_errors" = Some (PyInt 0) /\
  dict_get (ErrorHandler.statistics response) "cloudflare_api_calls"
  = Some (PyInt 0) /\
  Env.store_requests w' = Env.store_requests quiet_world.
Proof.
  apply (upstream_unreachable_is_unknown_error (fun _ => "") (fun _ => None)
           (fun _ => "") "2024-01-09T12:00:00+00:00" (sample_config 3) [] None
           quiet_world).
  - intros n. cbn. lia.
  - intros n. exact I.
Defined.

End HandlerUpstreamExamples.

(** ** A deadline reached at a later stage *)

Section StageTimeouts.
Import Py ErrorHandler LambdaFunction.
Local Open Scope string_scope.
Local Open Scope Z_scope.
Variable repr : PyValue -> string.
Variable json_dumps : PyValue -> option string.
Variable error_msg : Env.Response -> string.
Variable iso : string.

(** When the deadline is within the buffer at the boundary of a stage,
    the block of the stage is skipped. *)
Lemma with_timeout_context_skips {A} (skipped body : M A) st :
  (inject_Z (Env.remaining_time (world st) (Env.remaining_calls (world st)))
   <= LambdaOptimizations.buffer_seconds (timeout_manager st) * 1000)%Q ->
  exists st1,
    with_timeout_context skipped body st = skipped st1 /\
    stats st1 = stats st /\ pool st1 = pool st /\
    LambdaOptimizations.timeout_warned (timeout_manager st1) = true /\
    Env.http_calls (world st1) = Env.http_calls (world st) /\
    Env.store_requests (world st1) = Env.store_requests (world st) /\
    Env.slept (world st1) = Env.slept (world st) /\
    Env.remaining_calls (world st1) = S (Env.remaining_calls (world st)).
Proof.
  intros H.
  unfold with_timeout_context, LambdaOptimizations.timeout_context_enter,
    LambdaOptimizations.check_timeout, LambdaOptimizations.get_remaining_time_seconds,
    Env.remaining_time_in_millis.
  rewrite (remaining_within_buffer _ _ H). cbn [negb].
  eexists. split; [reflexivity |]. repeat split.
Qed.

(** X24: when the deadline is within the buffer at the start of a stage,
    the stage is not run.  At the fetch and at the transformation the
    handler answers [success = False] with a retryable ["TIMEOUT_ERROR"]
    and sends no request.  At the storage stage it answers
    [success = True], with [record_stored] false and [timeout_occurred] true
    in the processing summary, and sends nothing to the store. *)
Theorem stage_timeout_outcomes (st : State) :
  (inject_Z (Env.remaining_time (world st) (Env.remaining_calls (world st)))
   <= LambdaOptimizations.buffer_seconds (timeout_manager st) * 1000)%Q ->
  (forall client key,
     exists response st',
       step_fetch_cloudflare_value error_msg client key st = (Return response, st') /\
       success response = false /\
       error response
       = Some {| error_type := "TIMEOUT_ERROR";
                 details := "Lambda timeout approaching during value fetching";
                 error_is_retryable := true |} /\
       statistics response = to_dict (stats st) /\
       Env.http_calls (world st') = Env.http_calls (world st) /\
       Env.slept (world st') = Env.slept (world st)) /\
  (forall transformer key value_response,
     exists response st',
       step_transform_data repr json_dumps iso transformer key value_response st
       = (Return response, st') /\
       success response = false /\
       error response
       = Some {| error_type := "TIMEOUT_ERROR";
                 details := "Lambda timeout approaching during data transformation";
                 error_is_retryable := true |} /\
       Env.store_requests (world st') = Env.store_requests (world st)) /\
  (forall client key record,
     exists response st',
       step_store_record repr client key record st = (Return response, st') /\
       success response = true /\
       error response = None /\
       data response = Some (partial_data key) /\
       dict_get (sub_dict (data response) "processing_summary") "record_stored"
       = Some (PyBool false) /\
       dict_get (sub_dict (data response) "processing_summary") "timeout_occurred"
       = Some (PyBool true) /\
       dict_get (statistics response) "records_stored"
       = Some (PyInt (records_stored (stats st))) /\
       Env.store_requests (world st') = Env.store_requests (world st)).
Proof.
  intros H. split; [| split].
  - intros client key. unfold step_fetch_cloudflare_value.
    match goal with
    | |- context [with_timeout_context ?sk ?body st] =>
        destruct (with_timeout_context_skips sk body st H)
          as (st1 & Hrun & Hs & Hp & Hw & Hh & Hr & Hsl & Hc)
    end.
    rewrite Hrun. unfold return_error. eexists _, st1. split; [reflexivity |].
    rewrite Hs. repeat split; assumption.
  - intros transformer key value_response. unfold step_transform_data.
    match goal with
    | |- context [with_timeout_context ?sk ?body st] =>
        destruct (with_timeout_context_skips sk body st H)
          as (st1 & Hrun & Hs & Hp & Hw & Hh & Hr & Hsl & Hc)
    end.
    rewrite Hrun. unfold return_error. eexists _, st1. split; [reflexivity |].
    repeat split; assumption.
  - intros client key record. unfold step_store_record.
    match goal with
    | |- context [with_timeout_context ?sk ?body st] =>
        destruct (with_timeout_context_skips sk body st H)
          as (st1 & Hrun & Hs & Hp & Hw & Hh & Hr & Hsl & Hc)
    end.
    rewrite Hrun. unfold create_success_response. eexists _, _.
    split; [reflexivity |]. cbn [success error data statistics world set_stats].
    rewrite Hs.
    repeat split; try assumption.
    unfold ensure_finished. destruct (end_time (stats st)); reflexivity.
Qed.
End StageTimeouts.

Section StageTimeoutsExamples.
Import Py.
Local Open Scope string_scope.
Local Open Scope Z_scope.

(** The theorem 25 seconds before the deadline, for the storage stage of
    the key ["k"]. *)
Lemma stage_timeout_outcomes_witness :
  exists response st',
    LambdaFunction.step_store_record (fun _ => "")
      (DynamoDBClient.new_client 0 "table" None) (PyStr "k") sample_record late_state
    = (LambdaFunction.Return response, st') /\
    ErrorHandler.success response = true /\
    dict_get (sub_dict (ErrorHandler.data response) "processing_summary")
      "record_stored" = Some (PyBool false) /\
    Env.store_requests (LambdaFunction.world st')
    = Env.store_requests (LambdaFunction.world late_state).
Proof.
  assert (H : (inject_Z
                 (Env.remaining_time (LambdaFunction.world late_state)
                    (Env.remaining_calls (LambdaFunction.world late_state)))
               <= LambdaOptimizations.buffer_seconds
                    (LambdaFunction.timeout_manager late_state) * 1000)%Q)
    by (vm_compute; discriminate).
  destruct (stage_timeout_outcomes (fun _ => "") (fun _ => None) (fun _ => "")
              "2024-01-09T12:00:00+00:00" late_state H) as (_ & _ & Hs).
  destruct (Hs (DynamoDBClient.new_client 0 "table" None) (PyStr "k") sample_record)
    as (response & st' & H1 & H2 & _ & _ & H3 & _ & _ & H4).
  exists response, st'. repeat split; assumption.
Defined.

End StageTimeoutsExamples.

(** ** A successful run *)

Section HandlerSuccess.
Import Py ErrorHandler LambdaFunction.
Local Open Scope string_scope.
Local Open Scope Z_scope.
Variable repr : PyValue -> string.
Variable json_dumps : PyValue -> option string.
Variable error_msg : Env.Response -> string.
Variable iso : string.

Lemma same_io_refl w : same_io w w.
Proof. repeat split. Qed.

Lemma same_io_trans w1 w2 w3 : same_io w1 w2 -> same_io w2 w3 -> same_io w1 w3.
Proof.
  intros (A1 & A2 & A3 & A4 & A5 & A6) (B1 & B2 & B3 & B4 & B5 & B6).
  repeat split; congruence.
Qed.

(** With time left, the block of a stage runs in a world that differs
    from the one before by readings of the deadline only. *)
Lemma with_timeout_context_enters {A} (skipped body : M A) st :
  unhurried st ->
  exists w1,
    same_io (world st) w1 /\
    with_timeout_context skipped body st
    = let '(r, st2) :=
        body {| world := w1; pool := pool st; stats := stats st;
                timeout_manager := timeout_manager st |} in
      (r, set_world st2 (LambdaOptimizations.timeout_context_exit
                           (timeout_manager st2) (world st2))).
Proof.
  intros [Htime Hbuf].
  unfold with_timeout_context, LambdaOptimizations.timeout_context_enter,
    LambdaOptimizations.check_timeout, LambdaOptimizations.get_remaining_time_seconds,
    Env.remaining_time_in_millis.
  rewrite Hbuf.
  assert (E : forall ms, 30000 < ms -> Qle_bool (inject_Z ms / 1000) 30 = false).
  { intros ms H. destruct (Qle_bool (inject_Z ms / 1000) 30) eqn:E; [| reflexivity].
    apply Qle_bool_iff in E. exfalso.
    assert (H1 : (inject_Z ms <= 30 * 1000)%Q).
    { apply (Qmult_le_r _ _ 1000) in E; [| reflexivity].
      eapply Qle_trans; [| exact E].
      unfold Qdiv. rewrite <- Qmult_assoc.
      setoid_replace (/ 1000 * 1000)%Q with 1%Q by reflexivity.
      rewrite Qmult_1_r. apply Qle_refl. }
    change (30 * 1000)%Q with (inject_Z 30000) in H1.
    rewrite <- Zle_Qle in H1. lia. }
  rewrite (E _ (Htime _)).
  cbn [negb].
  eexists. split; [| reflexivity]. repeat split.
Qed.

Lemma exit_same_io tm w : same_io w (LambdaOptimizations.timeout_context_exit tm w).
Proof. repeat split. Qed.

(** A stage that only takes an object from the pool. *)
Lemma calm_stage {A} w0 (skipped : M A)
    (f : LambdaOptimizations.ConnectionPool -> Env.World
         -> A * LambdaOptimizations.ConnectionPool) st :
  calm w0 st ->
  exists w1 st',
    with_timeout_context skipped
      (fun st => let '(a, p) := f (pool st) (world st) in (Continue a, set_pool st p)) st
    = (Continue (fst (f (pool st) w1)), st') /\
    pool st' = snd (f (pool st) w1) /\ stats st' = stats st /\ calm w0 st'.
Proof.
  intros [[Htime Hbuf] Hio].
  destruct (with_timeout_context_enters skipped
              (fun st => let '(a, p) := f (pool st) (world st) in (Continue a, set_pool st p))
              st (conj Htime Hbuf)) as (w1 & H1 & Hrun).
  cbn [pool world] in Hrun.
  exists w1.
  destruct (f (pool st) w1) as [a p] eqn:Ef.
  eexists. cbn [fst snd]. split; [exact Hrun |].
  cbn. split; [reflexivity |]. split; [reflexivity |].
  split.
  - split; [| exact Hbuf].
    intros n. cbn. destruct H1 as (_ & _ & _ & _ & _ & A6). rewrite A6. apply Htime.
  - eapply same_io_trans; [exact Hio |].
    eapply same_io_trans; [exact H1 |]. exact (exit_same_io (timeout_manager st) w1).
Qed.

(** One record that converts, written to a table that takes it. *)
Lemma batch_write_one (self : DynamoDBClient.Client)
    (record : DataTransformer.DynamoDBRecord) (item : Dict) (w : Env.World) :
  DynamoDBClient._record_to_dynamodb_item repr record = inl item ->
  0 <= DynamoDBClient.max_retries self ->
  Env.store w (List.length (Env.store_requests w)) [PyDict item] = Env.Unprocessed [] ->
  exists result self',
    DynamoDBClient.batch_write_records repr self [record] w
    = (result, self', snd (Env.batch_write_item [PyDict item] w)) /\
    DynamoDBClient.successful_records result = 1 /\
    DynamoDBClient.failed_records result = 0 /\
    DynamoDBClient.errors result = [] /\
    DynamoDBClient.total_attempts result = 1.
Proof.
  intros Hitem Hmax Hstore.
  unfold DynamoDBClient.batch_write_records.
  cbn [DynamoDBClient.convert_records]. rewrite Hitem.
  change (DynamoDBClient.batches_of [PyDict item]) with [[PyDict item]].
  cbn [fold_left].
  unfold DynamoDBClient.process_batch, DynamoDBClient._write_batch_with_retry.
  change (DynamoDBClient.MAX_BATCH_SIZE <? DynamoDBClient.len [PyDict item]) with false.
  cbn iota.
  set (self1 := DynamoDBClient.add_attempted self (DynamoDBClient.len [record])).
  assert (Hmax1 : DynamoDBClient.max_retries self1 = DynamoDBClient.max_retries self)
    by reflexivity.
  destruct (Z.to_nat (DynamoDBClient.max_retries self1 + 1)) as [| fuel] eqn:Ef.
  { exfalso. lia. }
  cbn [DynamoDBClient.write_loop].
  assert (E : (0 <=? DynamoDBClient.max_retries self1) = true).
  { apply Z.leb_le. lia. }
  rewrite E. cbn [andb negb].
  unfold Env.batch_write_item at 1. rewrite Hstore.
  cbn. eexists _, _. split; [reflexivity |]. repeat split.
Qed.

(** A client with a closed breaker and at least one attempt, whose first
    request gets a good reply. *)
Lemma get_value_first_reply (c : CloudflareClient.Client) (w : Env.World)
    (a : CloudflareClient.CloudflareValueResponse) :
  CloudflareClient.state (CloudflareClient.circuit_breaker c) = CloudflareClient.CLOSED ->
  1 <= CloudflareClient.max_attempts (CloudflareClient.retry_config c) ->
  CloudflareClient.request_result error_msg (Env.http w (Env.http_calls w)) = inl a ->
  exists c',
    CloudflareClient.get_value error_msg c w = (inl a, c', snd (Env.session_get w)).
Proof.
  intros Hc Hmax Hreply.
  unfold CloudflareClient.get_value,
    CloudflareClient._execute_with_retry_and_circuit_breaker,
    CloudflareClient.call, CloudflareClient.gate,
    CloudflareClient._execute_with_retries.
  rewrite Hc.
  destruct (Z.to_nat (CloudflareClient.max_attempts (CloudflareClient.retry_config c)))
    as [| n] eqn:En; [lia |].
  cbn [CloudflareClient.retry_loop].
  rewrite make_request_eq, Hreply.
  eexists. reflexivity.
Qed.

(** X25: in a process whose pool holds no object, with more than 30
    seconds left at every reading and at least one attempt configured, when
    the first request to the upstream gets a good reply, the record made of
    it validates and converts to an item, and the table takes that item, the
    handler answers [success = True] with [record_stored] true and
    [record_failed] false; its statistics count 1 API call, 1 record
    processed, 1 write, 1 record stored and no error; it has sent exactly
    one request to the upstream and one to the store, carrying that item,
    and has not slept. *)
Theorem handler_stores_the_fetched_value
    (config : Config.Config) (event : Dict)
    (global_pool : option LambdaOptimizations.ConnectionPool) (w : Env.World)
    (value_response : CloudflareClient.CloudflareValueResponse) (item : Dict) :
  let record := fetched_record repr json_dumps iso config (key_of event) value_response in
  holds_nothing global_pool ->
  (forall n, 30000 < Env.remaining_time w n) ->
  1 <= Config.retry_max_attempts config ->
  CloudflareClient.request_result error_msg (Env.http w (Env.http_calls w))
  = inl value_response ->
  truthy (CloudflareClient.success value_response) = true ->
  CloudflareClient.errors value_response = [] ->
  DataTransformer.validate_record repr record = DataTransformer.Returns true ->
  DynamoDBClient._record_to_dynamodb_item repr record = inl item ->
  Env.store w (List.length (Env.store_requests w)) [PyDict item] = Env.Unprocessed [] ->
  let '(response, pool', w') :=
    lambda_handler repr json_dumps error_msg (inl config) iso event global_pool w in
  success response = true /\
  error response = None /\
  dict_get (sub_dict (data response) "processing_summary") "record_stored"
  = Some (PyBool true) /\
  dict_get (sub_dict (data response) "processing_summary") "record_failed"
  = Some (PyBool false) /\
  dict_get (statistics response) "cloudflare_api_calls" = Some (PyInt 1) /\
  dict_get (statistics response) "records_processed" = Some (PyInt 1) /\
  dict_get (statistics response) "dynamodb_writes" = Some (PyInt 1) /\
  dict_get (statistics response) "records_stored" = Some (PyInt 1) /\
  dict_get (statistics response) "total_errors" = Some (PyInt 0) /\
  Env.http_calls w' = S (Env.http_calls w) /\
  Env.store_requests w' = (Env.store_requests w ++ [[PyDict item]])%list /\
  Env.slept w' = Env.slept w.
Proof.
  intros record Hpool Htime Hretry Hreply Hok Herrs Hvalid Hitem Hstore.
  unfold lambda_handler.
  destruct (LambdaOptimizations.new_timeout_manager 30 w) as [tm w1] eqn:Etm.
  match goal with
  | |- context [pipeline _ _ _ _ _ _ ?st] => set (st0 := st)
  end.
  assert (H0 : calm w st0 /\ stats st0 = new_statistics (Env.clock w) /\
               LambdaOptimizations._config_manager (pool st0) = None /\
               LambdaOptimizations._cloudflare_client (pool st0) = None /\
               LambdaOptimizations._dynamodb_client (pool st0) = None /\
               LambdaOptimizations._data_transformer (pool st0) = None).
  { unfold LambdaOptimizations.new_timeout_manager,
      LambdaOptimizations.get_remaining_time_seconds, Env.remaining_time_in_millis
      in Etm.
    inversion Etm. subst tm w1. unfold calm, unhurried, same_io, st0. cbn.
    split; [repeat split; exact Htime |]. split; [reflexivity |].
    destruct global_pool as [p |]; cbn; [exact Hpool | repeat split]. }
  clearbody st0.
  destruct H0 as (Hc0 & Hs0 & P1 & P2 & P3 & P4).
  unfold pipeline. fold (key_of event).
  (* step 1 *)
  unfold bind at 1. unfold step_load_configuration.
  destruct Hc0 as [Hun0 Hio0].
  match goal with
  | |- context [with_timeout_context ?sk ?body st0] =>
      destruct (with_timeout_context_enters sk body st0 Hun0) as (wa & Ha & Hrun)
  end.
  rewrite Hrun. clear Hrun. cbn [world pool].
  unfold LambdaOptimizations.get_config_manager. rewrite P1.
  unfold load_config. cbn [LambdaOptimizations._config_cache].
  match goal with
  | |- context [bind (step_initialize_cloudflare_client config) _ ?st] =>
      set (st1 := st)
  end.
  assert (H1 : calm w st1 /\ stats st1 = new_statistics (Env.clock w) /\
               LambdaOptimizations._cloudflare_client (pool st1) = None /\
               LambdaOptimizations._dynamodb_client (pool st1) = None /\
               LambdaOptimizations._data_transformer (pool st1) = None).
  { subst st1. cbn. split; [| now repeat split].
    destruct Hun0 as [Ht Hb]. split.
    - split; [| exact Hb]. intros n. cbn.
      destruct Ha as (_ & _ & _ & _ & _ & A6). rewrite A6. apply Ht.
    - eapply same_io_trans; [exact Hio0 |].
      eapply same_io_trans; [exact Ha |].
      exact (exit_same_io (timeout_manager st0) wa). }
  clearbody st1. clear dependent st0. clear wa.
  destruct H1 as (Hc1 & Hs1 & Q2 & Q3 & Q4).
  (* step 2 *)
  unfold bind at 1. unfold step_initialize_cloudflare_client.
  destruct (calm_stage w
              (return_error
                 (timeout_error
                    "Lambda timeout approaching during Cloudflare client initialization"))
              (fun p w => LambdaOptimizations.get_cloudflare_client p config w)
              st1 Hc1) as (wb & st2 & Hrun & Hp2 & Hs2 & Hc2).
  rewrite Hrun. clear Hrun.
  unfold LambdaOptimizations.get_cloudflare_client in Hp2 |- *.
  rewrite Q2 in Hp2 |- *. cbn [fst snd] in Hp2 |- *.
  set (client := LambdaOptimizations.build_cloudflare_client
                   (LambdaOptimizations.allocated (pool st1)) config) in *.
  (* step 3 *)
  unfold bind at 1. unfold step_initialize_data_transformer.
  unfold LambdaOptimizations.get_data_transformer.
  rewrite Hp2. cbn [LambdaOptimizations._data_transformer
                      LambdaOptimizations._update_usage_stats].
  rewrite Q4.
  match goal with
  | |- context [bind (step_initialize_dynamodb_client config) _ ?st] =>
      set (st3 := st)
  end.
  assert (H3 : calm w st3 /\ stats st3 = new_statistics (Env.clock w) /\
               LambdaOptimizations._dynamodb_client (pool st3) = None).
  { subst st3. cbn. split; [exact Hc2 |]. split; [congruence | exact Q3]. }
  clearbody st3.
  destruct H3 as (Hc3 & Hs3 & R3).
  (* step 4 *)
  unfold bind at 1. unfold step_initialize_dynamodb_client.
  destruct (calm_stage w
              (return_error
                 (timeout_error
                    "Lambda timeout approaching during DynamoDB client initialization"))
              (fun p w => LambdaOptimizations.get_dynamodb_client p config w)
              st3 Hc3) as (wc & st4 & Hrun & Hp4 & Hs4 & Hc4).
  rewrite Hrun. clear Hrun.
  unfold LambdaOptimizations.get_dynamodb_client in Hp4 |- *.
  rewrite R3 in Hp4 |- *. cbn [fst snd] in Hp4 |- *.
  set (dbclient := LambdaOptimizations.build_dynamodb_client
                     (LambdaOptimizations.allocated (pool st3)) config) in *.
  (* step 5 *)
  unfold bind at 1. unfold step_fetch_cloudflare_value.
  destruct Hc4 as [Hun4 Hio4].
  match goal with
  | |- context [with_timeout_context ?sk ?body st4] =>
      destruct (with_timeout_context_enters sk body st4 Hun4) as (wd & Hd & Hrun)
  end.
  rewrite Hrun. clear Hrun. cbn [world].
  assert (Hio5 : same_io w wd) by (eapply same_io_trans; eassumption).
  destruct (get_value_first_reply client wd value_response) as [client' Hget].
  { reflexivity. }
  { exact Hretry. }
  { destruct Hio5 as (E1 & E2 & _). rewrite E1, E2. exact Hreply. }
  rewrite Hget. rewrite Hok, Herrs. cbn [negb orb].
  match goal with
  | |- context [bind (step_transform_data _ _ _ ?dt _ _) _ ?st] =>
      set (st5 := st); set (transformer := dt)
  end.
  set (s5 := update_statistics (new_statistics (Env.clock w))
               [("cloudflare_api_calls", 1)]).
  assert (H5 : unhurried st5 /\ stats st5 = s5 /\
               same_io (snd (Env.session_get w)) (world st5)).
  { subst st5 s5. cbn [stats world set_world set_stats store_cloudflare_client
                       set_pool timeout_manager].
    destruct Hun4 as [Ht Hb]. destruct Hio5 as (E1 & E2 & E3 & E4 & E5 & E6).
    split; [split; [| exact Hb] |]; [| split].
    - intros n. cbn. rewrite E6. apply Htime.
    - rewrite Hs4, Hs3. reflexivity.
    - unfold same_io. cbn. repeat split; congruence. }
  clearbody st5.
  destruct H5 as (Hun5 & Hs5 & Hio5').
  (* step 6 *)
  unfold bind at 1. unfold step_transform_data.
  match goal with
  | |- context [with_timeout_context ?sk ?body st5] =>
      destruct (with_timeout_context_enters sk body st5 Hun5) as (we & He & Hrun)
  end.
  rewrite Hrun. clear Hrun.
  change (DataTransformer.transform_kv_record repr json_dumps
            (LambdaOptimizations.dt_namespace_id transformer) iso (key_of event)
            (CloudflareClient.result value_response)
            (Some {| CloudflareClient.name := py_str repr (key_of event);
                     CloudflareClient.expiration := None;
                     CloudflareClient.metadata := Some [] |}))
    with record.
  rewrite Hvalid.
  match goal with
  | |- context [bind (step_store_record _ _ _ _) _ ?st] => set (st6 := st)
  end.
  set (s6 := update_statistics s5 [("records_processed", 1)]).
  assert (H6 : unhurried st6 /\ stats st6 = s6 /\
               same_io (snd (Env.session_get w)) (world st6)).
  { subst st6 s6. cbn [stats world set_world set_stats timeout_manager].
    destruct Hun5 as [Ht Hb].
    split; [split; [| exact Hb] |]; [| split].
    - intros n. cbn. destruct He as (_ & _ & _ & _ & _ & E6). rewrite E6. apply Ht.
    - rewrite Hs5. reflexivity.
    - eapply same_io_trans; [exact Hio5' |].
      eapply same_io_trans; [exact He |].
      exact (exit_same_io (timeout_manager st5) we). }
  clearbody st6.
  destruct H6 as (Hun6 & Hs6 & Hio6).
  (* step 7 *)
  unfold bind at 1. unfold step_store_record.
  match goal with
  | |- context [with_timeout_context ?sk ?body st6] =>
      destruct (with_timeout_context_enters sk body st6 Hun6) as (wf & Hf & Hrun)
  end.
  rewrite Hrun. clear Hrun. cbn [world].
  assert (Hio7 : same_io (snd (Env.session_get w)) wf)
    by (eapply same_io_trans; eassumption).
  destruct (batch_write_one dbclient record item wf Hitem)
    as (batch_result & dbclient' & Hwrite & B1 & B2 & B3 & B4).
  { subst dbclient. cbn.
    destruct (Z.eqb_spec (Config.retry_max_attempts config) 0);
      [unfold DynamoDBClient.DEFAULT_MAX_RETRIES |]; lia. }
  { destruct Hio7 as (_ & _ & E3 & E4 & _). rewrite E3, E4. exact Hstore. }
  rewrite Hwrite.
  (* step 8 *)
  unfold step_final_response, create_success_response, final_data.
  cbn [fst snd stats world set_world set_stats store_dynamodb_client set_pool
       timeout_manager pool success error data statistics].
  rewrite Hs6, !B1, B2.
  destruct Hio7 as (E1 & E2 & E3 & E4 & E5 & E6).
  split; [reflexivity |]. split; [reflexivity |].
  split; [reflexivity |]. split; [reflexivity |].
  split; [reflexivity |]. split; [reflexivity |].
  split; [reflexivity |]. split; [reflexivity |].
  split; [reflexivity |].
  cbn. rewrite E2, E4, E5. repeat split.
Qed.
End HandlerSuccess.

Section HandlerSuccessExamples.
Import Py.
Local Open Scope string_scope.
Local Open Scope Z_scope.

(** The theorem for an empty event in a new process, against the
    upstream that answers with the raw value and the table that takes
    everything. *)
Lemma handler_stores_the_fetched_value_witness :
  let '(response, pool', w') :=
    LambdaFunction.lambda_handler (fun _ => "") (fun _ => None) (fun _ => "")
      (inl (sample_config 3)) "2024-01-09T12:00:00+00:00" [] None healthy_world in
  ErrorHandler.success response = true /\
  dict_get (sub_dict (ErrorHandler.data response) "processing_summary")
    "record_stored" = Some (PyBool true) /\
  dict_get (ErrorHandler.statistics response) "records_stored" = Some (PyInt 1) /\
  Env.http_calls w' = 1%nat /\
  List.length (Env.store_requests w') = 1%nat /\
  Env.slept w' = [].
Proof.
  pose proof (handler_stores_the_fetched_value (fun _ => "") (fun _ => None)
                (fun _ => "") "2024-01-09T12:00:00+00:00" (sample_config 3) [] None
                healthy_world raw_test_value
                (item_of (fun _ => "")
                   (fetched_record (fun _ => "") (fun _ => None)
                      "2024-01-09T12:00:00+00:00" (sample_config 3) (key_of [])
                      raw_test_value))) as H.
  cbv zeta in H.
  specialize (H I).
  specialize (H (fun n => ltac:(cbn; lia))).
  specialize (H ltac:(cbn; lia)).
  specialize (H eq_refl eq_refl eq_refl).
  specialize (H ltac:(vm_compute; reflexivity)).
  specialize (H ltac:(vm_compute; reflexivity)).
  specialize (H eq_refl).
  destruct (LambdaFunction.lambda_handler (fun _ => "") (fun _ => None) (fun _ => "")
              (inl (sample_config 3)) "2024-01-09T12:00:00+00:00" [] None
              healthy_world) as [[response pool'] w'].
  destruct H as (H1 & _ & H3 & _ & _ & _ & _ & H8 & _ & H10 & H11 & H12).
  split; [exact H1 |]. split; [exact H3 |]. split; [exact H8 |].
  split; [exact H10 |]. split; [rewrite H11; reflexivity | exact H12].
Defined.

End HandlerSuccessExamples.
